(** * Quiz result analysis: a shallow embedding of the two scripts

    [analyze_results_with_perplexity.py] joins quiz definitions with
    per-session results, derives a per-question comparison context and wraps
    it in a two-message prompt; [search_trends_gb.py] prints trending topics
    from two feeds.  This development embeds the functions of both scripts
    as Rocq functions and proves the properties their specification states.

    Conventions of the embedding.
    - A Python [str] is a Rocq [string] holding the UTF-8 text; its
      characters are the code points of that text, and [strip], [lstrip],
      [splitlines], indexing and iteration work on them.
    - A Python [float] is a primitive binary64 [float]; an [int] is a [Z].
      The limits an interpreter puts on its resources (the depth of
      recursion, the digits of an [int] turned to or from text, memory)
      are outside the model.
    - Values decoded from JSON are the dynamically typed [value]s of module
      [Py]; a [dict] literal with fixed keys is a record.
    - An exception is data: a computation that may raise returns a [result].
      The messages of the interpreter's own exceptions are abridged; those
      the scripts print ([JSONDecodeError], [RuntimeError]) are exact.
    - Library functions that are not code of the repository ([json.loads],
      [json.dumps], [float] on a [str], [str] on a float or container, [sum])
      are the methods of the class [Runtime]; module [Ref] gives an
      executable instance, used to run the examples and to show that
      [json.loads] reads what [json.dumps] writes. *)

From Stdlib Require Import ZArith String Ascii List Bool Lia.
From Stdlib Require Import PrimFloat SpecFloat FloatOps FloatAxioms.
From stdpp Require Import base option list gmap strings pretty.

Set Warnings "-register-all,-clear-no-such-hyp".

Open Scope string_scope.
Open Scope list_scope.
Open Scope Z_scope.

(** ** Python values, exceptions and the builtins the scripts use *)

Module Py.

(** What [json.loads] builds, and what the scripts pass around. A [dict] is
    kept as the association list of its items in insertion order. *)
Inductive value : Type :=
| VNone
| VBool (b : bool)
| VInt (n : Z)
| VFloat (f : float)
| VStr (s : string)
| VList (xs : list value)
| VDict (kvs : list (string * value)).

(** The exceptions that occur. [JSONDecodeError] carries what Python's
    carries: the decoder's message, the document it was given and the
    offset in it. *)
Inductive exn : Type :=
| JSONDecodeError (msg doc : string) (pos : nat)
| TypeError (msg : string)
| AttributeError (msg : string)
| KeyError (msg : string)
| IndexError (msg : string)
| ValueError (msg : string)
| OverflowError (msg : string)
| RuntimeError (msg : string)
| OSError (msg : string).

Inductive result (A : Type) : Type :=
| Ok (a : A)
| Raise (e : exn).

Arguments Ok {A} a.
Arguments Raise {A} e.

(** Sequencing: an exception raised by [m] ends the computation. The
    instances give the notation [x ← m; k]. *)
#[export] Instance result_ret : MRet result := fun A a => Ok a.
#[export] Instance result_bind : MBind result := fun A B k m =>
  match m with
  | Ok a => k a
  | Raise e => Raise e
  end.

#[export] Instance result_fmap : FMap result := fun A B f m =>
  match m with
  | Ok a => Ok (f a)
  | Raise e => Raise e
  end.

(** [try: m  except Exception: h] *)
Definition try_except {A : Type} (m : result A) (h : exn -> A) : A :=
  match m with
  | Ok a => a
  | Raise e => h e
  end.

Definition is_ok {A : Type} (m : result A) : bool :=
  match m with
  | Ok _ => true
  | Raise _ => false
  end.

(** [for x in xs: body], the loop's variables threaded as [st]; an
    exception raised by the body ends the loop. *)
Fixpoint for_each {A S : Type} (xs : list A) (body : A -> S -> result S) (st : S)
  : result S :=
  match xs with
  | [] => Ok st
  | x :: rest => st' ← body x st; for_each rest body st'
  end.

(** *** Strings *)

(** The characters of a [str] are the code points its UTF-8 text encodes.
    The first byte of a code point tells how many bytes it has. *)
Definition utf8_width (c : ascii) : nat :=
  let n := nat_of_ascii c in
  if (n <? 192)%nat then 1%nat
  else if (n <? 224)%nat then 2%nat
  else if (n <? 240)%nat then 3%nat
  else 4%nat.

(** [code_points_from pending s]: the bytes at the head of [s] that belong
    to the code point begun before it, of which [pending] are due, and the
    code points after them. *)
Fixpoint code_points_from (pending : nat) (s : string) : string * list string :=
  match s with
  | "" => ("", [])
  | String c s' =>
      match pending with
      | S k => let (cont, cps) := code_points_from k s' in (String c cont, cps)
      | O =>
          let (cont, cps) := code_points_from (Nat.pred (utf8_width c)) s' in
          ("", String c cont :: cps)
      end
  end.

(** [list(s)]: the characters of [s], each as its UTF-8 text. *)
Definition code_points (s : string) : list string := (code_points_from O s).2.

(** [ord(c)] for a character given as its UTF-8 text. *)
Definition code_point (cp : string) : Z :=
  match cp with
  | "" => -1
  | String c rest =>
      let n := Z.of_nat (nat_of_ascii c) in
      let lead :=
        if n <? 128 then n
        else if n <? 192 then -1
        else if n <? 224 then n - 192
        else if n <? 240 then n - 224
        else n - 240 in
      fold_left (fun acc b => 64 * acc + (Z.of_nat (nat_of_ascii b) - 128))
                (list_ascii_of_string rest) lead
  end.

(** [c.isspace()]: the white space of Unicode, which [strip] and [lstrip]
    remove. *)
Definition is_space (cp : string) : bool :=
  let n := code_point cp in
  ((9 <=? n) && (n <=? 13)) || ((28 <=? n) && (n <=? 32))
  || (n =? 133) || (n =? 160) || (n =? 5760)
  || ((8192 <=? n) && (n <=? 8202))
  || (n =? 8232) || (n =? 8233) || (n =? 8239) || (n =? 8287) || (n =? 12288).

Fixpoint drop_while {A : Type} (p : A -> bool) (l : list A) : list A :=
  match l with
  | [] => []
  | x :: l' => if p x then drop_while p l' else l
  end.

Fixpoint drop_end_while {A : Type} (p : A -> bool) (l : list A) : list A :=
  match l with
  | [] => []
  | x :: l' =>
      match drop_end_while p l' with
      | [] => if p x then [] else [x]
      | r => x :: r
      end
  end.

(** The text made of the given pieces, one after the other. *)
Fixpoint str_concat (pieces : list string) : string :=
  match pieces with
  | [] => ""
  | p :: ps => p +:+ str_concat ps
  end.

Definition lstrip (s : string) : string :=
  str_concat (drop_while is_space (code_points s)).

Definition strip (s : string) : string :=
  str_concat (drop_end_while is_space (drop_while is_space (code_points s))).

Fixpoint lstrip_by (p : ascii -> bool) (s : string) : string :=
  match s with
  | "" => ""
  | String c s' => if p c then lstrip_by p s' else s
  end.

Fixpoint rstrip_by (p : ascii -> bool) (s : string) : string :=
  match s with
  | "" => ""
  | String c s' =>
      match rstrip_by p s' with
      | "" => if p c then "" else String c ""
      | r => String c r
      end
  end.

(** [s.strip(ch)] for a one-character ASCII argument. *)
Definition strip_char (ch : ascii) (s : string) : string :=
  rstrip_by (Ascii.eqb ch) (lstrip_by (Ascii.eqb ch) s).

Definition startswith (s pre : string) : bool := String.prefix pre s.

(** [s.lower()], used to compare the head of a line with an ASCII word.
    Letters outside ASCII are left as they are: none of them becomes a
    letter of that word in lower case. *)
Definition lower_ascii (c : ascii) : ascii :=
  let n := nat_of_ascii c in
  if ((65 <=? n)%nat && (n <=? 90)%nat) then ascii_of_nat (n + 32) else c.

Fixpoint lower (s : string) : string :=
  match s with
  | "" => ""
  | String c s' => String (lower_ascii c) (lower s')
  end.

(** [s[n:]] *)
Fixpoint str_drop (n : nat) (s : string) : string :=
  match n, s with
  | O, _ => s
  | S k, "" => ""
  | S k, String _ s' => str_drop k s'
  end.

(** [ch in s] *)
Fixpoint str_contains (ch : ascii) (s : string) : bool :=
  match s with
  | "" => false
  | String c s' => Ascii.eqb ch c || str_contains ch s'
  end.

(** [s.split(ch, 1)] when [ch] occurs in [s]: the text before the first
    occurrence and the text after it. *)
Fixpoint split_once (ch : ascii) (s : string) : string * string :=
  match s with
  | "" => ("", "")
  | String c s' =>
      if Ascii.eqb ch c then ("", s')
      else let (a, b) := split_once ch s' in (String c a, b)
  end.

(** [s.replace(old, new)] for a non-empty [old]: occurrences are replaced
    from the left and do not overlap. [skip] counts the characters of a
    matched occurrence still to be passed over. *)
Fixpoint replace_from (old new : string) (skip : nat) (s : string) : string :=
  match s with
  | "" => ""
  | String c s' =>
      match skip with
      | S k => replace_from old new k s'
      | O =>
          if String.prefix old s
          then new +:+ replace_from old new (Nat.pred (String.length old)) s'
          else String c (replace_from old new O s')
      end
  end.

Definition replace (old new s : string) : string := replace_from old new O s.

(** The line boundaries of [str.splitlines]. *)
Definition is_linebreak (cp : string) : bool :=
  let n := code_point cp in
  ((10 <=? n) && (n <=? 13)) || ((28 <=? n) && (n <=? 30))
  || (n =? 133) || (n =? 8232) || (n =? 8233).

Definition LF : string := String "010" "".
Definition CR : string := String "013" "".

(** [splitlines_from cur cps]: the lines of the characters [cps], [cur]
    being the characters of the current line read so far, in reverse. A
    carriage return followed by a line feed is one boundary; no empty last
    line is produced. *)
Fixpoint splitlines_from (cur : list string) (cps : list string) : list string :=
  match cps with
  | [] =>
      match cur with
      | [] => []
      | _ => [str_concat (rev cur)]
      end
  | c :: cps' =>
      if is_linebreak c then
        let rest :=
          match cps' with
          | c' :: cps'' =>
              if String.eqb c CR && String.eqb c' LF
              then splitlines_from [] cps''
              else splitlines_from [] cps'
          | [] => []
          end in
        str_concat (rev cur) :: rest
      else splitlines_from (c :: cur) cps'
  end.

Definition splitlines (s : string) : list string := splitlines_from [] (code_points s).

(** [sep.join(parts)] *)
Fixpoint join (sep : string) (parts : list string) : string :=
  match parts with
  | [] => ""
  | [p] => p
  | p :: ps => p +:+ sep +:+ join sep ps
  end.

(** *** Dynamically typed values *)

(** The truth value Python gives a value in [if], [or] and [not]. *)
Definition truthy (v : value) : bool :=
  match v with
  | VNone => false
  | VBool b => b
  | VInt n => negb (n =? 0)
  | VFloat f => negb (PrimFloat.eqb f 0%float)
  | VStr s => negb (String.eqb s "")
  | VList xs => match xs with [] => false | _ => true end
  | VDict kvs => match kvs with [] => false | _ => true end
  end.

(** [a or b] *)
Definition py_or (a b : value) : value := if truthy a then a else b.

Definition is_none (v : value) : bool :=
  match v with
  | VNone => true
  | _ => false
  end.

(** [d[k]] as an option, for the items of a [dict]. *)
Fixpoint assoc {V : Type} (k : string) (kvs : list (string * V)) : option V :=
  match kvs with
  | [] => None
  | (k', v) :: rest => if String.eqb k k' then Some v else assoc k rest
  end.

(** [s.strip()] of a value: only a [str] has the method. *)
Definition value_strip (v : value) : result string :=
  match v with
  | VStr s => Ok (strip s)
  | _ => Raise (AttributeError "object has no attribute 'strip'")
  end.

(** [v[0]] *)
Definition first_of (v : value) : result value :=
  match v with
  | VList (x :: _) => Ok x
  | VList [] => Raise (IndexError "list index out of range")
  | VStr s =>
      match code_points s with
      | c :: _ => Ok (VStr c)
      | [] => Raise (IndexError "string index out of range")
      end
  | VDict _ => Raise (KeyError "0")
  | _ => Raise (TypeError "object is not subscriptable")
  end.

(** [d.get(k)]: [None] when the key is missing. *)
Definition dict_get (k : string) (kvs : list (string * value)) : value :=
  default VNone (assoc k kvs).

(** [v.get]: only a [dict] has the method. *)
Definition as_dict (v : value) : result (list (string * value)) :=
  match v with
  | VDict kvs => Ok kvs
  | _ => Raise (AttributeError "object has no attribute 'get'")
  end.

Definition chars (s : string) : list value := VStr <$> code_points s.

(** [for x in v]: the elements a [for] loop visits. A [dict] yields its
    keys and a [str] its characters; the other values are not iterable. *)
Definition py_iter (v : value) : result (list value) :=
  match v with
  | VList xs => Ok xs
  | VDict kvs => Ok ((fun kv => VStr kv.1) <$> kvs)
  | VStr s => Ok (chars s)
  | _ => Raise (TypeError "object is not iterable")
  end.

(** *** Numbers *)

(** The binary64 number nearest to an integer (ties to even); infinite
    when the integer is out of range. *)
Definition float_of_Z (n : Z) : float :=
  SF2Prim (binary_normalize prec emax n 0 false).

(** [len(xs)] as the float a division converts it to. *)
Definition float_of_len {A : Type} (xs : list A) : float :=
  float_of_Z (Z.of_nat (length xs)).

(** *** The library functions the scripts call *)

Class Runtime : Type := {
  (** [json.loads(s)] for a [str]: the decoded value, or [JSONDecodeError]. *)
  json_loads : string -> result value;
  (** [json.dumps(v, ensure_ascii=False)] *)
  json_dumps : value -> string;
  (** [json.dumps(v, ensure_ascii=False, indent=2)] *)
  json_dumps_indent : value -> string;
  (** [float(s)] for a [str]; [None] stands for its [ValueError]. *)
  float_of_str : string -> option float;
  (** [str(f)] for a [float] *)
  repr_float : float -> string;
  (** [str(v)] for a [list] or a [dict] *)
  repr_container : value -> string;
  (** [sum(fs)] for a list of floats *)
  float_sum : list float -> float;
}.

Section Builtins.
Context {rt : Runtime}.

(** [float(v)] *)
Definition py_float (v : value) : result float :=
  match v with
  | VNone => Raise (TypeError "float() argument must be a string or a real number")
  | VBool b => Ok (if b then 1%float else 0%float)
  | VInt n =>
      let f := float_of_Z n in
      if PrimFloat.is_infinity f
      then Raise (OverflowError "int too large to convert to float")
      else Ok f
  | VFloat f => Ok f
  | VStr s =>
      match float_of_str s with
      | Some f => Ok f
      | None => Raise (ValueError "could not convert string to float")
      end
  | VList _ | VDict _ =>
      Raise (TypeError "float() argument must be a string or a real number")
  end.

(** [str(v)] *)
Definition py_str (v : value) : string :=
  match v with
  | VNone => "None"
  | VBool b => if b then "True" else "False"
  | VInt n => pretty n
  | VFloat f => repr_float f
  | VStr s => s
  | VList _ | VDict _ => repr_container v
  end.

(** [sep.join(v)]: the elements of [v] must all be [str]. *)
Definition join_values (sep : string) (v : value) : result string :=
  xs ← py_iter v;
  parts ← for_each xs
    (fun x acc =>
       match x with
       | VStr s => Ok (acc ++ [s])
       | _ => Raise (TypeError "sequence item: expected str instance")
       end) [];
  Ok (join sep parts).

End Builtins.

(** [xs[:n]] *)
Definition slice_to {A : Type} (n : Z) (xs : list A) : list A :=
  if 0 <=? n then take (Z.to_nat n) xs
  else take (Z.to_nat (Z.of_nat (length xs) + n)) xs.

(** The line feeds among the first [n] characters. *)
Fixpoint count_newlines (n : nat) (cps : list string) : nat :=
  match n, cps with
  | S k, c :: cps' =>
      ((if String.eqb c LF then 1 else 0) + count_newlines k cps')%nat
  | _, _ => O
  end.

(** The number of characters of the first [n] after the last line feed
    among them; all [n] when there is none. *)
Fixpoint since_newline (n : nat) (col : nat) (cps : list string) : nat :=
  match n, cps with
  | S k, c :: cps' =>
      if String.eqb c LF then since_newline k O cps' else since_newline k (S col) cps'
  | _, _ => col
  end.

(** [str(e)] of an exception. A [JSONDecodeError] adds the line, the column
    and the offset to its message, all counted in characters. *)
Definition exn_str (e : exn) : string :=
  match e with
  | JSONDecodeError msg doc pos =>
      msg +:+ ": line " +:+ pretty (S (count_newlines pos (code_points doc)))
          +:+ " column " +:+ pretty (S (since_newline pos O (code_points doc)))
          +:+ " (char " +:+ pretty pos +:+ ")"
  | TypeError msg | AttributeError msg | KeyError msg | IndexError msg
  | ValueError msg | OverflowError msg | RuntimeError msg | OSError msg => msg
  end.

(** [os.environ[key] = val]: a name with an equals sign and text with a
    null character are refused. *)
Definition environ_set (key val : string) (env : gmap string string)
  : result (gmap string string) :=
  if str_contains "=" key then Raise (ValueError "illegal environment variable name")
  else if str_contains "000" key || str_contains "000" val
  then Raise (ValueError "embedded null byte")
  else Ok (<[key := val]> env).

(** [os.getenv(key)] as a value: [None] when the variable is not set. *)
Definition getenv (key : string) (env : gmap string string) : value :=
  match env !! key with
  | Some v => VStr v
  | None => VNone
  end.

End Py.

(** ** Dictionaries that are iterated: insertion order kept *)

Module ODict.

Section WithValue.
Context {V : Type}.

(** [d[k] = v]: a key already present keeps its place and takes the new
    value; a new key goes last. *)
Fixpoint set (k : string) (v : V) (d : list (string * V)) : list (string * V) :=
  match d with
  | [] => [(k, v)]
  | (k', v') :: rest =>
      if String.eqb k k' then (k, v) :: rest else (k', v') :: set k v rest
  end.

(** [d.values()] *)
Definition values (d : list (string * V)) : list V := snd <$> d.

Definition keys (d : list (string * V)) : list string := fst <$> d.

End WithValue.

End ODict.

(** ** analyze_results_with_perplexity.py *)

Module Analyze.
Import Py.

Record Source : Type := {
  name : value;   (* [Optional[str]]: [VNone] when the source has no name *)
  url : string;
}.

Record QuestionMeta : Type := {
  id : string;
  question : string;
  category : value;
  sources : list Source;
}.

(** One row of [load_results]: the dict [norm]. *)
Record ResultRecord : Type := {
  result_id : string;
  session_id : string;
  quiz_link_id : string;
  pki_score : option string;
  created_at : string;
  perceptions : value;
}.

(** The dicts [build_context_for_result] builds. *)
Record SourceRef : Type := {
  ref_name : value;
  ref_url : string;
}.

Record Item : Type := {
  question_id : string;
  item_question : string;
  item_category : value;
  user_guess : value;
  actual_value : value;
  abs_error : option float;
  item_sources : list SourceRef;
}.

Record Summary : Type := {
  num_questions : nat;
  mean_abs_error : option float;
  num_with_sources : nat;
}.

Record Context : Type := {
  ctx_result_id : string;
  ctx_session_id : string;
  ctx_quiz_link_id : string;
  ctx_created_at : string;
  summary : Summary;
  items : list Item;
  candidate_sources : list SourceRef;
}.

Record Message : Type := {
  role : string;
  content : string;
}.

(** Two double quotes, and one. *)
Definition dquote2 : string := String "034" (String "034" "").
Definition dquote1 : string := String "034" "".

(** [row.get(k) or ""] for a row of [csv.DictReader]; a cell that is
    missing from a short row reads as the empty string. *)
Definition cell (row : gmap string string) (k : string) : string :=
  default "" (row !! k).

(** [not row] *)
Definition row_is_empty (row : gmap string string) : bool :=
  bool_decide (row = ∅).

(** [s.name or s.url] *)
Definition name_or_url (s : Source) : value :=
  if truthy (name s) then name s else VStr (url s).

(** [{"name": s.name or s.url, "url": s.url}] *)
Definition source_ref (s : Source) : SourceRef :=
  {| ref_name := name_or_url s; ref_url := url s |}.

(** [i.get("sources")] as a truth value *)
Definition has_sources (i : Item) : bool :=
  match item_sources i with
  | [] => false
  | _ => true
  end.

(** The records above as the dicts they are, keys in the order the source
    writes them: what [json.dumps] is given. *)
Definition float_or_none (o : option float) : value :=
  match o with
  | Some f => VFloat f
  | None => VNone
  end.

Definition source_ref_dict (r : SourceRef) : value :=
  VDict [("name", ref_name r); ("url", VStr (ref_url r))].

Definition item_dict (i : Item) : value :=
  VDict [("question_id", VStr (question_id i));
         ("question", VStr (item_question i));
         ("category", item_category i);
         ("user_guess", user_guess i);
         ("actual_value", actual_value i);
         ("abs_error", float_or_none (abs_error i));
         ("sources", VList (source_ref_dict <$> item_sources i))].

Definition summary_dict (s : Summary) : value :=
  VDict [("num_questions", VInt (Z.of_nat (num_questions s)));
         ("mean_abs_error", float_or_none (mean_abs_error s));
         ("num_with_sources", VInt (Z.of_nat (num_with_sources s)))].

Definition context_dict (c : Context) : value :=
  VDict [("result_id", VStr (ctx_result_id c));
         ("session_id", VStr (ctx_session_id c));
         ("quiz_link_id", VStr (ctx_quiz_link_id c));
         ("created_at", VStr (ctx_created_at c));
         ("summary", summary_dict (summary c));
         ("items", VList (item_dict <$> items c));
         ("candidate_sources", VList (source_ref_dict <$> candidate_sources c))].

Definition sys_prompt : string :=
  "You are an educational explainer and fact-grounded analyst. " +:+
  "Given a user's quiz results that compare their guesses against actual values, " +:+
  "identify key misconceptions, quantify where possible, and offer concise, actionable guidance to learn. " +:+
  "Cite sources with direct URLs. Prefer the provided candidate sources when relevant. " +:+
  "Be neutral, clear, and avoid fluff.".

Definition user_payload (context : value) : value :=
  VDict [
    ("task", VStr "Analyze quiz performance and provide educational guidance with citations.");
    ("result_context", context);
    ("requirements", VList [
       VStr "Summarize overall performance and common patterns of error/bias.";
       VStr "For each theme/misconception, explain briefly and suggest how to recalibrate.";
       VStr "Include 4-8 relevant sources with URLs; prefer candidate_sources when suitable.";
       VStr "Return a short bullet list of next steps for learning."]);
    ("format", VDict [
       ("style", VStr "markdown");
       ("sections", VList [
          VStr "Overview";
          VStr "Key Misconceptions";
          VStr "Recommended Sources";
          VStr "Next Steps"])])].

(** Best-effort extraction of the assistant's text from a response. *)
Definition extract_markdown_content (response_json : value) : option string :=
  try_except
    (d ← as_dict response_json;
     let choices := py_or (dict_get "choices" d) (VList []) in
     if negb (truthy choices) then Ok None
     else
       first ← first_of choices;
       choice ← as_dict first;
       msg ← as_dict (py_or (dict_get "message" choice) (VDict []));
       match dict_get "content" msg with
       | VStr content =>
           if negb (String.eqb (strip content) "") then Ok (Some content) else Ok None
       | _ => Ok None
       end)
    (fun _ => None).

(** *** The .env file ([load_env_file], local to [main]) *)

(** The body of the loop of [load_env_file] on one line of the file. *)
Definition load_env_line (raw : string) (env : gmap string string)
  : result (gmap string string) :=
  let line := strip raw in
  if String.eqb line "" || startswith line "#" then Ok env
  else
    let line :=
      if startswith (lower line) "export " then lstrip (str_drop 7 line) else line in
    if negb (str_contains "=" line) then Ok env
    else
      let (key, val) := split_once "=" line in
      let key := strip key in
      let val := strip_char "'" (strip_char "034" (strip val)) in
      if negb (String.eqb key "") && bool_decide (env !! key = None)
      then environ_set key val env
      else Ok env.

(** The loop of the [try] block: the environment it leaves behind, and the
    exception that ended it, if one did. What the lines before that one
    set stays set. *)
Fixpoint load_env_lines (lines : list string) (env : gmap string string)
  : gmap string string * option exn :=
  match lines with
  | [] => (env, None)
  | raw :: rest =>
      match load_env_line raw env with
      | Ok env' => load_env_lines rest env'
      | Raise e => (env, Some e)
      end
  end.

(** [load_env_file(env_path)] on the process environment. [file] is [None]
    when the path does not exist, the exception of [read_text] when the
    file cannot be read, and its text otherwise. An exception inside the
    [try] block is dropped. *)
Definition load_env_file (file : option (result string)) (env : gmap string string)
  : gmap string string :=
  match file with
  | None => env
  | Some (Raise _) => env
  | Some (Ok text) => (load_env_lines (splitlines text) env).1
  end.

Section WithRuntime.
Context {rt : Runtime}.

(** [try: json.loads(s)  except json.JSONDecodeError: json.loads(s')], where
    [s'] is [s] with every doubled double quote replaced by a single one;
    both loaders write it so. *)
Definition loads_with_fallback (s : string) : result value :=
  match json_loads s with
  | Raise (JSONDecodeError _ _ _) => json_loads (replace dquote2 dquote1 s)
  | r => r
  end.

(** The body of [for s in (item.get("sources") or [])]. *)
Definition load_source (s : value) (sources_list : list Source)
  : result (list Source) :=
  d ← as_dict s;
  let url := strip (py_str (py_or (dict_get "url" d) (VStr ""))) in
  if String.eqb url "" then Ok sources_list
  else
    let name := py_or (dict_get "name" d) VNone in
    Ok (sources_list ++ [{| name := name; url := url |}]).

(** The body of [for item in qitems]. *)
Definition load_question (item : value) (qmap : gmap string QuestionMeta)
  : result (gmap string QuestionMeta) :=
  d ← as_dict item;
  let qid :=
    strip (py_str (py_or (dict_get "id" d)
                         (py_or (dict_get "questionId" d) (VStr "")))) in
  if String.eqb qid "" then Ok qmap
  else
    let question :=
      strip (py_str (py_or (dict_get "question" d)
                           (py_or (dict_get "questionText" d) (VStr "")))) in
    let category := py_or (dict_get "category" d) VNone in
    ss ← py_iter (py_or (dict_get "sources" d) (VList []));
    sources_list ← for_each ss load_source [];
    Ok (<[qid := {| id := qid; question := question; category := category;
                    sources := sources_list |}]> qmap).

(** The body of [for row in reader] in [load_quizzes]. *)
Definition load_quiz_row (row : gmap string string)
  (quizzes : gmap string (gmap string QuestionMeta))
  : result (gmap string (gmap string QuestionMeta)) :=
  if row_is_empty row then Ok quizzes
  else
    let quiz_link_id := strip (cell row "Quiz Link ID") in
    if String.eqb quiz_link_id "" then Ok quizzes
    else
      let qjson_str := strip (cell row "Questions JSON") in
      if String.eqb qjson_str "" then Ok quizzes
      else
        qitems ← loads_with_fallback qjson_str;
        its ← py_iter qitems;
        qmap ← for_each its load_question ∅;
        Ok (<[quiz_link_id := qmap]> quizzes).

(** [load_quizzes], given the rows [csv.DictReader] yields. *)
Definition load_quizzes (rows : list (gmap string string))
  : result (gmap string (gmap string QuestionMeta)) :=
  for_each rows load_quiz_row ∅.

(** The body of [for row in reader] in [load_results]. *)
Definition load_result_row (row : gmap string string) (rows : list ResultRecord)
  : result (list ResultRecord) :=
  if row_is_empty row then Ok rows
  else
    let pjson_str := strip (cell row "Perceptions JSON") in
    perceptions ←
      (if negb (String.eqb pjson_str "") then loads_with_fallback pjson_str
       else Ok (VList []));
    let norm := {|
      result_id := strip (cell row "Result ID");
      session_id := strip (cell row "Session ID");
      quiz_link_id := strip (cell row "Quiz Link ID");
      pki_score := row !! "PKI Score";
      created_at := strip (cell row "Created At");
      perceptions := perceptions;
    |} in
    if negb (String.eqb (result_id norm) "") then Ok (rows ++ [norm])
    else Ok rows.

(** [load_results], given the rows [csv.DictReader] yields. *)
Definition load_results (rows : list (gmap string string))
  : result (list ResultRecord) :=
  for_each rows load_result_row [].

(** The error metric of one perception: [None] unless both values are
    present and [float] accepts both. *)
Definition abs_error_of (user_val actual_val : value) : option float :=
  try_except
    (if negb (is_none user_val) && negb (is_none actual_val) then
       u ← py_float user_val;
       a ← py_float actual_val;
       Ok (Some (PrimFloat.abs (PrimFloat.sub u a)))
     else Ok None)
    (fun _ => None).

(** The body of [for s in meta.sources], on [(srcs, all_sources)]. *)
Definition visit_source (st : list SourceRef * list (string * Source)) (s : Source)
  : list SourceRef * list (string * Source) :=
  (st.1 ++ [source_ref s], ODict.set (url s) s st.2).

(** The body of [for entry in result.get("perceptions", [])], on
    [(items, all_sources)]. *)
Definition build_item (quiz_meta : gmap string QuestionMeta) (entry : value)
  (st : list Item * list (string * Source))
  : result (list Item * list (string * Source)) :=
  d ← as_dict entry;
  let qid := strip (py_str (py_or (dict_get "questionId" d) (VStr ""))) in
  let meta := quiz_meta !! qid in
  let question_text :=
    strip (py_str (py_or (dict_get "questionText" d)
                         (VStr (match meta with
                                | Some m => question m
                                | None => ""
                                end)))) in
  let user_val := dict_get "userGuessValue" d in
  let actual_val := dict_get "actualValue" d in
  let category :=
    match meta with
    | Some m => category m
    | None => VNone
    end in
  let err := abs_error_of user_val actual_val in
  let visited :=
    match meta with
    | Some m =>
        match sources m with
        | [] => ([], st.2)
        | ss => fold_left visit_source ss ([], st.2)
        end
    | None => ([], st.2)
    end in
  Ok (st.1 ++ [{| question_id := qid;
                  item_question := question_text;
                  item_category := category;
                  user_guess := user_val;
                  actual_value := actual_val;
                  abs_error := err;
                  item_sources := visited.1 |}],
      visited.2).

(** [(sum(errors) / len(errors)) if errors else None] *)
Definition mean_or_none (errors : list float) : option float :=
  match errors with
  | [] => None
  | _ => Some (PrimFloat.div (float_sum errors) (float_of_len errors))
  end.

Definition build_context_for_result (res : ResultRecord)
  (quiz_meta : gmap string QuestionMeta) : result Context :=
  entries ← py_iter (perceptions res);
  st ← for_each entries (build_item quiz_meta) ([], []);
  let items := st.1 in
  let all_sources := st.2 in
  let errors := omap abs_error items in
  let summary := {|
    num_questions := length items;
    mean_abs_error := mean_or_none errors;
    num_with_sources := length (List.filter has_sources items);
  |} in
  Ok {| ctx_result_id := result_id res;
        ctx_session_id := session_id res;
        ctx_quiz_link_id := quiz_link_id res;
        ctx_created_at := created_at res;
        summary := summary;
        items := items;
        candidate_sources := source_ref <$> ODict.values all_sources |}.

Definition build_prompt_messages (context : value) : list Message :=
  [ {| role := "system"; content := sys_prompt |};
    {| role := "user"; content := json_dumps (user_payload context) |} ].

End WithRuntime.

End Analyze.

(** ** search_trends_gb.py *)

Module Trends.
Import Py.

(** *** The .env file *)

(** The body of the loop of [load_env_file] on one line of the file. *)
Definition load_env_line (raw : string) (env : gmap string string)
  : result (gmap string string) :=
  let line := strip raw in
  if String.eqb line "" || startswith line "#" then Ok env
  else
    let line :=
      if startswith (lower line) "export " then lstrip (str_drop 7 line) else line in
    if negb (str_contains "=" line) then Ok env
    else
      let (key, val) := split_once "=" line in
      let key := strip key in
      let val := strip_char "'" (strip_char "034" (strip val)) in
      if negb (String.eqb key "") && bool_decide (env !! key = None)
      then environ_set key val env
      else Ok env.

(** The loop of the [try] block: the environment it leaves behind, and the
    exception that ended it, if one did. What the lines before that one
    set stays set. *)
Fixpoint load_env_lines (lines : list string) (env : gmap string string)
  : gmap string string * option exn :=
  match lines with
  | [] => (env, None)
  | raw :: rest =>
      match load_env_line raw env with
      | Ok env' => load_env_lines rest env'
      | Raise e => (env, Some e)
      end
  end.

(** [load_env_file(env_path)] on the process environment. [file] is [None]
    when the path does not exist, the exception of [read_text] when the
    file cannot be read, and its text otherwise. An exception inside the
    [try] block is dropped. *)
Definition load_env_file (file : option (result string)) (env : gmap string string)
  : gmap string string :=
  match file with
  | None => env
  | Some (Raise _) => env
  | Some (Ok text) => (load_env_lines (splitlines text) env).1
  end.

(** *** The outside world

    What the program does to its surroundings is a trace of events; what
    the surroundings answer is given by a [World]. *)

Inductive event : Type :=
| Print (text : string)                            (* [print(text)] *)
| HttpGet (url : string)                           (* [urlopen(Request(url, ...), timeout=20)] *)
| Search (api_key query : string) (max_results : Z) (* [client.search.create] *)
| MkdirParent (path : string)                      (* [path.parent.mkdir(parents=True, exist_ok=True)] *)
| WriteText (path text : string).                  (* [path.write_text(text)] *)

Inductive http_outcome : Type :=
| HttpURLError (e : string)      (* [URLError] or [HTTPError], with its text *)
| HttpOtherError (e : string)    (* another exception, with its text *)
| HttpBody (data : string).      (* the bytes read *)

(** One [item] element of the feed: what [findtext] gives for [title],
    [pubDate] and [ht:approx_traffic]. *)
Record RssEntry : Type := {
  entry_title : option string;
  entry_pub_date : option string;
  entry_approx_traffic : option string;
}.

Record World : Type := {
  (** the file [.env] *)
  dotenv : option (result string);
  (** the answer to the request made after [n] earlier ones *)
  http : nat -> string -> http_outcome;
  (** what the SDK does with a search: an exception (also when the package
      is missing) or the response, normalised to plain values *)
  sdk_search : string -> string -> Z -> result value;
  (** what [xml.etree.ElementTree] makes of the RSS bytes: an exception, or
      the [item] elements of the [channel] ([None] without a channel) *)
  rss_xml : string -> result (option (list RssEntry));
  (** what the file system answers to the making of a directory or the
      writing of a file, after the events before it: the exception it
      raises, if it does *)
  fs_error : list event -> event -> option exn;
  (** the exception of [json.dumps] on a response of the SDK, if it raises:
      a response may hold what is not JSON data *)
  dump_error : value -> option exn;
}.

Record State : Type := {
  environ : gmap string string;
  trace : list event;
}.

(** A step of the program: it may raise, and it leaves a state either way. *)
Definition M (A : Type) : Type := State -> result A * State.

#[export] Instance M_ret : MRet M := fun A a st => (Ok a, st).
#[export] Instance M_bind : MBind M := fun A B k m st =>
  match m st with
  | (Ok a, st') => k a st'
  | (Raise e, st') => (Raise e, st')
  end.

Definition lift {A : Type} (r : result A) : M A := fun st => (r, st).

Definition emit (ev : event) : M unit := fun st =>
  (Ok tt, {| environ := environ st; trace := trace st ++ [ev] |}).

Definition print (text : string) : M unit := emit (Print text).

(** A call the surroundings may refuse: it is made, and raises what they
    answer. *)
Definition attempt (ev : event) (answer : option exn) : M unit := fun st =>
  (match answer with
   | Some e => Raise e
   | None => Ok tt
   end,
   {| environ := environ st; trace := trace st ++ [ev] |}).

(** [try: m  except Exception as e: h e] *)
Definition try_with {A : Type} (m : M A) (h : exn -> M A) : M A := fun st =>
  match m st with
  | (Raise e, st') => h e st'
  | r => r
  end.

(** [for i, x in enumerate(xs, start=i): body i x] *)
Fixpoint for_enumerate {A : Type} (i : nat) (xs : list A) (body : nat -> A -> M unit)
  : M unit :=
  match xs with
  | [] => mret tt
  | x :: rest => _ ← body i x; for_enumerate (S i) rest body
  end.

Definition is_get (ev : event) : bool :=
  match ev with
  | HttpGet _ => true
  | _ => false
  end.

(** [urlopen] and [read]: the request is made, the world answers. *)
Definition urlopen (w : World) (url : string) : M http_outcome := fun st =>
  (Ok (http w (length (List.filter is_get (trace st))) url),
   {| environ := environ st; trace := trace st ++ [HttpGet url] |}).

Definition rss_url : string :=
  "https://trends.google.com/trends/trendingsearches/daily/rss?geo=GB".

Definition realtime_url : string :=
  "https://trends.google.com/trends/api/realtimetrends" +:+ "?" +:+
  "hl=en-GB&tz=0&cat=all&fi=0&fs=0&geo=GB&ri=300&rs=50&sort=0".

Definition em_dash : string := " — ".
Definition newline : string := String "010" "".

Record Args : Type := {
  max_results : Z;
  query : string;
  out : option string;
  print_json : bool;
  include_rss : bool;
  realtime : bool;
  search_only : bool;
}.

Section WithRuntime.
Context {rt : Runtime}.

(** *** The fetchers *)

Definition call_perplexity_search (w : World) (query : string) (max_results : Z)
  : M value := fun st =>
  let api_key := py_or (getenv "PPLX_API_KEY" (environ st))
                       (getenv "PERPLEXITY_API_KEY" (environ st)) in
  if negb (truthy api_key) then
    (Raise (RuntimeError "Missing API key. Set PPLX_API_KEY or PERPLEXITY_API_KEY."), st)
  else
    (sdk_search w (py_str api_key) query max_results,
     {| environ := environ st;
        trace := trace st ++ [Search (py_str api_key) query max_results] |}).

Definition or_empty (o : option string) : string := strip (default "" o).

Definition rss_item_dict (it : RssEntry) : value :=
  VDict [("title", VStr (or_empty (entry_title it)));
         ("approx_traffic", VStr (or_empty (entry_approx_traffic it)));
         ("pub_date", VStr (or_empty (entry_pub_date it)))].

(** What [fetch_gb_daily_rss] returns, given the outcome of its request. *)
Definition rss_result (w : World) (outcome : http_outcome) : list (string * value) :=
  match outcome with
  | HttpURLError e => [("error", VStr ("Failed to fetch RSS: " +:+ e))]
  | HttpOtherError e => [("error", VStr ("Unexpected error fetching RSS: " +:+ e))]
  | HttpBody data =>
      match rss_xml w data with
      | Ok channel =>
          let items :=
            match channel with
            | Some its => rss_item_dict <$> its
            | None => []
            end in
          [("source", VStr rss_url); ("items", VList items)]
      | Raise e => [("error", VStr ("Failed to parse RSS XML: " +:+ exn_str e))]
      end
  end.

Definition fetch_gb_daily_rss (w : World) : M (list (string * value)) :=
  outcome ← urlopen w rss_url;
  mret (rss_result w outcome).

(** The body of [for s in stories], on [items]. *)
Definition realtime_story (s : value) (items : list value) : result (list value) :=
  d ← as_dict s;
  title ← value_strip (py_or (dict_get "title" d) (VStr ""));
  let entities := py_or (dict_get "entityNames" d) (VList []) in
  label ←
    (if negb (String.eqb title "") then Ok (VStr title)
     else if truthy entities then first_of entities
     else Ok (VStr ""));
  let started := py_or (dict_get "timeRange" d) (dict_get "timestamp" d) in
  Ok (items ++ [VDict [("label", label); ("entities", entities); ("started", started)]]).

(** The body of [for t in (data.get("trendingSearches") or [])], on [items]. *)
Definition realtime_search (t : value) (items : list value) : result (list value) :=
  d ← as_dict t;
  title ← as_dict (default (VDict []) (assoc "title" d));
  let q := py_or (dict_get "query" title) (VStr "") in
  Ok (items ++ [VDict [("label", q);
                       ("entities", if truthy q then VList [q] else VList []);
                       ("started", dict_get "formattedTraffic" d)]]).

(** A loop inside [try: ... except Exception: pass]: the items appended
    before an exception stay. *)
Fixpoint collect (xs : list value) (body : value -> list value -> result (list value))
  (items : list value) : list value :=
  match xs with
  | [] => items
  | x :: rest =>
      match body x items with
      | Ok items' => collect rest body items'
      | Raise _ => items
      end
  end.

(** The elements of the first loop of [fetch_gb_realtime], if the lookups
    before it do not raise. *)
Definition realtime_stories (data : value) : result (list value) :=
  d ← as_dict data;
  summaries ← as_dict (py_or (dict_get "storySummaries" d) (VDict []));
  py_iter (py_or (dict_get "trendingStories" summaries) (VList [])).

Definition realtime_searches (data : value) : result (list value) :=
  d ← as_dict data;
  py_iter (py_or (dict_get "trendingSearches" d) (VList [])).

Definition anti_csrf_prefix : string := ")]}'".

(** What [fetch_gb_realtime] returns, given the outcome of its request. *)
Definition realtime_result (outcome : http_outcome) (max_items : Z)
  : list (string * value) :=
  match outcome with
  | HttpURLError e => [("error", VStr ("Failed to fetch realtime trends: " +:+ e))]
  | HttpOtherError e => [("error", VStr ("Unexpected error fetching realtime: " +:+ e))]
  | HttpBody raw =>
      let raw :=
        if startswith raw anti_csrf_prefix
        then lstrip (str_drop (String.length anti_csrf_prefix) raw)
        else raw in
      match json_loads raw with
      | Raise e => [("error", VStr ("Failed to parse realtime JSON: " +:+ exn_str e))]
      | Ok data =>
          let items :=
            match realtime_stories data with
            | Ok stories => collect stories realtime_story []
            | Raise _ => []
            end in
          let items :=
            match items with
            | [] =>
                match realtime_searches data with
                | Ok searches => collect searches realtime_search []
                | Raise _ => []
                end
            | _ => items
            end in
          [("items", VList (slice_to max_items items))]
      end
  end.

Definition fetch_gb_realtime (w : World) (max_items : Z) : M (list (string * value)) :=
  outcome ← urlopen w realtime_url;
  mret (realtime_result outcome max_items).

(** *** Printing *)

Definition format_result_line (item : value) : result string :=
  d ← as_dict item;
  let title := py_or (dict_get "title" d) (py_or (dict_get "name" d) (VStr "(no title)")) in
  let url := py_or (dict_get "url" d) (py_or (dict_get "link" d) (VStr "")) in
  let snippet := py_or (dict_get "snippet" d) (py_or (dict_get "description" d) (VStr "")) in
  snippet ←
    (if truthy snippet
     then s ← value_strip snippet; Ok (VStr (replace newline " " s))
     else Ok snippet);
  Ok ("- " +:+ py_str title +:+ " :: " +:+ py_str url +:+ newline +:+ "  "
           +:+ py_str snippet).

(** The lines of the RSS items, as both places of [main] print them. *)
Definition print_rss_item (i : nat) (item : value) : M unit :=
  d ← lift (as_dict item);
  let t := py_or (dict_get "title" d) (VStr "(no title)") in
  let a := py_or (dict_get "approx_traffic" d) (VStr "") in
  let dt := py_or (dict_get "pub_date" d) (VStr "") in
  let line := pretty i +:+ ". " +:+ py_str t in
  let line := if truthy a then line +:+ em_dash +:+ py_str a else line in
  let line := if truthy dt then line +:+ em_dash +:+ py_str dt else line in
  print line.

Definition print_rss (rss : list (string * value)) (max_results : Z) : M unit :=
  if truthy (dict_get "error" rss) then print (py_str (dict_get "error" rss))
  else
    items ← lift (py_iter (py_or (dict_get "items" rss) (VList [])));
    for_enumerate 1 (slice_to max_results items) print_rss_item.

Definition print_realtime_item (i : nat) (item : value) : M unit :=
  d ← lift (as_dict item);
  let label := py_or (dict_get "label" d) (VStr "(no label)") in
  let ents := py_or (dict_get "entities" d) (VList []) in
  let started := py_or (dict_get "started" d) (VStr "") in
  extra ←
    (if truthy ents
     then joined ← lift (join_values ", " ents); mret (em_dash +:+ joined)
     else mret "");
  let extra := if truthy started then extra +:+ em_dash +:+ py_str started else extra in
  print (pretty i +:+ ". " +:+ py_str label +:+ extra).

(** [if args.realtime: ...] *)
Definition realtime_block (w : World) (max_results : Z) : M unit :=
  _ ← print (newline +:+ "GB Realtime Trending (web UI API):");
  rt_dict ← fetch_gb_realtime w max_results;
  if truthy (dict_get "error" rt_dict) then
    _ ← print (py_str (dict_get "error" rt_dict));
    _ ← print "Falling back to GB Daily RSS...";
    rss ← fetch_gb_daily_rss w;
    print_rss rss max_results
  else
    items ← lift (py_iter (default (VList []) (assoc "items" rt_dict)));
    for_enumerate 1 items print_realtime_item.

(** [if args.include_rss: ...] *)
Definition rss_block (w : World) (max_results : Z) : M unit :=
  _ ← print (newline +:+ "GB Daily Trending Searches (RSS):");
  rss ← fetch_gb_daily_rss w;
  print_rss rss max_results.

(** The body of [for item in results]. *)
Definition print_result (item : value) : M unit :=
  match format_result_line item with
  | Ok line => print line
  | Raise _ => print ("- " +:+ py_str item)
  end.

Fixpoint print_results (items : list value) : M unit :=
  match items with
  | [] => mret tt
  | item :: rest => _ ← print_result item; print_results rest
  end.

(** [if not args.search_only: ...] *)
Definition results_block (results : value) : M unit :=
  _ ← print (newline +:+ "Top results restricted to trends.google.com (GB):");
  if negb (truthy results) then print "(No results returned)"
  else
    items ← lift (py_iter results);
    print_results items.

(** [resp.get("results") or resp.get("data") or []], inside its [try]. *)
Definition results_of (resp : value) : value :=
  match as_dict resp with
  | Ok d => py_or (dict_get "results" d) (py_or (dict_get "data" d) (VList []))
  | Raise _ => VList []
  end.

Definition unless (b : bool) (m : M unit) : M unit := if b then mret tt else m.
Definition when (b : bool) (m : M unit) : M unit := if b then m else mret tt.

(** [p.parent.mkdir(...)] and [p.write_text(...)]: they raise what the file
    system answers. *)
Definition file_op (w : World) (ev : event) : M unit := fun st =>
  attempt ev (fs_error w (trace st) ev) st.

(** [json.dumps(resp, ensure_ascii=False, indent=2)] *)
Definition dump_response (w : World) (resp : value) : M string :=
  lift (match dump_error w resp with
        | Some e => Raise e
        | None => Ok (json_dumps_indent resp)
        end).

(** [if args.out: ...]: nothing catches what the directory, the dump or the
    file raises. *)
Definition out_block (w : World) (path : string) (resp : value) : M unit :=
  _ ← file_op w (MkdirParent path);
  text ← dump_response w resp;
  _ ← file_op w (WriteText path text);
  print (newline +:+ "Wrote raw JSON to: " +:+ path).

(** [if args.print_json: ...] *)
Definition json_block (w : World) (resp : value) : M unit :=
  _ ← print (newline +:+ "--- Raw Search JSON ---");
  text ← dump_response w resp;
  print text.

(** [main]: the exit status, after the steps above in order. *)
Definition main (w : World) (args : Args) : M Z :=
  _ ← (fun st => (Ok tt, {| environ := load_env_file (dotenv w) (environ st);
                            trace := trace st |}));
  let realtime :=
    if negb (include_rss args) && negb (realtime args) && negb (search_only args)
    then true else realtime args in
  resp ← try_with (call_perplexity_search w (query args) (max_results args))
                  (fun e => _ ← print ("Error calling Perplexity Search API: " +:+ exn_str e);
                            mret (VDict []));
  let results := results_of resp in
  _ ← when realtime (realtime_block w (max_results args));
  _ ← when (include_rss args) (rss_block w (max_results args));
  _ ← unless (search_only args) (results_block results);
  _ ← match out args with
      | Some path => out_block w path resp
      | None => mret tt
      end;
  _ ← when (print_json args) (json_block w resp);
  mret 0.

(** Running [main] from the environment the process starts with. *)
Definition run (w : World) (args : Args) (env : gmap string string)
  : result Z * State :=
  main w args {| environ := env; trace := [] |}.

End WithRuntime.

End Trends.

(** ** A reference instance of the library functions

    Executable models of CPython's [float], [str], [sum], [json.loads] and
    [json.dumps], used to run the functions above on concrete inputs. The
    theorems about the scripts hold for every [Runtime]; those stated for
    this instance say so. *)

Module Ref.
Import Py.

Definition byte (n : Z) : ascii := ascii_of_N (Z.to_N n).

(** *** Floats and decimal text *)

(** The binary64 number nearest to [p / q], for [0 <= p] and [0 < q]: the
    quotient is taken with more than 53 bits and a sticky last bit. *)
Definition float_of_ratio (p q : Z) : float :=
  if p =? 0 then 0%float else
  let s := Z.max 0 (64 + Z.log2 q - Z.log2 p) in
  let n := p * 2 ^ s in
  let quo := n / q in
  let sticky := if n mod q =? 0 then 0 else 1 in
  SF2Prim (binary_normalize prec emax (2 * quo + sticky) (- s - 1) false).

(** The binary64 number nearest to [m * 10^e], for [0 <= m]. *)
Definition float_of_decimal (m e : Z) : float :=
  if 0 <=? e then float_of_Z (m * 10 ^ e) else float_of_ratio m (10 ^ (- e)).

(** [str(f)]: the shortest decimal that reads back as [f].

    [x = p / q > 0]: the largest [t] with [10^t <= x], searched upwards
    from an under-estimate. *)
Fixpoint ilog10_from (fuel : nat) (p q t : Z) : Z :=
  match fuel with
  | O => t
  | S k =>
      let next := t + 1 in
      let fits := if 0 <=? next then 10 ^ next * q <=? p else q <=? p * 10 ^ (- next) in
      if fits then ilog10_from k p q next else t
  end.

Definition ilog10 (p q : Z) : Z :=
  ilog10_from 8 p q ((Z.log2 p - Z.log2 q - 1) * 30102 / 100000 - 2).

(** The integer part of [p / q / 10^j], and whether nothing is left. *)
Definition scaled (p q j : Z) : Z * bool :=
  if 0 <=? j then (p / (q * 10 ^ j), p mod (q * 10 ^ j) =? 0)
  else ((p * 10 ^ (- j)) / q, (p * 10 ^ (- j)) mod q =? 0).

(** Is [p / q] no further from [lo * 10^j] than from [(lo + 1) * 10^j]? *)
Definition lo_is_closer (p q lo j : Z) : bool :=
  if 0 <=? j then 2 * p <=? (2 * lo + 1) * 10 ^ j * q
  else 2 * p * 10 ^ (- j) <=? (2 * lo + 1) * q.

(** Trailing zeros of [d] moved into the exponent. *)
Fixpoint strip_zeros (fuel : nat) (d j : Z) : Z * Z :=
  match fuel with
  | O => (d, j)
  | S k => if (d mod 10 =? 0) && negb (d =? 0) then strip_zeros k (d / 10) (j + 1) else (d, j)
  end.

(** The shortest decimal [d * 10^j] that reads back as [f = p/q], trying
    [n], [n+1], ... significant digits; seventeen digits always do. *)
Fixpoint shortest_from (fuel : nat) (f : float) (p q t n : Z) : Z * Z :=
  let j := t - n + 1 in
  let '(lo, exact) := scaled p q j in
  let hi := lo + 1 in
  let lo_ok := PrimFloat.eqb (float_of_decimal lo j) f in
  let hi_ok := PrimFloat.eqb (float_of_decimal hi j) f in
  match fuel with
  | O => (hi, j)
  | S k =>
      if exact then (lo, j)
      else if lo_ok && hi_ok then (if lo_is_closer p q lo j then (lo, j) else (hi, j))
      else if lo_ok then (lo, j)
      else if hi_ok then (hi, j)
      else shortest_from k f p q t (n + 1)
  end.

Definition zeros (n : Z) : string := string_of_list_ascii (repeat "0"%char (Z.to_nat n)).

Definition str_take (n : Z) (s : string) : string := String.substring 0 (Z.to_nat n) s.
Definition str_from (n : Z) (s : string) : string :=
  String.substring (Z.to_nat n) (String.length s - Z.to_nat n) s.

(** [repr] of a positive finite float given as digits and decimal point
    position. *)
Definition format_repr (ds : string) (decpt : Z) : string :=
  let n := Z.of_nat (String.length ds) in
  if (-4 <? decpt) && (decpt <=? 16) then
    if decpt <=? 0 then "0." +:+ zeros (- decpt) +:+ ds
    else if n <=? decpt then ds +:+ zeros (decpt - n) +:+ ".0"
    else str_take decpt ds +:+ "." +:+ str_from decpt ds
  else
    let e := decpt - 1 in
    let mant := if n =? 1 then ds else str_take 1 ds +:+ "." +:+ str_from 1 ds in
    let es := pretty (Z.abs e) in
    mant +:+ "e" +:+ (if e <? 0 then "-" else "+") +:+
    (if Z.abs e <? 10 then "0" +:+ es else es).

Definition repr_float (f : float) : string :=
  match Prim2SF f with
  | S754_nan => "nan"
  | S754_infinity s => if s then "-inf" else "inf"
  | S754_zero s => if s then "-0.0" else "0.0"
  | S754_finite s m e =>
      let p := if 0 <=? e then Z.pos m * 2 ^ e else Z.pos m in
      let q := if 0 <=? e then 1 else 2 ^ (- e) in
      let t := ilog10 p q in
      let '(d, j) := shortest_from 17 (PrimFloat.abs f) p q t 1 in
      let '(d, j) := strip_zeros 400 d j in
      let ds := pretty d in
      (if s then "-" else "") +:+ format_repr ds (Z.of_nat (String.length ds) + j)
  end.

Definition is_digit (c : ascii) : bool :=
  let n := nat_of_ascii c in (48 <=? n)%nat && (n <=? 57)%nat.

Fixpoint span_digits (s : list ascii) : list ascii * list ascii :=
  match s with
  | c :: s' =>
      if is_digit c then let (ds, rest) := span_digits s' in (c :: ds, rest)
      else ([], s)
  | [] => ([], [])
  end.

Definition Z_of_digits (ds : list ascii) : Z :=
  fold_left (fun acc c => 10 * acc + Z.of_nat (nat_of_ascii c - 48)) ds 0.

Definition take_sign (s : list ascii) : bool * list ascii :=
  match s with
  | c :: s' =>
      if Ascii.eqb c "-" then (true, s')
      else if Ascii.eqb c "+" then (false, s')
      else (false, s)
  | [] => (false, [])
  end.

Definition is_nil {A : Type} (xs : list A) : bool :=
  match xs with
  | [] => true
  | _ => false
  end.

(** The float written [<int_ds>.<frac_ds>e<exp>]. *)
Definition decimal_value (int_ds frac_ds : list ascii) (exp : Z) : float :=
  float_of_decimal (Z_of_digits (int_ds ++ frac_ds))
                   (exp - Z.of_nat (length frac_ds)).

(** [float(s)] for a [str].

    The first code point of each run of ten decimal digits of Unicode
    outside ASCII. *)
Definition decimal_zeros : list Z :=
  [1632; 1776; 1984; 2406; 2534; 2662; 2790; 2918;
   3046; 3174; 3302; 3430; 3558; 3664; 3792; 3872;
   4160; 4240; 6112; 6160; 6470; 6608; 6784; 6800;
   6992; 7088; 7232; 7248; 42528; 43216; 43264; 43472;
   43504; 43600; 44016; 65296; 66720; 68912; 69734; 69872;
   69942; 70096; 70384; 70736; 70864; 71248; 71360; 71472;
   71904; 72016; 72784; 73040; 73120; 92768; 92864; 93008;
   120782; 120792; 120802; 120812; 120822; 123200; 123632; 125264;
   130032].

Definition decimal_digit (n : Z) : option Z :=
  (fun zero => n - zero) <$> List.find (fun zero => (zero <=? n) && (n <? zero + 10)) decimal_zeros.

(** What is read for one character: itself when it is ASCII, a space for
    other white space, the ASCII digit for another decimal digit; any other
    character cannot be part of a number. *)
Definition to_ascii (cp : string) : ascii :=
  let n := code_point cp in
  if (0 <=? n) && (n <? 127) then byte n
  else if is_space cp then " "%char
  else match decimal_digit n with
       | Some d => byte (48 + d)
       | None => "?"%char
       end.

(** The white space ignored around the number. *)
Definition is_blank (c : ascii) : bool :=
  let n := nat_of_ascii c in ((9 <=? n)%nat && (n <=? 13)%nat) || (n =? 32)%nat.

(** Digit-grouping underscores removed: each must stand between two
    digits. [prev] is the character before. *)
Fixpoint ungroup (prev : ascii) (s : list ascii) : option (list ascii) :=
  match s with
  | [] => if Ascii.eqb prev "_" then None else Some []
  | c :: s' =>
      if Ascii.eqb c "_" then
        if is_digit prev then ungroup c s' else None
      else if Ascii.eqb prev "_" && negb (is_digit c) then None
      else (fun r => c :: r) <$> ungroup c s'
  end.

(** An optional sign, then [inf], [infinity] or [nan] in any case, or digits
    with an optional fraction and exponent. *)
Definition parse_float (s : list ascii) : option float :=
  let (neg, cs) := take_sign s in
  let signed (f : float) := if neg then PrimFloat.opp f else f in
  let low := lower (string_of_list_ascii cs) in
  if String.eqb low "inf" || String.eqb low "infinity" then Some (signed infinity)
  else if String.eqb low "nan" then Some nan
  else
    let (int_ds, r1) := span_digits cs in
    let (frac_ds, r2) :=
      match r1 with
      | c :: r => if Ascii.eqb c "." then span_digits r else ([], r1)
      | [] => ([], r1)
      end in
    if is_nil int_ds && is_nil frac_ds then None
    else
      match r2 with
      | [] => Some (signed (decimal_value int_ds frac_ds 0))
      | c :: r3 =>
          if Ascii.eqb c "e" || Ascii.eqb c "E" then
            let (eneg, r4) := take_sign r3 in
            let (exp_ds, r5) := span_digits r4 in
            if is_nil exp_ds || negb (is_nil r5) then None
            else
              let e := Z_of_digits exp_ds in
              Some (signed (decimal_value int_ds frac_ds (if eneg then - e else e)))
          else None
      end.

Definition float_of_str (s : string) : option float :=
  cs ← ungroup "000" (to_ascii <$> code_points s);
  parse_float (drop_end_while is_blank (drop_while is_blank cs)).

(** [sum(fs)]: the floats added from the left, starting from [0]. *)
Definition float_sum (fs : list float) : float :=
  fold_left PrimFloat.add fs 0%float.

(** *** Text of values *)

Definition hex_digit (n : nat) : ascii :=
  if (n <? 10)%nat then ascii_of_nat (48 + n) else ascii_of_nat (87 + n).

Definition hex2 (n : nat) : string :=
  String (hex_digit (n / 16)) (String (hex_digit (n mod 16)) "").

(** One character of a string inside JSON text, [ensure_ascii=False]: the
    quote, the backslash and the control characters are escaped. *)
Definition json_escape_char (c : ascii) : string :=
  let n := nat_of_ascii c in
  if Ascii.eqb c "034" then String "\" (String "034" "")
  else if Ascii.eqb c "\" then "\\"
  else if (n =? 8)%nat then "\b"
  else if (n =? 12)%nat then "\f"
  else if (n =? 10)%nat then "\n"
  else if (n =? 13)%nat then "\r"
  else if (n =? 9)%nat then "\t"
  else if (n <? 32)%nat then "\u00" +:+ hex2 n
  else String c "".

Fixpoint json_escape (s : string) : string :=
  match s with
  | "" => ""
  | String c s' => json_escape_char c +:+ json_escape s'
  end.

Definition json_string (s : string) : string :=
  String "034" (json_escape s) +:+ String "034" "".

Definition json_float (f : float) : string :=
  match Prim2SF f with
  | S754_nan => "NaN"
  | S754_infinity s => if s then "-Infinity" else "Infinity"
  | _ => repr_float f
  end.

(** [json.dumps(v, ensure_ascii=False)] *)
Fixpoint json_dumps (v : value) : string :=
  match v with
  | VNone => "null"
  | VBool b => if b then "true" else "false"
  | VInt n => pretty n
  | VFloat f => json_float f
  | VStr s => json_string s
  | VList xs => "[" +:+ join ", " (map json_dumps xs) +:+ "]"
  | VDict kvs =>
      "{" +:+ join ", " (map (fun kv => json_string kv.1 +:+ ": " +:+ json_dumps kv.2) kvs)
          +:+ "}"
  end.

Definition newline : string := String "010" "".

Definition spaces (n : nat) : string := string_of_list_ascii (repeat " "%char n).

(** [json.dumps(v, ensure_ascii=False, indent=2)], [level] containers deep. *)
Fixpoint json_dumps_at (level : nat) (v : value) : string :=
  let inner := newline +:+ spaces (2 * S level) in
  let outer := newline +:+ spaces (2 * level) in
  match v with
  | VList [] => "[]"
  | VList xs =>
      "[" +:+ inner +:+ join ("," +:+ inner) (map (json_dumps_at (S level)) xs)
          +:+ outer +:+ "]"
  | VDict [] => "{}"
  | VDict kvs =>
      "{" +:+ inner
          +:+ join ("," +:+ inner)
                (map (fun kv => json_string kv.1 +:+ ": " +:+ json_dumps_at (S level) kv.2)
                     kvs)
          +:+ outer +:+ "}"
  | _ => json_dumps v
  end.

Definition json_dumps_indent (v : value) : string := json_dumps_at O v.

(** [repr(s)] of a [str]: single quotes unless the text has one and no
    double quote. *)
Definition repr_escape_char (quote c : ascii) : string :=
  let n := nat_of_ascii c in
  if Ascii.eqb c quote then String "\" (String c "")
  else if Ascii.eqb c "\" then "\\"
  else if (n =? 10)%nat then "\n"
  else if (n =? 13)%nat then "\r"
  else if (n =? 9)%nat then "\t"
  else if (n <? 32)%nat || (n =? 127)%nat then "\x" +:+ hex2 n
  else String c "".

Fixpoint repr_escape (quote : ascii) (s : string) : string :=
  match s with
  | "" => ""
  | String c s' => repr_escape_char quote c +:+ repr_escape quote s'
  end.

Definition repr_str (s : string) : string :=
  let quote : ascii :=
    if str_contains "'" s && negb (str_contains "034" s)
    then "034"%char else "'"%char in
  String quote (repr_escape quote s) +:+ String quote "".

(** [repr(v)], which is also [str(v)] for a list or a dict. *)
Fixpoint repr (v : value) : string :=
  match v with
  | VNone => "None"
  | VBool b => if b then "True" else "False"
  | VInt n => pretty n
  | VFloat f => repr_float f
  | VStr s => repr_str s
  | VList xs => "[" +:+ join ", " (map repr xs) +:+ "]"
  | VDict kvs =>
      "{" +:+ join ", " (map (fun kv => repr_str kv.1 +:+ ": " +:+ repr kv.2) kvs) +:+ "}"
  end.

(** *** Reading JSON text

    The scanner of CPython's [json] module, on the characters still to be
    read and the offset [idx] of the first of them. *)

Inductive scan (A : Type) : Type :=
| Scanned (a : A) (rest : list ascii) (idx : nat)
| Stop (idx : nat)                    (* no value starts here *)
| Bad (msg : string) (pos : nat).     (* [JSONDecodeError(msg, doc, pos)] *)

Arguments Scanned {A} a rest idx.
Arguments Stop {A} idx.
Arguments Bad {A} msg pos.

Definition is_json_space (c : ascii) : bool :=
  let n := nat_of_ascii c in
  (n =? 32)%nat || (n =? 9)%nat || (n =? 10)%nat || (n =? 13)%nat.

Fixpoint skip_ws (s : list ascii) (idx : nat) : list ascii * nat :=
  match s with
  | c :: s' => if is_json_space c then skip_ws s' (S idx) else (s, idx)
  | [] => ([], idx)
  end.

Definition hex_value (c : ascii) : option Z :=
  let n := Z.of_nat (nat_of_ascii c) in
  if (48 <=? n) && (n <=? 57) then Some (n - 48)
  else if (97 <=? n) && (n <=? 102) then Some (n - 87)
  else if (65 <=? n) && (n <=? 70) then Some (n - 55)
  else None.

(** Four hexadecimal digits, followed by at least one more character. *)
Definition hex4 (s : list ascii) : option (Z * list ascii) :=
  match s with
  | a :: b :: c :: d :: (_ :: _) as rest =>
      a' ← hex_value a; b' ← hex_value b; c' ← hex_value c; d' ← hex_value d;
      Some (((a' * 16 + b') * 16 + c') * 16 + d', rest)
  | _ => None
  end.

(** The UTF-8 bytes of a code point. *)
Definition utf8 (cp : Z) : list ascii :=
  if cp <? 128 then [byte cp]
  else if cp <? 2048 then [byte (192 + cp / 64); byte (128 + cp mod 64)]
  else if cp <? 65536 then
    [byte (224 + cp / 4096); byte (128 + (cp / 64) mod 64); byte (128 + cp mod 64)]
  else
    [byte (240 + cp / 262144); byte (128 + (cp / 4096) mod 64);
     byte (128 + (cp / 64) mod 64); byte (128 + cp mod 64)].

Definition simple_escape (c : ascii) : option ascii :=
  if Ascii.eqb c "034" then Some "034"%char
  else if Ascii.eqb c "\" then Some "\"%char
  else if Ascii.eqb c "/" then Some "/"%char
  else if Ascii.eqb c "b" then Some "008"%char
  else if Ascii.eqb c "f" then Some "012"%char
  else if Ascii.eqb c "n" then Some "010"%char
  else if Ascii.eqb c "r" then Some "013"%char
  else if Ascii.eqb c "t" then Some "009"%char
  else None.

(** The text of a string whose opening quote, at offset [begin], is read;
    [acc] holds the bytes decoded so far, in reverse. *)
Fixpoint scanstring (fuel : nat) (begin : nat) (acc : list ascii)
  (s : list ascii) (idx : nat) : scan string :=
  match fuel with
  | O => Bad "Unterminated string starting at" begin
  | S fuel' =>
      match s with
      | [] => Bad "Unterminated string starting at" begin
      | c :: s' =>
          if Ascii.eqb c "034" then
            Scanned (string_of_list_ascii (rev acc)) s' (S idx)
          else if Ascii.eqb c "\" then
            match s' with
            | [] => Bad "Unterminated string starting at" begin
            | e :: s'' =>
                if Ascii.eqb e "u" then
                  match hex4 s'' with
                  | None => Bad "Invalid \uXXXX escape" (S idx)
                  | Some (hi, r) =>
                      let single :=
                        scanstring fuel' begin (rev (utf8 hi) ++ acc) r (idx + 6) in
                      if (55296 <=? hi) && (hi <=? 56319) then
                        match r with
                        | b1 :: b2 :: r' =>
                            if Ascii.eqb b1 "\" && Ascii.eqb b2 "u"
                               && (6 <? length r)%nat then
                              match hex4 r' with
                              | None => Bad "Invalid \uXXXX escape" (idx + 7)
                              | Some (lo, r'') =>
                                  if (56320 <=? lo) && (lo <=? 57343) then
                                    let cp :=
                                      65536 + (hi - 55296) * 1024 + (lo - 56320) in
                                    scanstring fuel' begin (rev (utf8 cp) ++ acc) r''
                                               (idx + 12)
                                  else single
                              end
                            else single
                        | _ => single
                        end
                      else single
                  end
                else
                  match simple_escape e with
                  | Some ch => scanstring fuel' begin (ch :: acc) s'' (idx + 2)
                  | None => Bad "Invalid \escape" idx
                  end
            end
          else if (nat_of_ascii c <? 32)%nat then
            Bad "Invalid control character at" idx
          else scanstring fuel' begin (c :: acc) s' (S idx)
      end
  end.

(** A literal word at the head of the text. *)
Fixpoint read_word (w : list ascii) (s : list ascii) : option (list ascii) :=
  match w, s with
  | [], _ => Some s
  | a :: w', c :: s' => if Ascii.eqb a c then read_word w' s' else None
  | _ :: _, [] => None
  end.

Definition word (w : string) (s : list ascii) : option (list ascii) :=
  read_word (list_ascii_of_string w) s.

(** A number: an optional minus sign, then a zero or digits that do not
    start with zero, an optional fraction (a point and digits) and an
    optional exponent; an [int] when it has neither fraction nor exponent. *)
Definition scan_number (s : list ascii) (idx : nat) : scan value :=
  let (neg, s1) :=
    match s with
    | c :: r => if Ascii.eqb c "-" then (true, r) else (false, s)
    | [] => (false, s)
    end in
  let (int_ds, s2) :=
    match s1 with
    | c :: r =>
        if Ascii.eqb c "0" then ([c], r)
        else if is_digit c then span_digits s1
        else ([], s1)
    | [] => ([], s1)
    end in
  if is_nil int_ds then Stop idx
  else
    let (frac_ds, s3) :=
      match s2 with
      | c :: r =>
          if Ascii.eqb c "." then
            let (ds, r') := span_digits r in
            if is_nil ds then ([], s2) else (ds, r')
          else ([], s2)
      | [] => ([], s2)
      end in
    let '(has_exp, e, s4) :=
      match s3 with
      | c :: r =>
          if Ascii.eqb c "e" || Ascii.eqb c "E" then
            let (eneg, r1) := take_sign r in
            let (ds, r2) := span_digits r1 in
            if is_nil ds then (false, 0, s3)
            else (true, if eneg then - Z_of_digits ds else Z_of_digits ds, r2)
          else (false, 0, s3)
      | [] => (false, 0, s3)
      end in
    let idx' := (idx + (length s - length s4))%nat in
    if is_nil frac_ds && negb has_exp then
      Scanned (VInt (if neg then - Z_of_digits int_ds else Z_of_digits int_ds)) s4 idx'
    else
      let f := decimal_value int_ds frac_ds e in
      Scanned (VFloat (if neg then PrimFloat.opp f else f)) s4 idx'.

(** A [StopIteration] inside a container is this error. *)
Definition expecting_value {A : Type} (r : scan A) : scan A :=
  match r with
  | Stop idx => Bad "Expecting value" idx
  | _ => r
  end.

Definition property_name_msg : string :=
  "Expecting property name enclosed in double quotes".

Fixpoint scan_once (fuel : nat) (s : list ascii) (idx : nat) : scan value :=
  match fuel with
  | O => Stop idx
  | S fuel' =>
      match s with
      | [] => Stop idx
      | c :: s' =>
          if Ascii.eqb c "034" then
            match scanstring (length s) idx [] s' (S idx) with
            | Scanned str r i => Scanned (VStr str) r i
            | Stop i => Stop i
            | Bad m p => Bad m p
            end
          else if Ascii.eqb c "{" then
            let (s1, i1) := skip_ws s' (S idx) in
            match s1 with
            | c1 :: s2 =>
                if Ascii.eqb c1 "}" then Scanned (VDict []) s2 (S i1)
                else if Ascii.eqb c1 "034" then scan_members fuel' [] s2 (S i1)
                else Bad property_name_msg i1
            | [] => Bad property_name_msg i1
            end
          else if Ascii.eqb c "[" then
            let (s1, i1) := skip_ws s' (S idx) in
            match s1 with
            | c1 :: s2 =>
                if Ascii.eqb c1 "]" then Scanned (VList []) s2 (S i1)
                else scan_elements fuel' [] s1 i1
            | [] => scan_elements fuel' [] s1 i1
            end
          else
            match word "null" s, word "true" s, word "false" s with
            | Some r, _, _ => Scanned VNone r (idx + 4)
            | _, Some r, _ => Scanned (VBool true) r (idx + 4)
            | _, _, Some r => Scanned (VBool false) r (idx + 5)
            | _, _, _ =>
                match scan_number s idx with
                | Stop _ =>
                    match word "NaN" s, word "Infinity" s, word "-Infinity" s with
                    | Some r, _, _ => Scanned (VFloat nan) r (idx + 3)
                    | _, Some r, _ => Scanned (VFloat infinity) r (idx + 8)
                    | _, _, Some r => Scanned (VFloat neg_infinity) r (idx + 9)
                    | _, _, _ => Stop idx
                    end
                | r => r
                end
            end
      end
  end

(** The elements of an array from the next one on; [acc] holds those read. *)
with scan_elements (fuel : nat) (acc : list value) (s : list ascii) (idx : nat)
  : scan value :=
  match fuel with
  | O => Bad "Expecting value" idx
  | S fuel' =>
      match expecting_value (scan_once fuel' s idx) with
      | Scanned v r i =>
          let (r1, i1) := skip_ws r i in
          match r1 with
          | c :: r2 =>
              if Ascii.eqb c "]" then Scanned (VList (acc ++ [v])) r2 (S i1)
              else if Ascii.eqb c "," then
                let (r3, i3) := skip_ws r2 (S i1) in
                scan_elements fuel' (acc ++ [v]) r3 i3
              else Bad "Expecting ',' delimiter" i1
          | [] => Bad "Expecting ',' delimiter" i1
          end
      | r => r
      end
  end

(** The members of an object from the next key on, its opening quote read;
    a key that comes again takes the new value and keeps its place. *)
with scan_members (fuel : nat) (acc : list (string * value)) (s : list ascii)
  (idx : nat) : scan value :=
  match fuel with
  | O => Bad "Expecting value" idx
  | S fuel' =>
      match scanstring (S (length s)) (Nat.pred idx) [] s idx with
      | Scanned key r i =>
          let (r1, i1) := skip_ws r i in
          match r1 with
          | c :: r2 =>
              if Ascii.eqb c ":" then
                let (r3, i3) := skip_ws r2 (S i1) in
                match expecting_value (scan_once fuel' r3 i3) with
                | Scanned v r4 i4 =>
                    let acc' := ODict.set key v acc in
                    let (r5, i5) := skip_ws r4 i4 in
                    match r5 with
                    | c' :: r6 =>
                        if Ascii.eqb c' "}" then Scanned (VDict acc') r6 (S i5)
                        else if Ascii.eqb c' "," then
                          let (r7, i7) := skip_ws r6 (S i5) in
                          match r7 with
                          | q :: r8 =>
                              if Ascii.eqb q "034"
                              then scan_members fuel' acc' r8 (S i7)
                              else Bad property_name_msg i7
                          | [] => Bad property_name_msg i7
                          end
                        else Bad "Expecting ',' delimiter" i5
                    | [] => Bad "Expecting ',' delimiter" i5
                    end
                | r => r
                end
              else Bad "Expecting ':' delimiter" i1
          | [] => Bad "Expecting ':' delimiter" i1
          end
      | Stop i => Stop i
      | Bad m p => Bad m p
      end
  end.

Definition utf8_bom : list ascii := ["239"; "187"; "191"]%char.

(** The scanner counts bytes; the offset an error reports is the number of
    characters before that byte. *)
Definition decode_error (msg doc : string) (idx : nat) : exn :=
  JSONDecodeError msg doc
    (length (code_points (string_of_list_ascii (take idx (list_ascii_of_string doc))))).

(** [json.loads(doc)] *)
Definition json_loads (doc : string) : result value :=
  let s := list_ascii_of_string doc in
  match read_word utf8_bom s with
  | Some _ =>
      Raise (JSONDecodeError "Unexpected UTF-8 BOM (decode using utf-8-sig)" doc 0)
  | None =>
      let (s0, i0) := skip_ws s O in
      match scan_once (2 * length s + 2) s0 i0 with
      | Scanned v r i =>
          let (r1, i1) := skip_ws r i in
          if is_nil r1 then Ok v else Raise (decode_error "Extra data" doc i1)
      | Stop i => Raise (decode_error "Expecting value" doc i)
      | Bad m p => Raise (decode_error m doc p)
      end
  end.

#[export] Instance runtime : Runtime := {|
  Py.json_loads := json_loads;
  Py.json_dumps := json_dumps;
  Py.json_dumps_indent := json_dumps_indent;
  Py.float_of_str := float_of_str;
  Py.repr_float := repr_float;
  Py.repr_container := repr;
  Py.float_sum := float_sum;
|}.

End Ref.

(** ** Concrete inputs

    The inputs of the specification's examples, run with the reference
    instance. *)

Module Example.
Import Py Analyze.

Definition q1 : QuestionMeta := {|
  id := "q1";
  question := "Capital of France?";
  category := VNone;
  sources := [{| name := VNone; url := "https://a" |}];
|}.

Definition q2 : QuestionMeta := {|
  id := "q2";
  question := "Population of Paris?";
  category := VStr "geography";
  sources := [{| name := VStr "Atlas"; url := "https://a" |};
              {| name := VStr "Census"; url := "https://b" |}];
|}.

Definition quiz : gmap string QuestionMeta := {[ "q1" := q1; "q2" := q2 ]}.

(** [[{user: 10, actual: 15}, {user: "bad", actual: 5}]], and an entry of a
    question the quiz does not have. *)
Definition entries : list (list (string * value)) :=
  [ [("questionId", VStr "q1"); ("userGuessValue", VInt 10); ("actualValue", VInt 15)];
    [("questionId", VStr "q2"); ("userGuessValue", VStr "bad"); ("actualValue", VInt 5)];
    [("questionId", VStr "q9"); ("questionText", VStr " Tallest peak? ");
     ("userGuessValue", VNone); ("actualValue", VInt 8849)] ].

Definition result1 : ResultRecord := {|
  result_id := "r1";
  session_id := "s1";
  quiz_link_id := "quiz-1";
  pki_score := Some "70";
  created_at := "2024-05-01T10:00:00Z";
  perceptions := VList (VDict <$> entries);
|}.

(** The same session stored again later. *)
Definition result1_later : ResultRecord := {|
  result_id := "r1";
  session_id := "s1";
  quiz_link_id := "quiz-1";
  pki_score := None;
  created_at := "2024-06-30T23:59:59Z";
  perceptions := VList (VDict <$> entries);
|}.

(** Rows of the two tables. *)
Definition quiz_cell : string :=
  "[{" +:+ dquote1 +:+ "id" +:+ dquote1 +:+ ": " +:+ dquote1 +:+ "q1" +:+ dquote1 +:+ ", "
       +:+ dquote1 +:+ "question" +:+ dquote1 +:+ ": "
       +:+ dquote1 +:+ "Capital of France?" +:+ dquote1 +:+ "}]".

Definition good_quiz_row : gmap string string :=
  {[ "Quiz Link ID" := "quiz-1"; "Questions JSON" := quiz_cell ]}.

(** A cell that decodes neither as it is nor with doubled quotes collapsed. *)
Definition bad_quiz_row : gmap string string :=
  {[ "Quiz Link ID" := "quiz-2"; "Questions JSON" := "{bad" ]}.

Definition bad_quiz_row_no_id : gmap string string :=
  {[ "Quiz Link ID" := "  "; "Questions JSON" := "{bad" ]}.

Definition perceptions_cell : string :=
  "[{" +:+ dquote1 +:+ "questionId" +:+ dquote1 +:+ ": " +:+ dquote1 +:+ "q1" +:+ dquote1 +:+ ", "
       +:+ dquote1 +:+ "userGuessValue" +:+ dquote1 +:+ ": 10, "
       +:+ dquote1 +:+ "actualValue" +:+ dquote1 +:+ ": 12}]".

Definition result_rows : list (gmap string string) :=
  [ {[ "Result ID" := "r1"; "Session ID" := "s1"; "Quiz Link ID" := "quiz-1";
       "Perceptions JSON" := perceptions_cell ]};
    {[ "Result ID" := "  "; "Session ID" := "s2"; "Perceptions JSON" := perceptions_cell ]};
    {[ "Result ID" := "r3"; "Session ID" := "s3"; "Quiz Link ID" := "quiz-1" ]} ].

Definition bad_result_row : gmap string string :=
  {[ "Result ID" := "r4"; "Perceptions JSON" := "{bad" ]}.

(** A run of the trends tool without an API key: the realtime endpoint is
    unreachable and the RSS feed answers. *)
Definition feed_entries : list Trends.RssEntry :=
  [ {| Trends.entry_title := Some " Cup final ";
       Trends.entry_pub_date := Some "Sat, 01 Jun 2024 10:00:00 +0000";
       Trends.entry_approx_traffic := None |};
    {| Trends.entry_title := Some "Election";
       Trends.entry_pub_date := None;
       Trends.entry_approx_traffic := Some "20,000+" |} ].

Definition realtime_down : Trends.World := {|
  Trends.dotenv := None;
  Trends.http := fun _ u =>
    if String.eqb u Trends.realtime_url
    then Trends.HttpURLError "<urlopen error timed out>"
    else Trends.HttpBody "<rss/>";
  Trends.sdk_search := fun _ _ _ => Ok (VDict [("results", VList [])]);
  Trends.rss_xml := fun _ => Ok (Some feed_entries);
  Trends.fs_error := fun _ _ => None;
  Trends.dump_error := fun _ => None;
|}.

(** The same, with a realtime endpoint that answers. *)
Definition realtime_body : string :=
  ")]}'" +:+ Trends.newline +:+
  "{" +:+ dquote1 +:+ "storySummaries" +:+ dquote1 +:+ ": {"
      +:+ dquote1 +:+ "trendingStories" +:+ dquote1 +:+ ": [{"
      +:+ dquote1 +:+ "title" +:+ dquote1 +:+ ": " +:+ dquote1 +:+ "Cup final" +:+ dquote1 +:+ ", "
      +:+ dquote1 +:+ "entityNames" +:+ dquote1 +:+ ": ["
      +:+ dquote1 +:+ "Wembley" +:+ dquote1 +:+ ", " +:+ dquote1 +:+ "FA Cup" +:+ dquote1
      +:+ "]}]}}".

Definition realtime_up : Trends.World := {|
  Trends.dotenv := None;
  Trends.http := fun _ u =>
    if String.eqb u Trends.realtime_url
    then Trends.HttpBody realtime_body
    else Trends.HttpBody "<rss/>";
  Trends.sdk_search := fun _ _ _ => Ok (VDict [("results", VList [])]);
  Trends.rss_xml := fun _ => Ok (Some feed_entries);
  Trends.fs_error := fun _ _ => None;
  Trends.dump_error := fun _ => None;
|}.

(** No source flag given. *)
Definition default_args : Trends.Args := {|
  Trends.max_results := 12;
  Trends.query := "site:trends.google.com Trending now in the United Kingdom "
                  +:+ "url:trends.google.com/trending?geo=GB";
  Trends.out := None;
  Trends.print_json := false;
  Trends.include_rss := false;
  Trends.realtime := false;
  Trends.search_only := false;
|}.

(** Lines of a [.env] file, and an environment with one of its names set. *)
Definition dotenv_text : string :=
  "# keys" +:+ Trends.newline +:+
  "export PPLX_API_KEY = 'from-file'" +:+ Trends.newline +:+
  "this line has no equals sign" +:+ Trends.newline +:+
  "MODEL=sonar" +:+ Trends.newline.

Definition preset_env : gmap string string := {[ "PPLX_API_KEY" := "from-shell" ]}.

End Example.

(** ** analyze_results_with_perplexity.py: [call_perplexity] and [main] *)

Module AnalyzeMain.
Import Py Analyze.

(** A [pathlib.Path], kept as it is built: the text it starts from and the
    names joined to it with [/], in order. *)
Record Path : Type := {
  base : string;
  joined : list string;
}.

(** [p / name] *)
Definition join_path (p : Path) (name : string) : Path :=
  {| base := base p; joined := joined p ++ [name] |}.

(** What the program does to its surroundings. *)
Inductive event : Type :=
| Print (text : string)                    (* [print(text)] *)
| PrintErr (text : string)                 (* [print(text, file=sys.stderr)] *)
| Mkdir (p : Path)                         (* [p.mkdir(parents=True, exist_ok=True)] *)
| WriteText (p : Path) (text : string)     (* [text] written to [p], opened for writing *)
| Chat (api_key model : string) (messages : list Message)
                                           (* [client.chat.completions.create] *)
| Sleep (secs : float).                    (* [time.sleep(secs)] *)

(** What the surroundings answer. *)
Record World : Type := {
  (** the file [.env] *)
  dotenv : option (result string);
  (** [p.exists()] *)
  path_exists : Path -> bool;
  (** [str(p)] *)
  path_str : Path -> string;
  (** opening a table and reading it with [csv.DictReader]: the exception
      of [open], or the rows read and the exception that ended the
      reading, if one did *)
  read_csv : Path -> result (list (gmap string string) * option exn);
  (** the exception, if any, of a [Mkdir] or [WriteText] made after the
      events so far *)
  fs_error : list event -> event -> option exn;
  (** what the SDK does with a chat request made after the events so far:
      an exception (also when the package is missing) or the response,
      normalised to plain values *)
  sdk_chat : list event -> string -> string -> list Message -> result value;
  (** the exception, if any, of [time.sleep] *)
  sleep_error : float -> option exn;
}.

Record State : Type := {
  environ : gmap string string;
  trace : list event;
}.

(** A step of the program: it may raise, and it leaves a state either way. *)
Definition M (A : Type) : Type := State -> result A * State.

#[export] Instance M_ret : MRet M := fun A a st => (Ok a, st).
#[export] Instance M_bind : MBind M := fun A B k m st =>
  match m st with
  | (Ok a, st') => k a st'
  | (Raise e, st') => (Raise e, st')
  end.

Definition lift {A : Type} (r : result A) : M A := fun st => (r, st).

(** An event whose call returns. *)
Definition emit (ev : event) : M unit := fun st =>
  (Ok tt, {| environ := environ st; trace := trace st ++ [ev] |}).

Definition print (text : string) : M unit := emit (Print text).

(** A call the surroundings may refuse: it is made, and raises what they
    answer. *)
Definition attempt (ev : event) (answer : option exn) : M unit := fun st =>
  (match answer with
   | Some e => Raise e
   | None => Ok tt
   end,
   {| environ := environ st; trace := trace st ++ [ev] |}).

(** [p.mkdir(...)] and the writing of a file. *)
Definition file_op (w : World) (ev : event) : M unit := fun st =>
  attempt ev (fs_error w (trace st) ev) st.

(** [try: m  except Exception as e: h e] *)
Definition try_with {A : Type} (m : M A) (h : exn -> M A) : M A := fun st =>
  match m st with
  | (Raise e, st') => h e st'
  | r => r
  end.

Definition when (b : bool) (m : M unit) : M unit := if b then m else mret tt.

(** What [parse_args] returns. *)
Record Args : Type := {
  quizzes : Path;
  results : Path;
  output_dir : Path;
  model : string;
  limit : Z;
  sleep : float;
  dry_run : bool;
  print_json : bool;
}.

Definition newline : string := String "010" "".

(** The messages and the prompt as the dicts [json.dump] is given. *)
Definition message_dict (m : Message) : value :=
  VDict [("role", VStr (role m)); ("content", VStr (content m))].

Definition prompt_dict (model : string) (messages : list Message) : value :=
  VDict [("model", VStr model); ("messages", VList (message_dict <$> messages))].

(** [str(res.get("result_id") or f"session_{res.get('session_id')}")] *)
Definition out_name (res : ResultRecord) : string :=
  if negb (String.eqb (result_id res) "") then result_id res
  else "session_" +:+ session_id res.

(** [os.getenv("PPLX_API_KEY") or os.getenv("PERPLEXITY_API_KEY")] *)
Definition api_key (env : gmap string string) : value :=
  py_or (getenv "PPLX_API_KEY" env) (getenv "PERPLEXITY_API_KEY" env).

Section WithRuntime.
Context {rt : Runtime}.

(** [load_quizzes(path)] and [load_results(path)]: the loops of module
    [Analyze] over the rows of the table, then the exception that ended
    the reading, if one did. *)
Definition load_quizzes_file (w : World) (path : Path)
  : result (gmap string (gmap string QuestionMeta)) :=
  table ← read_csv w path;
  index ← load_quizzes table.1;
  match table.2 with
  | Some e => Raise e
  | None => Ok index
  end.

Definition load_results_file (w : World) (path : Path) : result (list ResultRecord) :=
  table ← read_csv w path;
  rows ← load_results table.1;
  match table.2 with
  | Some e => Raise e
  | None => Ok rows
  end.

Definition call_perplexity (w : World) (messages : list Message) (model : string)
  : M value := fun st =>
  let api_key := api_key (environ st) in
  if negb (truthy api_key) then
    (Raise (RuntimeError
              "Missing API key. Set PPLX_API_KEY or PERPLEXITY_API_KEY to call Perplexity."),
     st)
  else
    (sdk_chat w (trace st) (py_str api_key) model messages,
     {| environ := environ st;
        trace := trace st ++ [Chat (py_str api_key) model messages] |}).

(** [if response_json: ...] *)
Definition report (w : World) (args : Args) (res : ResultRecord) (out_dir : Path)
  (response_json : value) : M unit :=
  _ ← file_op w (WriteText (join_path out_dir "response.json")
                           (json_dumps_indent response_json));
  let md := extract_markdown_content response_json in
  let has_md :=
    match md with
    | Some text => negb (String.eqb text "")
    | None => false
    end in
  _ ← when has_md (file_op w (WriteText (join_path out_dir "analysis.md") (default "" md)));
  _ ← print (newline +:+ "=== Perplexity Response (Result ID: " +:+ result_id res
                     +:+ " ) ===");
  _ ← print (if has_md then default "" md else "(No assistant content found in response)");
  when (print_json args)
    (_ ← print (newline +:+ "--- Raw API Response JSON ---");
     print (json_dumps_indent response_json)).

(** The body of [for res in results], after the test of the limit. *)
Definition process_result (w : World) (args : Args)
  (index : gmap string (gmap string QuestionMeta)) (res : ResultRecord) : M unit :=
  let qmeta := default ∅ (index !! quiz_link_id res) in
  context ← lift (build_context_for_result res qmeta);
  let messages := build_prompt_messages (context_dict context) in
  let out_dir := join_path (output_dir args) (out_name res) in
  _ ← file_op w (Mkdir out_dir);
  _ ← file_op w (WriteText (join_path out_dir "prompt.json")
                           (json_dumps_indent (prompt_dict (model args) messages)));
  do_call ← (fun st => (Ok (negb (dry_run args) && truthy (api_key (environ st))), st));
  response_json ←
    (if do_call : bool then
       try_with (r ← call_perplexity w messages (model args); mret (Some r))
                (fun e =>
                   _ ← file_op w (WriteText (join_path out_dir "error.txt") (exn_str e));
                   mret None)
     else
       _ ← file_op w (WriteText (join_path out_dir "skipped_api_call.txt")
                        "API call skipped (no key or dry-run). Set PPLX_API_KEY to enable.");
       mret None);
  _ ← match response_json with
      | Some r => when (truthy r) (report w args res out_dir r)
      | None => mret tt
      end;
  when (truthy (VFloat (sleep args)) && do_call)
    (fun st => attempt (Sleep (sleep args)) (sleep_error w (sleep args)) st).

(** The loop of [main], [processed] results in. *)
Fixpoint process_results (w : World) (args : Args)
  (index : gmap string (gmap string QuestionMeta)) (rows : list ResultRecord)
  (processed : Z) : M Z :=
  match rows with
  | [] => mret processed
  | res :: rest =>
      if negb (limit args =? 0) && (limit args <=? processed) then mret processed
      else
        _ ← process_result w args index res;
        process_results w args index rest (processed + 1)
  end.

(** [main]: the exit status. *)
Definition main (w : World) (args : Args) : M Z :=
  _ ← (fun st => (Ok tt, {| environ := load_env_file (dotenv w) (environ st);
                            trace := trace st |}));
  if negb (path_exists w (quizzes args)) then
    _ ← emit (PrintErr ("Quizzes file not found: " +:+ path_str w (quizzes args)));
    mret 1
  else if negb (path_exists w (results args)) then
    _ ← emit (PrintErr ("Results file not found: " +:+ path_str w (results args)));
    mret 1
  else
    _ ← file_op w (Mkdir (output_dir args));
    index ← lift (load_quizzes_file w (quizzes args));
    rows ← lift (load_results_file w (results args));
    processed ← process_results w args index rows 0;
    _ ← print ("Processed " +:+ pretty processed +:+ " result(s). Output in: "
                 +:+ path_str w (output_dir args));
    mret 0.

(** Running [main] from the environment the process starts with. *)
Definition run (w : World) (args : Args) (env : gmap string string)
  : result Z * State :=
  main w args {| environ := env; trace := [] |}.

End WithRuntime.

End AnalyzeMain.

(** ** Further inputs for the examples *)

Module MoreExample.
Import Py Analyze.

(** A name or a text between double quotes. *)
Definition quoted (s : string) : string := dquote1 +:+ s +:+ dquote1.

(** The questions of a quiz: one with white space around its id, a source
    without a URL and sources without a name; one with a number as
    [questionId]; one without an id. *)
Definition quiz_cell : string :=
  "[{" +:+ quoted "id" +:+ ": " +:+ quoted " q1 " +:+ ", "
       +:+ quoted "question" +:+ ": " +:+ quoted "Capital of France?" +:+ ", "
       +:+ quoted "category" +:+ ": " +:+ quoted "" +:+ ", "
       +:+ quoted "sources" +:+ ": [{" +:+ quoted "url" +:+ ": " +:+ quoted " https://a " +:+ "}, {"
       +:+ quoted "name" +:+ ": " +:+ quoted "no url" +:+ "}, {"
       +:+ quoted "name" +:+ ": " +:+ quoted "" +:+ ", "
       +:+ quoted "url" +:+ ": " +:+ quoted "https://b" +:+ "}]}, {"
       +:+ quoted "questionId" +:+ ": 7, " +:+ quoted "sources" +:+ ": null}, {"
       +:+ quoted "question" +:+ ": " +:+ quoted "no id" +:+ "}]".

Definition quiz_row : gmap string string :=
  {[ "Quiz Link ID" := " quiz-7 "; "Questions JSON" := quiz_cell ]}.

(** A result of that quiz. *)
Definition result7 : ResultRecord := {|
  result_id := "r7";
  session_id := "s7";
  quiz_link_id := "quiz-7";
  pki_score := None;
  created_at := "";
  perceptions := VList [VDict [("questionId", VStr "q1"); ("userGuessValue", VInt 3);
                               ("actualValue", VFloat 2.5)]];
|}.





(** A row without a [Result ID] whose cell decodes in neither way. *)
Definition bad_result_row_no_id : gmap string string :=
  {[ "Session ID" := "s9"; "Perceptions JSON" := "{bad" ]}.

(** A world for the analysis: both tables are there, every file operation
    succeeds, and the SDK raises on its first request and answers the
    later ones. *)
Definition analysis_args : AnalyzeMain.Args := {|
  AnalyzeMain.quizzes := {| AnalyzeMain.base := "quizzes.csv"; AnalyzeMain.joined := [] |};
  AnalyzeMain.results := {| AnalyzeMain.base := "results.csv"; AnalyzeMain.joined := [] |};
  AnalyzeMain.output_dir := {| AnalyzeMain.base := "analyses"; AnalyzeMain.joined := [] |};
  AnalyzeMain.model := "sonar-pro";
  AnalyzeMain.limit := 0;
  AnalyzeMain.sleep := 0%float;
  AnalyzeMain.dry_run := false;
  AnalyzeMain.print_json := false;
|}.

Definition is_chat (ev : AnalyzeMain.event) : bool :=
  match ev with
  | AnalyzeMain.Chat _ _ _ => true
  | _ => false
  end.

Definition answer : value :=
  VDict [("choices",
          VList [VDict [("message", VDict [("content", VStr "Read the atlas.")])]])].

Definition analysis_world : AnalyzeMain.World := {|
  AnalyzeMain.dotenv := None;
  AnalyzeMain.path_exists := fun _ => true;
  AnalyzeMain.path_str := AnalyzeMain.base;
  AnalyzeMain.read_csv := fun p =>
    if String.eqb (AnalyzeMain.base p) "quizzes.csv"
    then Ok ([Example.good_quiz_row], None)
    else Ok (Example.result_rows, None);
  AnalyzeMain.fs_error := fun _ _ => None;
  AnalyzeMain.sdk_chat := fun t _ _ _ =>
    if existsb is_chat t then Ok answer
    else Raise (RuntimeError "rate limit");
  AnalyzeMain.sleep_error := fun _ => None;
|}.

(** The same without the table of quizzes. *)
Definition no_quizzes_world : AnalyzeMain.World := {|
  AnalyzeMain.dotenv := None;
  AnalyzeMain.path_exists := fun p => negb (String.eqb (AnalyzeMain.base p) "quizzes.csv");
  AnalyzeMain.path_str := AnalyzeMain.base;
  AnalyzeMain.read_csv := AnalyzeMain.read_csv analysis_world;
  AnalyzeMain.fs_error := fun _ _ => None;
  AnalyzeMain.sdk_chat := AnalyzeMain.sdk_chat analysis_world;
  AnalyzeMain.sleep_error := fun _ => None;
|}.

Definition dry_run_args : AnalyzeMain.Args := {|
  AnalyzeMain.quizzes := AnalyzeMain.quizzes analysis_args;
  AnalyzeMain.results := AnalyzeMain.results analysis_args;
  AnalyzeMain.output_dir := AnalyzeMain.output_dir analysis_args;
  AnalyzeMain.model := "sonar-pro";
  AnalyzeMain.limit := 1;
  AnalyzeMain.sleep := 0%float;
  AnalyzeMain.dry_run := true;
  AnalyzeMain.print_json := false;
|}.

End MoreExample.

(** ** Notions the properties are stated with *)

(** *** The context builder *)

Module ContextSpec.
Import Py Analyze.

(** A context with another [created_at]. *)
Definition with_created_at (t : string) (c : Context) : Context := {|
  ctx_result_id := ctx_result_id c;
  ctx_session_id := ctx_session_id c;
  ctx_quiz_link_id := ctx_quiz_link_id c;
  ctx_created_at := t;
  summary := summary c;
  items := items c;
  candidate_sources := candidate_sources c;
|}.

Section WithRuntime.
Context {rt : Runtime}.
Implicit Types (qm : gmap string QuestionMeta) (d : list (string * value)).

(** What the loop body reads off one perception entry. *)
Definition entry_qid d : string :=
  strip (py_str (py_or (dict_get "questionId" d) (VStr ""))).

Definition entry_sources qm d : list Source :=
  match qm !! entry_qid d with
  | Some m => sources m
  | None => []
  end.

Definition entry_item qm d : Item := {|
  question_id := entry_qid d;
  item_question :=
    strip (py_str (py_or (dict_get "questionText" d)
                         (VStr (match qm !! entry_qid d with
                                | Some m => question m
                                | None => ""
                                end))));
  item_category :=
    match qm !! entry_qid d with
    | Some m => category m
    | None => VNone
    end;
  user_guess := dict_get "userGuessValue" d;
  actual_value := dict_get "actualValue" d;
  abs_error := abs_error_of (dict_get "userGuessValue" d) (dict_get "actualValue" d);
  item_sources := source_ref <$> entry_sources qm d;
|}.

(** [all_sources[s.url] = s] for each source of a list, in order. *)
Definition record_sources (ss : list Source) (all_sources : list (string * Source))
  : list (string * Source) :=
  fold_left (fun acc s => ODict.set (url s) s acc) ss all_sources.

(** The sources the loop visits, in the order it visits them. *)
Definition visited_sources qm (ds : list (list (string * value))) : list Source :=
  ds ≫= entry_sources qm.

(** A value is numeric when it is present and [float] accepts it. *)
Definition numeric (v : value) : option float :=
  if is_none v then None
  else match py_float v with
       | Ok f => Some f
       | Raise _ => None
       end.

(** The guess and the actual value of an entry, when both are numeric. *)
Definition numeric_pair d : option (float * float) :=
  u ← numeric (dict_get "userGuessValue" d);
  a ← numeric (dict_get "actualValue" d);
  Some (u, a).

Definition abs_difference (p : float * float) : float :=
  PrimFloat.abs (PrimFloat.sub p.1 p.2).

(** The absolute differences of exactly the entries whose two values are
    numeric, in order. *)
Definition numeric_abs_differences (ds : list (list (string * value))) : list float :=
  omap (fun d => abs_difference <$> numeric_pair d) ds.



(** The messages [main] builds for a result: the prompt of its context. *)
Definition prompt_for (res : ResultRecord) qm : result (list Message) :=
  (fun ctx => build_prompt_messages (context_dict ctx))
    <$> build_context_for_result res qm.

End WithRuntime.

End ContextSpec.

(** *** The loaders *)

Module LoaderSpec.
Import Py Analyze.

(** The record [load_results] makes of a row whose cell decoded to [v]. *)
Definition record_of (row : gmap string string) (v : value) : ResultRecord := {|
  result_id := strip (cell row "Result ID");
  session_id := strip (cell row "Session ID");
  quiz_link_id := strip (cell row "Quiz Link ID");
  pki_score := row !! "PKI Score";
  created_at := strip (cell row "Created At");
  perceptions := v;
|}.

Section WithRuntime.
Context {rt : Runtime}.

(** The perceptions a row gets: the empty list for a blank or absent cell,
    what the cell decodes to otherwise. *)
Definition row_perceptions (row : gmap string string) : result value :=
  if String.eqb (strip (cell row "Perceptions JSON")) "" then Ok (VList [])
  else loads_with_fallback (strip (cell row "Perceptions JSON")).

(** Does [load_quizzes] read the row: a quiz id and a cell that are not
    blank? *)
Definition quiz_row_read (row : gmap string string) : bool :=
  negb (String.eqb (strip (cell row "Quiz Link ID")) "")
  && negb (String.eqb (strip (cell row "Questions JSON")) "").

(** The question map a row gives when it is read. *)
Definition quiz_row_map (row : gmap string string)
  : result (gmap string QuestionMeta) :=
  qitems ← loads_with_fallback (strip (cell row "Questions JSON"));
  its ← py_iter qitems;
  for_each its load_question ∅.

(** The question maps of the rows read for a quiz id, in row order. *)
Definition quiz_maps_for (quiz_link_id : string) (rows : list (gmap string string))
  : list (gmap string QuestionMeta) :=
  omap (fun row =>
          if quiz_row_read row
             && String.eqb (strip (cell row "Quiz Link ID")) quiz_link_id
          then match quiz_row_map row with
               | Ok qmap => Some qmap
               | Raise _ => None
               end
          else None) rows.

End WithRuntime.

End LoaderSpec.

(** *** The trends tool *)

Module TrendsSpec.
Import Py Trends.

(** The state after more events. *)
Definition extend (st : State) (evs : list event) : State :=
  {| environ := environ st; trace := trace st ++ evs |}.

(** Events that are no request. *)
Definition quiet (evs : list event) : Prop :=
  Forall (fun ev => is_get ev = false) evs.

(** A step that makes no request and leaves the environment alone. *)
Definition quiet_step {A : Type} (m : M A) : Prop :=
  forall st, exists evs, quiet evs /\ (m st).2 = extend st evs.

Definition falling_back : string := "Falling back to GB Daily RSS...".

(** The fallback hops of a trace: the announcements of the fallback that
    the request of the RSS feed follows at once. *)
Fixpoint fallback_hops (t : list event) : nat :=
  match t with
  | [] => O
  | ev :: rest =>
      match ev, rest with
      | Print s, HttpGet u :: _ =>
          ((if String.eqb s falling_back && String.eqb u rss_url then 1 else 0)
           + fallback_hops rest)%nat
      | _, _ => fallback_hops rest
      end
  end.

(** The URLs requested, in order. *)
Definition requests (t : list event) : list string :=
  omap (fun ev => match ev with HttpGet u => Some u | _ => None end) t.

Definition realtime_header : string := newline +:+ "GB Realtime Trending (web UI API):".
Definition rss_header : string := newline +:+ "GB Daily Trending Searches (RSS):".

(** The number of requests made so far. *)
Definition requests_made (st : State) : nat := length (List.filter is_get (trace st)).

(** Is the realtime source the one in effect: asked for, or taken because
    no source flag is given? *)
Definition realtime_in_effect (args : Args) : bool :=
  realtime args || (negb (include_rss args) && negb (search_only args)).

(** The shape of what follows the realtime block: the RSS block, when it
    is asked for and reached, between quiet events. *)
Definition rss_part (args : Args) (evs : list event) : Prop :=
  exists S q,
    quiet q /\ evs = S ++ q /\
    (S = [] \/
     include_rss args = true /\
     exists qS, quiet qS /\ S = Print rss_header :: HttpGet rss_url :: qS).

Section WithRuntime.
Context {rt : Runtime}.

(** What [main] does after the RSS block, and after the realtime block. *)
Definition after_rss (w : World) (args : Args) (resp : value) : M Z :=
  _ ← unless (search_only args) (results_block (results_of resp));
  _ ← match out args with
      | Some path => out_block w path resp
      | None => mret tt
      end;
  _ ← when (print_json args) (json_block w resp);
  mret 0.

Definition after_realtime (w : World) (args : Args) (resp : value) : M Z :=
  _ ← when (include_rss args) (rss_block w (max_results args));
  after_rss w args resp.

End WithRuntime.

End TrendsSpec.

(** *** The prompt composer *)

Module PromptSpec.
Import Py Analyze.

(** The context of the first example, as the dict [json.dumps] is given. *)
Definition example_context : value :=
  match build_context_for_result (rt := Ref.runtime) Example.result1 Example.quiz with
  | Ok ctx => context_dict ctx
  | Raise _ => VNone
  end.

End PromptSpec.

(** *** Further notions *)

(** Characters as they lie in the UTF-8 text. *)
Module StrSpec.
Import Py.

(** A code point with all its bytes. *)
Definition whole (cp : string) : Prop :=
  match cp with
  | "" => False
  | String c t => String.length t = Nat.pred (utf8_width c)
  end.

(** A code point that may lack bytes, as the last one of a text cut short. *)
Definition begun (cp : string) : Prop :=
  match cp with
  | "" => False
  | String c t => (String.length t <= Nat.pred (utf8_width c))%nat
  end.

(** The code points of a text: all whole, but for the last. *)
Fixpoint chunks (l : list string) : Prop :=
  match l with
  | [] => True
  | cp :: l' =>
      match l' with
      | [] => begun cp
      | _ => whole cp /\ chunks l'
      end
  end.

End StrSpec.

(** *** The text of JSON values *)
Module JsonSpec.
Import Py.

(** Text as the scanner reads it. *)
Definition bytes (s : string) : list ascii := list_ascii_of_string s.

(** What may follow a value in the text [json.dumps] writes. *)
Definition delimited (rest : list ascii) : Prop :=
  match rest with
  | [] => True
  | c :: _ => c = ","%char \/ c = "]"%char \/ c = "}"%char
  end.

(** Decimal digits; digits that do not start with a zero. *)
Definition digits (ds : list ascii) : Prop := Forall (fun c => Ref.is_digit c = true) ds.

Definition no_leading_zero (ds : list ascii) : Prop :=
  match ds with
  | c :: _ => c <> "0"%char
  | [] => False
  end.

(** What may follow a number. *)
Definition number_end (rest : list ascii) : Prop :=
  match rest with
  | [] => True
  | c :: _ =>
      Ref.is_digit c = false /\ c <> "."%char /\ c <> "e"%char /\ c <> "E"%char
  end.

(** The text of a number: a sign, the digits before the point, those
    after it and a signed exponent. *)
Definition number_text (neg : bool) (int_ds : list ascii) (frac : option (list ascii))
  (exp : option (bool * list ascii)) : list ascii :=
  (if neg then ["-"%char] else []) ++ int_ds
  ++ match frac with
     | Some ds => "."%char :: ds
     | None => []
     end
  ++ match exp with
     | Some (eneg, ds) => "e"%char :: (if eneg then "-"%char else "+"%char) :: ds
     | None => []
     end.

(** The number so written. *)
Definition number_value (neg : bool) (int_ds : list ascii) (frac : option (list ascii))
  (exp : option (bool * list ascii)) : value :=
  match frac, exp with
  | None, None =>
      VInt (if neg then - Ref.Z_of_digits int_ds else Ref.Z_of_digits int_ds)
  | _, _ =>
      let e :=
        match exp with
        | Some (eneg, ds) => if eneg then - Ref.Z_of_digits ds else Ref.Z_of_digits ds
        | None => 0
        end in
      let f := Ref.decimal_value int_ds (default [] frac) e in
      VFloat (if neg then PrimFloat.opp f else f)
  end.

(** Well-formed number text. *)
Definition number_ok (int_ds : list ascii) (frac : option (list ascii))
  (exp : option (bool * list ascii)) : Prop :=
  digits int_ds /\ (int_ds = ["0"%char] \/ no_leading_zero int_ds) /\
  match frac with
  | Some ds => digits ds /\ ds <> []
  | None => True
  end /\
  match exp with
  | Some (_, ds) => digits ds /\ ds <> []
  | None => True
  end.

(** A bound on the steps the scanner takes on the text of a value. *)
Fixpoint weight (v : value) : nat :=
  match v with
  | VList xs => S (fold_right (fun x n => S (weight x + n)%nat) O xs)
  | VDict kvs => S (fold_right (fun kv n => S (weight kv.2 + n)%nat) O kvs)
  | _ => 1%nat
  end.

(** What [json.loads] makes of the text [json.dumps] writes for a value. *)
Definition read_back (v : value) : value :=
  match Ref.json_loads (Ref.json_dumps v) with
  | Ok v' => v'
  | Raise _ => VNone
  end.

(** The value read back, by the structure of the value written: a number
    is read from its decimal text, and of the items of a [dict] with the
    same key the first gives the place and the last the value. *)
Fixpoint image (v : value) : value :=
  match v with
  | VList xs => VList (map image xs)
  | VDict kvs => VDict (fold_left (fun acc kv => ODict.set kv.1 (image kv.2) acc) kvs [])
  | VInt _ | VFloat _ => read_back v
  | _ => v
  end.

(** The steps for the elements of an array, and for the values of the
    members of an object. *)
Definition weights {A : Type} (value_of : A -> value) (xs : list A) : nat :=
  fold_right (fun x n => S (weight (value_of x) + n)%nat) O xs.

(** The text of the elements of an array up to its end, and of the members
    of an object after the opening quote of the first key. *)
Fixpoint elements_text (xs : list value) (rest : list ascii) : list ascii :=
  match xs with
  | [] => rest
  | x :: xs' =>
      bytes (Ref.json_dumps x)
      ++ match xs' with
         | [] => "]"%char :: rest
         | _ => ","%char :: " "%char :: elements_text xs' rest
         end
  end.

Fixpoint members_text (kvs : list (string * value)) (rest : list ascii) : list ascii :=
  match kvs with
  | [] => rest
  | kv :: kvs' =>
      bytes (Ref.json_escape kv.1) ++ "034"%char :: ":"%char :: " "%char
      :: bytes (Ref.json_dumps kv.2)
      ++ match kvs' with
         | [] => "}"%char :: rest
         | _ => ","%char :: " "%char :: "034"%char :: members_text kvs' rest
         end
  end.

(** The scanner reads the text of a value as its image, whatever follows. *)
Definition scans (v : value) : Prop :=
  forall fuel rest idx,
    (weight v <= fuel)%nat -> delimited rest ->
    exists idx',
      Ref.scan_once fuel (bytes (Ref.json_dumps v) ++ rest) idx
      = Ref.Scanned (image v) rest idx'.

End JsonSpec.

Module MoreSpec.
Import Py Analyze ContextSpec.

(** Is the value a JSON object? *)
Definition is_object (v : value) : bool :=
  match v with
  | VDict _ => true
  | _ => false
  end.

(** The distinct elements of a list, each where it first occurs. *)
Fixpoint first_occurrences (l : list string) : list string :=
  match l with
  | [] => []
  | x :: l' => x :: filter (fun y => y <> x) (first_occurrences l')
  end.

(** What a context says of the guesses themselves: the number of entries,
    the mean error, and each item's guess, actual value and error. *)
Definition metrics (c : Context) : nat * option float * list (value * value * option float) :=
  (num_questions (summary c), mean_abs_error (summary c),
   (fun it => (user_guess it, actual_value it, abs_error it)) <$> items c).

(** Text that is not blank and has no white space around it. *)
Definition stripped (s : string) : Prop := s <> "" /\ strip s = s.

(** An optional field as the loaders leave it: null, or a value that counts
    as true. *)
Definition null_or_truthy (v : value) : Prop := v = VNone \/ truthy v = true.

Definition source_ok (s : Source) : Prop :=
  stripped (url s) /\ null_or_truthy (name s).

(** A question as [load_quizzes] files it under the key [k]. *)
Definition question_ok (k : string) (m : QuestionMeta) : Prop :=
  id m = k /\ stripped k /\ strip (question m) = question m /\
  null_or_truthy (category m) /\ Forall source_ok (sources m).

Definition quiz_index_ok (quizzes : gmap string (gmap string QuestionMeta)) : Prop :=
  map_Forall (fun quiz_link_id qmap =>
                stripped quiz_link_id /\ map_Forall question_ok qmap) quizzes.

(** A source as a context lists it: a URL, and a name that is never null
    or empty. *)
Definition source_ref_ok (r : SourceRef) : Prop :=
  stripped (ref_url r) /\ truthy (ref_name r) = true.

End MoreSpec.

(** *** Further notions: the trends tool *)

Module MoreTrendsSpec.
Import Py Trends TrendsSpec.

(** A step whose events all satisfy [P], and which leaves the environment
    alone. *)
Definition only (P : event -> bool) {A : Type} (m : M A) : Prop :=
  forall st, exists evs, forallb P evs = true /\ (m st).2 = extend st evs.

Definition is_search (ev : event) : bool :=
  match ev with
  | Search _ _ _ => true
  | _ => false
  end.

(** The calls of the SDK in a trace. *)
Definition searches (t : list event) : list event := List.filter is_search t.

Definition results_header : string :=
  newline +:+ "Top results restricted to trends.google.com (GB):".

Definition missing_key : string :=
  "Missing API key. Set PPLX_API_KEY or PERPLEXITY_API_KEY.".

(** The API key in an environment: the first of [PPLX_API_KEY] and
    [PERPLEXITY_API_KEY] that is set and not empty. *)
Definition set_and_not_empty (o : option string) : option string :=
  match o with
  | Some "" => None
  | _ => o
  end.

Definition api_key_of (env : gmap string string) : option string :=
  match set_and_not_empty (env !! "PPLX_API_KEY") with
  | Some k => Some k
  | None => set_and_not_empty (env !! "PERPLEXITY_API_KEY")
  end.

(** The line of one RSS entry, numbered [i]. *)
Definition rss_line (i : nat) (it : RssEntry) : string :=
  let t := strip (default "" (entry_title it)) in
  let a := strip (default "" (entry_approx_traffic it)) in
  let d := strip (default "" (entry_pub_date it)) in
  pretty i +:+ ". " +:+ (if String.eqb t "" then "(no title)" else t)
    +:+ (if String.eqb a "" then "" else em_dash +:+ a)
    +:+ (if String.eqb d "" then "" else em_dash +:+ d).

(** An item as [fetch_gb_realtime] builds it. *)
Definition realtime_item (v : value) : Prop :=
  exists label entities started,
    v = VDict [("label", label); ("entities", entities); ("started", started)].

Section WithRuntime.
Context {rt : Runtime}.

(** The search of [main], with its handler. *)
Definition guarded_search (w : World) (args : Args) : M value :=
  try_with (call_perplexity_search w (query args) (max_results args))
    (fun e => _ ← print ("Error calling Perplexity Search API: " +:+ exn_str e);
              mret (VDict [])).



(** The line printed for one search result: the formatted line, or the
    item as text when formatting raises. *)
Definition result_line (item : value) : string :=
  match format_result_line item with
  | Ok line => line
  | Raise _ => "- " +:+ py_str item
  end.

End WithRuntime.

End MoreTrendsSpec.

(** *** Further notions: the run of the analysis *)

Module MainSpec.
Import Py Analyze AnalyzeMain.

(** The state after more events. *)
Definition extend (st : State) (evs : list event) : State :=
  {| environ := environ st; trace := trace st ++ evs |}.

(** A step whose events all satisfy [P], and which leaves the environment
    alone. *)
Definition only (P : event -> bool) {A : Type} (m : M A) : Prop :=
  forall st, exists evs, forallb P evs = true /\ (m st).2 = extend st evs.


(** The directories made, in order. *)
Definition started (t : list event) : list Path :=
  omap (fun ev => match ev with Mkdir p => Some p | _ => None end) t.

Definition is_mkdir (ev : event) : bool :=
  match ev with
  | Mkdir _ => true
  | _ => false
  end.

(** The directory of a result. *)
Definition dir_of (args : Args) (res : ResultRecord) : Path :=
  join_path (output_dir args) (out_name res).

(** The name of the file a path ends in. *)
Definition file_name (p : Path) : string := default "" (last (joined p)).

(** An event of a run that does not reach the API: no request, no pause,
    and no file written but the prompt and the note that the call was
    skipped. *)
Definition offline (ev : event) : bool :=
  match ev with
  | Chat _ _ _ | Sleep _ => false
  | WriteText p _ =>
      String.eqb (file_name p) "prompt.json"
      || String.eqb (file_name p) "skipped_api_call.txt"
  | Print _ | PrintErr _ | Mkdir _ => true
  end.


(** The last line of a run that ends well. *)
Definition processed_line_of (w : World) (args : Args) (processed : Z) : string :=
  "Processed " +:+ pretty processed +:+ " result(s). Output in: "
    +:+ path_str w (output_dir args).


Section WithRuntime.
Context {rt : Runtime}.

(** What follows the making of the directory in [process_result]. *)
Definition after_mkdir (w : World) (args : Args) (res : ResultRecord)
  (messages : list Message) : M unit :=
  let out_dir := dir_of args res in
  _ ← file_op w (WriteText (join_path out_dir "prompt.json")
                           (json_dumps_indent (prompt_dict (model args) messages)));
  do_call ← (fun st => (Ok (negb (dry_run args) && truthy (api_key (environ st))), st));
  response_json ←
    (if do_call : bool then
       try_with (r ← call_perplexity w messages (model args); mret (Some r))
                (fun e =>
                   _ ← file_op w (WriteText (join_path out_dir "error.txt") (exn_str e));
                   mret None)
     else
       _ ← file_op w (WriteText (join_path out_dir "skipped_api_call.txt")
                        "API call skipped (no key or dry-run). Set PPLX_API_KEY to enable.");
       mret None);
  _ ← match response_json with
      | Some r => when (truthy r) (report w args res out_dir r)
      | None => mret tt
      end;
  when (truthy (VFloat (sleep args)) && do_call)
    (fun st => attempt (Sleep (sleep args)) (sleep_error w (sleep args)) st).

End WithRuntime.

End MainSpec.

(** * Properties *)

(** ** Text and its characters *)

Module StrFacts.
Import Py StrSpec.

Lemma str_app_assoc (a b c : string) : (a +:+ b) +:+ c = a +:+ (b +:+ c).
Proof.
  induction a as [|x a IH]; [done|].
  change (String x ((a +:+ b) +:+ c) = String x (a +:+ (b +:+ c))). by rewrite IH.
Qed.

Lemma str_app_nil_r (a : string) : a +:+ "" = a.
Proof.
  induction a as [|x a IH]; [done|]. change (String x (a +:+ "") = String x a).
  by rewrite IH.
Qed.

Lemma str_app_length (a b : string) :
  String.length (a +:+ b) = (String.length a + String.length b)%nat.
Proof. induction a as [|x a IH]; [done|]. simpl. by rewrite <- IH. Qed.

Lemma str_contains_app ch a b :
  str_contains ch (a +:+ b) = str_contains ch a || str_contains ch b.
Proof.
  induction a as [|x a IH]; [done|].
  change (Ascii.eqb ch x || str_contains ch (a +:+ b)
          = Ascii.eqb ch x || str_contains ch a || str_contains ch b).
  rewrite IH. by destruct (Ascii.eqb ch x).
Qed.

Lemma str_concat_app l1 l2 :
  str_concat (l1 ++ l2) = str_concat l1 +:+ str_concat l2.
Proof.
  induction l1 as [|p l1 IH]; [done|]. simpl. by rewrite IH, str_app_assoc.
Qed.

(** *** Dropping from the ends of a list *)

Section Drop.
Context {A : Type} (p : A -> bool).

Lemma drop_while_suffix l : exists a, l = a ++ drop_while p l.
Proof.
  induction l as [|x l [a IH]]; [by exists []|]. simpl.
  destruct (p x); [|by exists []]. exists (x :: a). by rewrite IH at 1.
Qed.

Lemma drop_while_head l :
  drop_while p l = [] \/ exists x t, drop_while p l = x :: t /\ p x = false.
Proof.
  induction l as [|x l IH]; [by left|]. simpl.
  destruct (p x) eqn:Hx; [done|]. right. by exists x, l.
Qed.

Lemma drop_while_keep x l : p x = false -> drop_while p (x :: l) = x :: l.
Proof. intros Hx. simpl. by rewrite Hx. Qed.

Lemma drop_end_while_prefix l : exists b, l = drop_end_while p l ++ b.
Proof.
  induction l as [|x l [b IH]]; [by exists []|]. simpl.
  destruct (drop_end_while p l) as [|y r] eqn:Hr.
  - destruct (p x); [by exists (x :: l)|]. exists b. by rewrite IH at 1.
  - exists b. by rewrite IH at 1.
Qed.

Lemma drop_end_while_cons x l :
  p x = false -> drop_end_while p (x :: l) = x :: drop_end_while p l.
Proof. intros Hx. simpl. rewrite Hx. by destruct (drop_end_while p l). Qed.

Lemma drop_end_while_idem l :
  drop_end_while p (drop_end_while p l) = drop_end_while p l.
Proof.
  induction l as [|x l IH]; [done|]. simpl.
  destruct (drop_end_while p l) as [|y r] eqn:Hr.
  - destruct (p x) eqn:Hx; [done|]. simpl. by rewrite Hx.
  - change (drop_end_while p (x :: y :: r) = x :: y :: r).
    cbn [drop_end_while] in IH |- *. by rewrite IH.
Qed.

Lemma drop_end_while_app a l :
  drop_end_while p l <> [] ->
  drop_end_while p (a ++ l) = a ++ drop_end_while p l.
Proof.
  intros Hl. induction a as [|x a IH]; [done|].
  cbn [app drop_end_while]. rewrite IH.
  destruct (a ++ drop_end_while p l) eqn:Happ; [|done].
  by apply app_eq_nil in Happ as [_ ?].
Qed.

(** A list from which nothing is dropped at either end. *)
Lemma drop_both_fixed l :
  drop_end_while p (drop_while p l) = l ->
  drop_while p l = l /\ drop_end_while p l = l.
Proof.
  intros Hl. destruct (drop_while_suffix l) as [a Ha].
  destruct (drop_end_while_prefix (drop_while p l)) as [b Hb].
  rewrite Hl in Hb. rewrite Hb in Ha.
  apply (f_equal length) in Ha. rewrite !length_app in Ha.
  assert (a = []) as -> by (destruct a; [done | simpl in Ha; lia]).
  assert (b = []) as -> by (destruct b; [done | simpl in Ha; lia]).
  rewrite app_nil_r in Hb. split; [done|]. by rewrite <- Hb at 1.
Qed.

End Drop.

(** *** The code points of a text *)

Lemma code_points_from_text k s :
  (code_points_from k s).1 +:+ str_concat (code_points_from k s).2 = s.
Proof.
  revert k. induction s as [|c s IH]; intros k; [done|].
  cbn [code_points_from]. destruct k as [|k].
  - specialize (IH (Nat.pred (utf8_width c))).
    destruct (code_points_from _ s) as [cont cps]. cbn [fst snd str_concat] in *.
    change (String c (cont +:+ str_concat cps) = String c s). by rewrite IH.
  - specialize (IH k). destruct (code_points_from k s) as [cont cps].
    cbn [fst snd] in *.
    change (String c (cont +:+ str_concat cps) = String c s). by rewrite IH.
Qed.

Lemma code_points_from_O s : (code_points_from O s).1 = "".
Proof.
  destruct s as [|c s]; [done|]. cbn [code_points_from].
  by destruct (code_points_from _ s).
Qed.

(** The characters of a text, put together, are the text. *)
Lemma str_concat_code_points s : str_concat (code_points s) = s.
Proof.
  unfold code_points. pose proof (code_points_from_text O s) as H.
  by rewrite code_points_from_O in H.
Qed.

Lemma whole_begun cp : whole cp -> begun cp.
Proof. destruct cp; [done|]. simpl. lia. Qed.

Lemma chunks_cons cp l : chunks (cp :: l) -> begun cp /\ chunks l.
Proof.
  simpl. destruct l; [done|]. intros [H ?]. split; [by apply whole_begun | done].
Qed.

Lemma chunks_app l1 l2 : chunks (l1 ++ l2) -> chunks l1 /\ chunks l2.
Proof.
  induction l1 as [|cp l1 IH]; [done|]. intros H.
  change (chunks (cp :: (l1 ++ l2))) in H.
  destruct (chunks_cons _ _ H) as [Hcp Hrest]. destruct (IH Hrest) as [H1 H2].
  split; [|done]. destruct l1 as [|cp' l1]; [done|].
  simpl in H |- *. by destruct H.
Qed.

Lemma code_points_from_chunks k s :
  (String.length (code_points_from k s).1 <= k)%nat /\
  ((code_points_from k s).2 <> [] -> String.length (code_points_from k s).1 = k) /\
  chunks (code_points_from k s).2.
Proof.
  revert k. induction s as [|c s IH]; intros k.
  - simpl. split; [lia|]. by split.
  - simpl. destruct k as [|k].
    + destruct (IH (Nat.pred (utf8_width c))) as (Hle & Hfull & Hchunks).
      destruct (code_points_from _ s) as [cont cps]. simpl in *.
      split; [lia|]. split; [done|].
      destruct cps; [done|]. split; [by apply Hfull | done].
    + destruct (IH k) as (Hle & Hfull & Hchunks).
      destruct (code_points_from k s) as [cont cps]. simpl in *.
      split; [lia|]. split; [|done]. intros H. by rewrite Hfull.
Qed.

Lemma chunks_code_points s : chunks (code_points s).
Proof. apply code_points_from_chunks. Qed.

Lemma code_points_from_concat l :
  chunks l -> forall t k,
  (String.length t = k \/ (l = [] /\ String.length t <= k)%nat) ->
  code_points_from k (t +:+ str_concat l) = (t, l).
Proof.
  induction l as [|cp l IH]; intros Hl t.
  - induction t as [|a t IHt]; intros k Hk; [done|].
    destruct k as [|k]; [simpl in Hk; destruct Hk as [?|[_ ?]]; lia|].
    change (code_points_from (S k) (String a (t +:+ str_concat []))
            = (String a t, [])).
    cbn [code_points_from]. rewrite (IHt k); [done|]. simpl in Hk. right. split; [done|].
    destruct Hk as [?|[_ ?]]; lia.
  - destruct (chunks_cons _ _ Hl) as [Hcp Hrest].
    induction t as [|a t IHt]; intros k Hk.
    + destruct Hk as [<-|[? _]]; [|done]. destruct cp as [|c u]; [done|].
      change (code_points_from O (String c (u +:+ str_concat l))
              = ("", String c u :: l)).
      cbn [code_points_from]. rewrite (IH Hrest u); [done|].
      simpl in Hl. destruct l; [right; by split | left; by destruct Hl].
    + destruct Hk as [<-|[? _]]; [|done].
      change (code_points_from (S (String.length t))
                (String a (t +:+ str_concat (cp :: l))) = (String a t, cp :: l)).
      cbn [code_points_from]. rewrite (IHt (String.length t)); [done|]. by left.
Qed.

(** The characters of a text made of characters are those characters. *)
Lemma code_points_concat l : chunks l -> code_points (str_concat l) = l.
Proof.
  intros Hl. unfold code_points.
  change (str_concat l) with ("" +:+ str_concat l).
  rewrite (code_points_from_concat l Hl "" O); [done|]. by left.
Qed.

(** A one-byte character at the head of a text. *)
Lemma code_points_cons c s :
  utf8_width c = 1%nat -> code_points (String c s) = String c "" :: code_points s.
Proof.
  intros Hc. unfold code_points. cbn [code_points_from]. rewrite Hc.
  pose proof (code_points_from_O s) as H. cbn [Nat.pred].
  destruct (code_points_from O s) as [cont cps]. cbn [fst snd] in *. by subst cont.
Qed.

(** *** Stripping *)

Lemma chunks_drop_while p s : chunks (drop_while p (code_points s)).
Proof.
  destruct (drop_while_suffix p (code_points s)) as [a Ha].
  pose proof (chunks_code_points s) as H. rewrite Ha in H.
  by apply chunks_app in H as [_ ?].
Qed.

Lemma chunks_drop_both p s :
  chunks (drop_end_while p (drop_while p (code_points s))).
Proof.
  destruct (drop_end_while_prefix p (drop_while p (code_points s))) as [b Hb].
  pose proof (chunks_drop_while p s) as H. rewrite Hb in H.
  by apply chunks_app in H as [? _].
Qed.

Lemma code_points_lstrip s :
  code_points (lstrip s) = drop_while is_space (code_points s).
Proof. apply code_points_concat, chunks_drop_while. Qed.

Lemma code_points_strip s :
  code_points (strip s)
  = drop_end_while is_space (drop_while is_space (code_points s)).
Proof. apply code_points_concat, chunks_drop_both. Qed.

(** Stripped text is a part of the text. *)
Lemma lstrip_part s : exists a, s = a +:+ lstrip s.
Proof.
  destruct (drop_while_suffix is_space (code_points s)) as [a Ha].
  exists (str_concat a). unfold lstrip.
  by rewrite <- str_concat_app, <- Ha, str_concat_code_points.
Qed.

Lemma strip_part s : exists a b, s = a +:+ strip s +:+ b.
Proof.
  destruct (drop_while_suffix is_space (code_points s)) as [a Ha].
  destruct (drop_end_while_prefix is_space (drop_while is_space (code_points s)))
    as [b Hb].
  exists (str_concat a), (str_concat b). unfold strip.
  by rewrite <- !str_concat_app, <- Hb, <- Ha, str_concat_code_points.
Qed.

Lemma str_contains_lstrip ch s :
  str_contains ch s = false -> str_contains ch (lstrip s) = false.
Proof.
  destruct (lstrip_part s) as [a Ha]. rewrite Ha at 1.
  rewrite str_contains_app. by intros [_ ?]%orb_false_iff.
Qed.

Lemma str_contains_strip ch s :
  str_contains ch s = false -> str_contains ch (strip s) = false.
Proof.
  destruct (strip_part s) as (a & b & Hs). rewrite Hs at 1.
  rewrite !str_contains_app.
  by intros [_ [? _]%orb_false_iff]%orb_false_iff.
Qed.

(** What is dropped from both ends leaves nothing more to drop. *)
Lemma drop_both_idem {A : Type} (p : A -> bool) l :
  drop_end_while p (drop_while p (drop_end_while p (drop_while p l)))
  = drop_end_while p (drop_while p l).
Proof.
  destruct (drop_while_head p l) as [->|(c & t & -> & Hc)]; [done|].
  rewrite drop_end_while_cons by done. rewrite drop_while_keep by done.
  rewrite drop_end_while_cons by done. by rewrite drop_end_while_idem.
Qed.

Lemma strip_strip s : strip (strip s) = strip s.
Proof.
  unfold strip at 1. rewrite code_points_strip. by rewrite drop_both_idem.
Qed.

Lemma lstrip_strip s : lstrip (strip s) = strip s.
Proof.
  unfold lstrip. rewrite code_points_strip. unfold strip.
  destruct (drop_while_head is_space (code_points s)) as [->|(c & t & -> & Hc)];
    [done|].
  rewrite drop_end_while_cons by done. by rewrite drop_while_keep.
Qed.

(** Text that [strip] leaves as it is has no white space at either end. *)
Lemma strip_fixed s :
  strip s = s ->
  drop_while is_space (code_points s) = code_points s /\
  drop_end_while is_space (code_points s) = code_points s.
Proof.
  intros Hs. apply drop_both_fixed. rewrite <- code_points_strip. by rewrite Hs.
Qed.

Lemma lstrip_fixed s : strip s = s -> lstrip s = s.
Proof.
  intros [Hl _]%strip_fixed. unfold lstrip. by rewrite Hl, str_concat_code_points.
Qed.

(** Text before text that ends without white space. *)
Lemma strip_app_ascii c a s :
  utf8_width c = 1%nat -> is_space (String c "") = false ->
  Forall (fun x => utf8_width x = 1%nat) (list_ascii_of_string a) ->
  s <> "" -> strip s = s ->
  strip (String c a +:+ s) = String c a +:+ s.
Proof.
  intros Hc Hspace Ha Hne Hs. destruct (strip_fixed s Hs) as [_ Hr].
  assert (Hcps : forall a, Forall (fun x => utf8_width x = 1%nat) (list_ascii_of_string a) ->
            code_points (a +:+ s)
            = ((fun x => String x "") <$> list_ascii_of_string a) ++ code_points s).
  { clear -s. intros a. induction a as [|x a IH]; [done|]. intros [Hx Ha]%Forall_cons.
    change (code_points (String x (a +:+ s))
            = String x "" :: ((fun x => String x "") <$> list_ascii_of_string a)
                ++ code_points s).
    rewrite code_points_cons by done. by rewrite IH. }
  unfold strip. change (String c a +:+ s) with (String c (a +:+ s)).
  rewrite code_points_cons by done. rewrite drop_while_keep by done.
  rewrite Hcps by done. rewrite app_comm_cons.
  rewrite drop_end_while_app.
  - rewrite Hr, <- app_comm_cons, <- Hcps by done.
    change (String c "" :: code_points (a +:+ s))
      with ([String c ""] ++ code_points (a +:+ s)).
    by rewrite str_concat_app, str_concat_code_points.
  - rewrite Hr. intros Hnil. apply Hne.
    by rewrite <- (str_concat_code_points s), Hnil.
Qed.

End StrFacts.


(** ** Loops *)

Module PyFacts.
Import Py.

Lemma for_each_cons {A S : Type} (x : A) xs (body : A -> S -> result S) st :
  for_each (x :: xs) body st = st' ← body x st; for_each xs body st'.
Proof. done. Qed.

Lemma for_each_app {A S : Type} (xs ys : list A) (body : A -> S -> result S) st :
  for_each (xs ++ ys) body st = st' ← for_each xs body st; for_each ys body st'.
Proof.
  revert st. induction xs as [|x xs IH]; intros st; [done|].
  simpl. destruct (body x st) as [st'|e]; [apply IH | done].
Qed.

End PyFacts.

(** ** Ordered dictionaries *)

Module ODictFacts.
Import Py.

Section WithValue.
Context {V : Type}.
Implicit Types (k : string) (v : V) (d : list (string * V)).

Lemma assoc_set k k' v d :
  assoc k' (ODict.set k v d) = if decide (k' = k) then Some v else assoc k' d.
Proof.
  induction d as [|[k0 v0] d IH]; simpl.
  - destruct (String.eqb_spec k' k); case_decide; congruence.
  - destruct (String.eqb_spec k k0) as [->|Hne]; simpl.
    + destruct (String.eqb_spec k' k0); case_decide; congruence.
    + rewrite IH. destruct (String.eqb_spec k' k0); case_decide; congruence.
Qed.

Lemma keys_set k k' v d :
  k' ∈ ODict.keys (ODict.set k v d) <-> k' = k \/ k' ∈ ODict.keys d.
Proof.
  unfold ODict.keys. induction d as [|[k0 v0] d IH]; simpl.
  - rewrite list_elem_of_singleton. set_solver.
  - destruct (String.eqb_spec k k0) as [->|Hne]; simpl.
    + rewrite !elem_of_cons. tauto.
    + rewrite !elem_of_cons, IH. tauto.
Qed.

Lemma NoDup_keys_set k v d :
  NoDup (ODict.keys d) -> NoDup (ODict.keys (ODict.set k v d)).
Proof.
  unfold ODict.keys. induction d as [|[k0 v0] d IH]; simpl; intros Hnd.
  - apply NoDup_singleton.
  - apply NoDup_cons in Hnd as [Hk0 Hnd].
    destruct (String.eqb_spec k k0) as [->|Hne]; simpl.
    + apply NoDup_cons; done.
    + apply NoDup_cons; split; [|by apply IH].
      intros Hin. apply (keys_set k k0 v d) in Hin as [->|Hin]; done.
Qed.

Lemma assoc_None k d : assoc k d = None <-> k ∉ ODict.keys d.
Proof.
  unfold ODict.keys. induction d as [|[k0 v0] d IH]; simpl.
  - split; [intros _; apply not_elem_of_nil | done].
  - rewrite not_elem_of_cons.
    destruct (String.eqb_spec k k0) as [->|Hne]; [| rewrite IH]; naive_solver.
Qed.

Lemma elem_of_assoc k v d :
  NoDup (ODict.keys d) -> (k, v) ∈ d <-> assoc k d = Some v.
Proof.
  unfold ODict.keys. induction d as [|[k0 v0] d IH]; simpl; intros Hnd.
  - split; [intros H; by apply elem_of_nil in H | done].
  - apply NoDup_cons in Hnd as [Hk0 Hnd]. rewrite elem_of_cons, (IH Hnd).
    destruct (String.eqb_spec k k0) as [->|Hne].
    + split; [intros [?|Hin]; [congruence|] | intros ?; left; congruence].
      exfalso. apply Hk0. change (k0 ∈ ODict.keys d).
      apply dec_stable. intros Hn. apply assoc_None in Hn. congruence.
    + naive_solver.
Qed.

End WithValue.

Create HintDb odict.
#[export] Hint Resolve NoDup_keys_set : odict.

End ODictFacts.

(** ** The context builder *)

Module ContextFacts.
Import Py Analyze ContextSpec PyFacts ODictFacts.

Section WithRuntime.
Context {rt : Runtime}.
Implicit Types (qm : gmap string QuestionMeta) (d : list (string * value)).

(** *** The loop *)

Lemma fold_visit_source ss srcs all_sources :
  fold_left visit_source ss (srcs, all_sources)
  = (srcs ++ (source_ref <$> ss), record_sources ss all_sources).
Proof.
  revert srcs all_sources. induction ss as [|s ss IH]; intros srcs all_sources; simpl.
  - by rewrite app_nil_r.
  - unfold visit_source at 2. simpl. rewrite IH. by rewrite <- app_assoc.
Qed.

Lemma build_item_dict qm d st :
  build_item qm (VDict d) st
  = Ok (st.1 ++ [entry_item qm d], record_sources (entry_sources qm d) st.2).
Proof.
  unfold build_item, entry_item, entry_sources. simpl.
  fold (entry_qid d). destruct (qm !! entry_qid d) as [m|]; [|done].
  destruct (sources m) as [|s ss]; [done|].
  change (fold_left visit_source ss (visit_source ([], st.2) s))
    with (fold_left visit_source (s :: ss) ([], st.2)).
  by rewrite fold_visit_source.
Qed.

Lemma record_sources_app ss1 ss2 all_sources :
  record_sources (ss1 ++ ss2) all_sources
  = record_sources ss2 (record_sources ss1 all_sources).
Proof. apply fold_left_app. Qed.

Lemma for_each_build_item qm ds st :
  for_each (VDict <$> ds) (build_item qm) st
  = Ok (st.1 ++ (entry_item qm <$> ds), record_sources (visited_sources qm ds) st.2).
Proof.
  revert st. induction ds as [|d ds IH]; intros [its srcs].
  - simpl. by rewrite app_nil_r.
  - rewrite fmap_cons, for_each_cons, build_item_dict.
    change (for_each (VDict <$> ds) (build_item qm)
              (its ++ [entry_item qm d], record_sources (entry_sources qm d) srcs)
            = Ok (its ++ (entry_item qm <$> d :: ds),
                  record_sources (visited_sources qm (d :: ds)) srcs)).
    rewrite IH. cbn [fst snd]. unfold visited_sources.
    by rewrite bind_cons, record_sources_app, <- app_assoc.
Qed.

(** When the perceptions iterate to objects (a list of objects does) the
    builder returns, and this is what it returns. *)
Lemma build_context_dicts (res : ResultRecord) qm ds :
  py_iter (perceptions res) = Ok (VDict <$> ds) ->
  build_context_for_result res qm = Ok {|
    ctx_result_id := result_id res;
    ctx_session_id := session_id res;
    ctx_quiz_link_id := quiz_link_id res;
    ctx_created_at := created_at res;
    summary := {|
      num_questions := length ds;
      mean_abs_error := mean_or_none (omap abs_error (entry_item qm <$> ds));
      num_with_sources := length (List.filter has_sources (entry_item qm <$> ds));
    |};
    items := entry_item qm <$> ds;
    candidate_sources :=
      source_ref <$> ODict.values (record_sources (visited_sources qm ds) []);
  |}.
Proof.
  intros Hp. unfold build_context_for_result. rewrite Hp. cbn [mbind result_bind].
  rewrite for_each_build_item. simpl. by rewrite length_fmap.
Qed.

(** In every other case it raises: it returns only when the perceptions
    iterate to objects. *)
Lemma for_each_build_item_inv qm entries st st' :
  for_each entries (build_item qm) st = Ok st' ->
  exists ds, entries = VDict <$> ds.
Proof.
  revert st. induction entries as [|entry entries IH]; intros st Hloop.
  - by exists [].
  - rewrite for_each_cons in Hloop.
    destruct entry as [| | | | | |d]; try done.
    rewrite build_item_dict in Hloop. cbn [mbind result_bind] in Hloop.
    destruct (IH _ Hloop) as [ds ->]. by exists (d :: ds).
Qed.

Lemma build_context_returns (res : ResultRecord) qm :
  (exists ctx, build_context_for_result res qm = Ok ctx) <->
  (exists ds, py_iter (perceptions res) = Ok (VDict <$> ds)).
Proof.
  split.
  - intros [ctx Hctx]. unfold build_context_for_result in Hctx.
    destruct (py_iter (perceptions res)) as [entries|e]; [|done].
    cbn [mbind result_bind] in Hctx.
    destruct (for_each entries (build_item qm) ([], [])) as [st|e] eqn:Hloop; [|done].
    destruct (for_each_build_item_inv _ _ _ _ Hloop) as [ds ->]. by exists ds.
  - intros [ds Hds]. eexists. by apply build_context_dicts.
Qed.

(** *** The error metric *)

Lemma abs_error_of_numeric u a :
  abs_error_of u a = p ← (x ← numeric u; y ← numeric a; Some (x, y)); Some (abs_difference p).
Proof.
  unfold abs_error_of, numeric.
  destruct (is_none u); [done|]. simpl.
  destruct (is_none a); simpl.
  - by destruct (py_float u).
  - destruct (py_float u) as [fu|]; [|done]. simpl.
    by destruct (py_float a).
Qed.

Lemma abs_error_entry_item qm d :
  abs_error (entry_item qm d) = abs_difference <$> numeric_pair d.
Proof.
  unfold entry_item, numeric_pair. simpl. rewrite abs_error_of_numeric.
  by destruct (numeric (dict_get "userGuessValue" d)),
              (numeric (dict_get "actualValue" d)).
Qed.

Lemma errors_of_items qm ds :
  omap abs_error (entry_item qm <$> ds) = numeric_abs_differences ds.
Proof.
  unfold numeric_abs_differences. induction ds as [|d ds IH]; [done|].
  rewrite fmap_cons. cbn [omap list_omap]. fold (omap abs_error (entry_item qm <$> ds)).
  fold (omap (fun d => abs_difference <$> numeric_pair d) ds).
  by rewrite abs_error_entry_item, IH.
Qed.


(** *** The de-duplicated sources *)

Lemma record_sources_cons s ss all_sources :
  record_sources (s :: ss) all_sources
  = record_sources ss (ODict.set (url s) s all_sources).
Proof. done. Qed.

Lemma NoDup_keys_record_sources ss all_sources :
  NoDup (ODict.keys all_sources) ->
  NoDup (ODict.keys (record_sources ss all_sources)).
Proof.
  revert all_sources. induction ss as [|s ss IH]; intros all_sources Hnd; [done|].
  rewrite record_sources_cons. auto with odict.
Qed.

(** The source kept for a URL is the last one visited with that URL. *)
Lemma assoc_record_sources u ss all_sources :
  assoc u (record_sources ss all_sources)
  = match last (filter (fun s => url s = u) ss) with
    | Some s => Some s
    | None => assoc u all_sources
    end.
Proof.
  revert all_sources. induction ss as [|s ss IH]; intros all_sources; [done|].
  rewrite record_sources_cons, IH, assoc_set, filter_cons.
  case_decide as Hu; case_decide as Hu'; try congruence.
  rewrite last_cons. by destruct (last (filter _ ss)).
Qed.

Lemma last_filter_elem {A : Type} (P : A -> Prop) `{!forall x, Decision (P x)}
  (l : list A) (x : A) :
  last (filter P l) = Some x -> x ∈ l /\ P x.
Proof.
  intros Hlast. apply last_Some_elem_of in Hlast.
  apply list_elem_of_filter in Hlast. tauto.
Qed.

Lemma length_filter_NoDup_fmap {A B : Type} `{EqDecision B} (f : A -> B)
  (l : list A) (y : B) :
  NoDup (f <$> l) -> y ∈ f <$> l ->
  length (filter (fun x => f x = y) l) = 1%nat.
Proof.
  induction l as [|x l IH]; intros Hnd Hin.
  - by apply elem_of_nil in Hin.
  - rewrite fmap_cons in Hnd, Hin. apply NoDup_cons in Hnd as [Hx Hnd].
    rewrite filter_cons. case_decide as Hfx.
    + subst y. simpl. f_equal.
      destruct (filter (fun x0 => f x0 = f x) l) as [|z zs] eqn:Hf; [done|].
      exfalso. apply Hx.
      assert (Hz : z ∈ filter (fun x0 => f x0 = f x) l) by (rewrite Hf; left).
      apply list_elem_of_filter in Hz as [<- Hz]. by apply list_elem_of_fmap_2.
    + apply elem_of_cons in Hin as [?|Hin]; [congruence|]. by apply IH.
Qed.

(** Every item of the final dictionary is the last source visited with
    its key as URL. *)
Lemma elem_of_record_sources k s ss :
  (k, s) ∈ record_sources ss [] <->
  last (filter (fun s' => url s' = k) ss) = Some s.
Proof.
  rewrite elem_of_assoc by (apply NoDup_keys_record_sources; constructor).
  rewrite assoc_record_sources. simpl. by destruct (last _).
Qed.

Lemma elem_of_candidates r ss :
  r ∈ source_ref <$> ODict.values (record_sources ss []) <->
  exists s, r = source_ref s /\
    last (filter (fun s' => url s' = ref_url r) ss) = Some s.
Proof.
  unfold ODict.values. rewrite list_elem_of_fmap. split.
  - intros (s & -> & Hs). apply list_elem_of_fmap in Hs as ([k s'] & -> & Hks).
    exists s'. split; [done|]. simpl.
    apply elem_of_record_sources in Hks as Hlast.
    apply last_filter_elem in Hlast as Hk. destruct Hk as [_ Hk].
    by rewrite Hk.
  - intros (s & -> & Hlast). exists s. split; [done|].
    apply elem_of_record_sources in Hlast.
    apply list_elem_of_fmap. by exists (ref_url (source_ref s), s).
Qed.

Lemma candidate_urls ss :
  ref_url <$> (source_ref <$> ODict.values (record_sources ss []))
  = ODict.keys (record_sources ss []).
Proof.
  unfold ODict.values, ODict.keys. rewrite <- !list_fmap_compose.
  apply Forall_fmap_ext, Forall_forall. intros [k s] Hks. simpl.
  apply elem_of_record_sources, last_filter_elem in Hks. tauto.
Qed.

End WithRuntime.

End ContextFacts.

(** ** Claims about the context builder *)

Module ContextClaims.
Import Py Analyze ContextSpec ContextFacts.

Section WithRuntime.
Context {rt : Runtime}.
Implicit Types (qm : gmap string QuestionMeta) (d : list (string * value)).

(** Throughout, [ds] are the objects the perceptions of the record iterate
    to; a list of objects iterates to its elements. By
    [build_context_returns] the builder returns on these records and on no
    other. *)


(** C2. The absolute error of an item is computed exactly when both values
    of its entry are present and [float] accepts both, and is then the
    absolute difference of the two floats; when a value is missing or
    [float] raises on one of them the item's [abs_error] is null, and the
    builder still returns: the exception does not leave it. *)
Theorem abs_error_only_when_numeric (res : ResultRecord) qm ds :
  py_iter (perceptions res) = Ok (VDict <$> ds) ->
  exists ctx,
    build_context_for_result res qm = Ok ctx /\
    forall i d, ds !! i = Some d ->
      exists it,
        items ctx !! i = Some it /\
        let u := dict_get "userGuessValue" d in
        let a := dict_get "actualValue" d in
        (forall e, abs_error it = Some e <->
           exists fu fa, u <> VNone /\ a <> VNone /\
             py_float u = Ok fu /\ py_float a = Ok fa /\
             e = PrimFloat.abs (PrimFloat.sub fu fa)) /\
        (u = VNone \/ a = VNone \/
         (exists x, py_float u = Raise x) \/ (exists x, py_float a = Raise x) ->
         abs_error it = None).
Proof.
  intros Hp. eexists. split; [by apply build_context_dicts|]. cbn [items].
  intros i d Hd. exists (entry_item qm d). split.
  { by rewrite list_lookup_fmap, Hd. }
  cbn zeta. rewrite abs_error_entry_item. unfold numeric_pair, numeric.
  set (u := dict_get "userGuessValue" d). set (a := dict_get "actualValue" d).
  assert (Hu : is_none u = true <-> u = VNone) by (by destruct u).
  assert (Ha : is_none a = true <-> a = VNone) by (by destruct a).
  split.
  - intros e. split.
    + destruct (is_none u) eqn:Eu; [done|].
      destruct (py_float u) as [fu|] eqn:Efu; [|done].
      destruct (is_none a) eqn:Ea; [done|].
      destruct (py_float a) as [fa|] eqn:Efa; [|done].
      simpl. intros [= <-]. exists fu, fa.
      repeat split; try done; intros ->; naive_solver.
    + intros (fu & fa & Hnu & Hna & -> & -> & ->).
      destruct (is_none u); [naive_solver|].
      destruct (is_none a); [naive_solver|]. done.
  - intros [->|[->|[[x Hx]|[x Hx]]]].
    + done.
    + destruct (is_none u); [done|]. by destruct (py_float u).
    + rewrite Hx. by destruct (is_none u).
    + rewrite Hx. destruct (is_none u); [done|].
      destruct (py_float u); [|done]. by destruct (is_none a).
Qed.

(** C10. A perception entry whose question id has no match in the quiz
    mapping still gets its item, at the entry's own position: the context
    has one item per entry, and the item of an unmatched entry has a null
    category, no sources, and as question text the entry's own
    [questionText] (as text, stripped) or the empty string. *)
Theorem unmatched_perception_kept (res : ResultRecord) qm ds :
  py_iter (perceptions res) = Ok (VDict <$> ds) ->
  exists ctx,
    build_context_for_result res qm = Ok ctx /\
    length (items ctx) = length ds /\
    forall i d, ds !! i = Some d -> qm !! entry_qid d = None ->
      exists it,
        items ctx !! i = Some it /\
        question_id it = entry_qid d /\
        item_category it = VNone /\
        item_sources it = [] /\
        item_question it
        = (if truthy (dict_get "questionText" d)
           then strip (py_str (dict_get "questionText" d))
           else "").
Proof.
  intros Hp. eexists. split; [by apply build_context_dicts|]. cbn [items].
  split; [by rewrite length_fmap|].
  intros i d Hd Hmiss. exists (entry_item qm d). split.
  { by rewrite list_lookup_fmap, Hd. }
  unfold entry_item, entry_sources. cbn. rewrite Hmiss.
  repeat split. unfold py_or. by destruct (truthy (dict_get "questionText" d)).
Qed.

(** C3. The candidate sources hold one entry per distinct source URL: no
    URL occurs twice, the URLs are exactly those of the sources visited, a
    URL shared by several visited sources has exactly one entry, and the
    entry's name is that of the last source visited with its URL, the URL
    itself when that source has no name. *)
Theorem candidate_sources_deduplicated (res : ResultRecord) qm ds :
  py_iter (perceptions res) = Ok (VDict <$> ds) ->
  exists ctx,
    build_context_for_result res qm = Ok ctx /\
    NoDup (ref_url <$> candidate_sources ctx) /\
    (forall u, u ∈ ref_url <$> candidate_sources ctx <->
               u ∈ url <$> visited_sources qm ds) /\
    (forall u, u ∈ url <$> visited_sources qm ds ->
       length (filter (fun r => ref_url r = u) (candidate_sources ctx)) = 1%nat) /\
    (forall r, r ∈ candidate_sources ctx ->
       exists s,
         last (filter (fun s' => url s' = ref_url r) (visited_sources qm ds)) = Some s /\
         ref_name r = (if truthy (name s) then name s else VStr (ref_url r))).
Proof.
  intros Hp. eexists. split; [by apply build_context_dicts|].
  cbn [candidate_sources]. set (ss := visited_sources qm ds).
  assert (Hnd : NoDup (ref_url <$> (source_ref <$> ODict.values (record_sources ss [])))).
  { rewrite candidate_urls. apply NoDup_keys_record_sources. constructor. }
  assert (Hurls : forall u,
    u ∈ ref_url <$> (source_ref <$> ODict.values (record_sources ss [])) <->
    u ∈ url <$> ss).
  { intros u. rewrite !list_elem_of_fmap. split.
    - intros (r & -> & Hr). apply elem_of_candidates in Hr as (s & -> & Hlast).
      apply last_filter_elem in Hlast as [Hs _]. by exists s.
    - intros (s0 & -> & Hs0).
      destruct (last (filter (fun s' => url s' = url s0) ss)) as [s|] eqn:Hlast.
      + exists (source_ref s). apply last_filter_elem in Hlast as Hs.
        destruct Hs as [_ Hs]. split; [done|].
        apply elem_of_candidates. exists s. simpl. by rewrite Hs.
      + apply last_None in Hlast. exfalso.
        by eapply (filter_nil_not_elem_of _ _ s0) in Hlast. }
  split; [done|]. split; [done|]. split.
  - intros u Hu. apply length_filter_NoDup_fmap; [done | by apply Hurls].
  - intros r Hr. apply elem_of_candidates in Hr as (s & -> & Hlast).
    exists s. split; [done|]. done.
Qed.

(** X27. Of a result record the builder reads the identifiers, the
    timestamp and the perceptions, and nothing else: records that agree on
    these give the same context and the same messages, whatever their
    score. The timestamp is only echoed: records that differ in
    [created_at] give contexts that differ in that field and nowhere
    else. *)
Theorem created_at_only_echoed (res1 res2 : ResultRecord) qm :
  result_id res1 = result_id res2 ->
  session_id res1 = session_id res2 ->
  quiz_link_id res1 = quiz_link_id res2 ->
  perceptions res1 = perceptions res2 ->
  (created_at res1 = created_at res2 ->
   build_context_for_result res1 qm = build_context_for_result res2 qm /\
   prompt_for res1 qm = prompt_for res2 qm) /\
  with_created_at (created_at res2) <$> build_context_for_result res1 qm
  = build_context_for_result res2 qm.
Proof.
  intros Hid Hsession Hquiz Hperceptions.
  assert (Hecho :
    with_created_at (created_at res2) <$> build_context_for_result res1 qm
    = build_context_for_result res2 qm).
  { unfold build_context_for_result.
    rewrite Hid, Hsession, Hquiz, Hperceptions.
    destruct (py_iter (perceptions res2)) as [entries|e]; [|done]. simpl.
    by destruct (for_each entries (build_item qm) ([], [])). }
  split; [|exact Hecho].
  intros Hcreated.
  assert (Hsame : build_context_for_result res1 qm = build_context_for_result res2 qm).
  { rewrite <- Hecho, <- Hcreated.
    unfold build_context_for_result.
    destruct (py_iter (perceptions res1)) as [entries|e]; [|done]. simpl.
    by destruct (for_each entries (build_item qm) ([], [])). }
  split; [exact Hsame|]. unfold prompt_for. by rewrite Hsame.
Qed.

End WithRuntime.

(** The theorems at the inputs of module [Example]. *)



Lemma abs_error_only_when_numeric_witness :
  py_iter (perceptions Example.result1) = Ok (VDict <$> Example.entries) /\
  exists ctx it0 it1,
    build_context_for_result (rt := Ref.runtime) Example.result1 Example.quiz = Ok ctx /\
    items ctx !! 0%nat = Some it0 /\ abs_error it0 = Some 5%float /\
    items ctx !! 1%nat = Some it1 /\ abs_error it1 = None.
Proof.
  split; [reflexivity|].
  destruct (abs_error_only_when_numeric (rt := Ref.runtime)
              Example.result1 Example.quiz Example.entries eq_refl)
    as (ctx & Hctx & Hitems).
  destruct (Hitems 0%nat _ eq_refl) as (it0 & Hit0 & Hsome0 & _).
  destruct (Hitems 1%nat _ eq_refl) as (it1 & Hit1 & _ & Hnone1).
  exists ctx, it0, it1. split; [exact Hctx|]. split; [exact Hit0|]. split.
  - apply Hsome0. exists 10%float, 15%float.
    repeat split; try discriminate; reflexivity.
  - split; [exact Hit1|]. apply Hnone1. right; right; left.
    eexists. reflexivity.
Defined.

Lemma candidate_sources_deduplicated_witness :
  py_iter (perceptions Example.result1) = Ok (VDict <$> Example.entries) /\
  exists ctx,
    build_context_for_result (rt := Ref.runtime) Example.result1 Example.quiz = Ok ctx /\
    NoDup (ref_url <$> candidate_sources ctx) /\
    length (filter (fun r => ref_url r = "https://a") (candidate_sources ctx)) = 1%nat.
Proof.
  split; [reflexivity|].
  destruct (candidate_sources_deduplicated (rt := Ref.runtime)
              Example.result1 Example.quiz Example.entries eq_refl)
    as (ctx & Hctx & Hnodup & _ & Hone & _).
  exists ctx. split; [exact Hctx|]. split; [exact Hnodup|].
  apply Hone. vm_compute. left.
Defined.

Lemma unmatched_perception_kept_witness :
  py_iter (perceptions Example.result1) = Ok (VDict <$> Example.entries) /\
  exists ctx it,
    build_context_for_result (rt := Ref.runtime) Example.result1 Example.quiz = Ok ctx /\
    length (items ctx) = 3%nat /\
    items ctx !! 2%nat = Some it /\
    question_id it = "q9" /\ item_category it = VNone /\ item_sources it = [] /\
    item_question it = "Tallest peak?".
Proof.
  split; [reflexivity|].
  destruct (unmatched_perception_kept (rt := Ref.runtime)
              Example.result1 Example.quiz Example.entries eq_refl)
    as (ctx & Hctx & Hlen & Hitems).
  destruct (Hitems 2%nat _ eq_refl eq_refl) as (it & Hit & Hid & Hcat & Hsrc & Hq).
  exists ctx, it. repeat split; assumption.
Defined.

Lemma created_at_only_echoed_witness :
  with_created_at (created_at Example.result1_later)
    <$> build_context_for_result (rt := Ref.runtime) Example.result1 Example.quiz
  = build_context_for_result (rt := Ref.runtime) Example.result1_later Example.quiz.
Proof.
  exact (proj2 (created_at_only_echoed (rt := Ref.runtime)
                  Example.result1 Example.result1_later Example.quiz
                  eq_refl eq_refl eq_refl eq_refl)).
Defined.

End ContextClaims.

(** ** The loaders *)

Module LoaderFacts.
Import Py Analyze LoaderSpec PyFacts.

Lemma cell_empty k : cell ∅ k = "".
Proof. unfold cell. by rewrite lookup_empty. Qed.

Lemma row_is_empty_true (row : gmap string string) :
  row_is_empty row = true -> row = ∅.
Proof. unfold row_is_empty. by intros ?%bool_decide_eq_true. Qed.

(** A row with a cell that is not blank is not the empty row. *)
Lemma row_with_cell_not_empty (row : gmap string string) k :
  strip (cell row k) <> "" -> row_is_empty row = false.
Proof.
  intros Hcell. destruct (row_is_empty row) eqn:Hrow; [|done].
  apply row_is_empty_true in Hrow. subst row. by rewrite cell_empty in Hcell.
Qed.

Lemma eqb_empty_false s : s <> "" -> String.eqb s "" = false.
Proof. intros Hs. by destruct (String.eqb_spec s ""). Qed.

Section WithRuntime.
Context {rt : Runtime}.

(** *** Quizzes *)

Lemma load_quiz_row_without_id row quizzes :
  strip (cell row "Quiz Link ID") = "" -> load_quiz_row row quizzes = Ok quizzes.
Proof.
  intros Hid. unfold load_quiz_row. rewrite Hid.
  by destruct (row_is_empty row).
Qed.

Lemma load_quiz_row_undecodable row quizzes msg doc pos e :
  strip (cell row "Quiz Link ID") <> "" ->
  strip (cell row "Questions JSON") <> "" ->
  json_loads (strip (cell row "Questions JSON")) = Raise (JSONDecodeError msg doc pos) ->
  json_loads (replace dquote2 dquote1 (strip (cell row "Questions JSON"))) = Raise e ->
  load_quiz_row row quizzes = Raise e.
Proof.
  intros Hid Hcell Hstrict Hfallback. unfold load_quiz_row.
  rewrite (row_with_cell_not_empty row _ Hid).
  rewrite (eqb_empty_false _ Hid), (eqb_empty_false _ Hcell).
  unfold loads_with_fallback. by rewrite Hstrict, Hfallback.
Qed.

(** *** Results *)

Lemma load_result_row_eq row rows :
  load_result_row row rows
  = v ← row_perceptions row;
    Ok (if String.eqb (strip (cell row "Result ID")) "" then rows
        else rows ++ [record_of row v]).
Proof.
  unfold load_result_row, row_perceptions.
  destruct (row_is_empty row) eqn:Hrow.
  - apply row_is_empty_true in Hrow. subst row. by rewrite !cell_empty.
  - destruct (String.eqb (strip (cell row "Perceptions JSON")) ""); simpl.
    + by destruct (String.eqb (strip (cell row "Result ID")) "").
    + destruct (loads_with_fallback _); [|done]. simpl.
      by destruct (String.eqb (strip (cell row "Result ID")) "").
Qed.

End WithRuntime.

End LoaderFacts.

Module LoaderClaims.
Import Py Analyze LoaderSpec PyFacts LoaderFacts.

Section WithRuntime.
Context {rt : Runtime}.

(** C5, as amended. A row with a non-blank [Quiz Link ID] whose non-blank
    [Questions JSON] cell fails the strict decode and the decode with
    doubled quotes collapsed makes [load_quizzes] fail, when the rows
    before it load: the exception is the [JSONDecodeError] of the second
    decode, as the decoder raised it on the cell's text, and it is the
    result of [load_quizzes]. A row whose [Quiz Link ID] is blank is
    passed over whatever its cell holds. *)
Theorem load_quizzes_decode_error (pre post : list (gmap string string))
  (row : gmap string string) :
  (forall quizzes msg doc pos msg' doc' pos',
     load_quizzes pre = Ok quizzes ->
     strip (cell row "Quiz Link ID") <> "" ->
     strip (cell row "Questions JSON") <> "" ->
     json_loads (strip (cell row "Questions JSON"))
     = Raise (JSONDecodeError msg doc pos) ->
     json_loads (replace dquote2 dquote1 (strip (cell row "Questions JSON")))
     = Raise (JSONDecodeError msg' doc' pos') ->
     load_quizzes (pre ++ row :: post) = Raise (JSONDecodeError msg' doc' pos')) /\
  (strip (cell row "Quiz Link ID") = "" ->
   load_quizzes (pre ++ row :: post) = load_quizzes (pre ++ post)).
Proof.
  unfold load_quizzes. split.
  - intros quizzes msg doc pos msg' doc' pos' Hpre Hid Hcell Hstrict Hfallback.
    rewrite for_each_app, Hpre. cbn [mbind result_bind for_each].
    by rewrite (load_quiz_row_undecodable _ _ _ _ _ _ Hid Hcell Hstrict Hfallback).
  - intros Hid. rewrite !for_each_app.
    destruct (for_each pre load_quiz_row ∅) as [quizzes|e]; [|done].
    cbn [mbind result_bind for_each].
    by rewrite (load_quiz_row_without_id _ _ Hid).
Qed.

(** C6, as amended. When every non-blank [Perceptions JSON] cell decodes
    (as it is, or with doubled quotes collapsed), [load_results] returns
    one record per row whose [Result ID] is not blank, in the order of the
    rows, and drops the other rows; a record carries its row's stripped
    cells, the empty list as perceptions when the row's cell is blank or
    absent, and what the cell decodes to otherwise. *)
Theorem load_results_spec (rows : list (gmap string string)) :
  Forall (fun row => strip (cell row "Perceptions JSON") = "" \/
                     exists v, loads_with_fallback
                                 (strip (cell row "Perceptions JSON")) = Ok v) rows ->
  exists recs,
    load_results rows = Ok recs /\
    Forall2 (fun row rec =>
               result_id rec = strip (cell row "Result ID") /\
               session_id rec = strip (cell row "Session ID") /\
               quiz_link_id rec = strip (cell row "Quiz Link ID") /\
               created_at rec = strip (cell row "Created At") /\
               (strip (cell row "Perceptions JSON") = "" ->
                perceptions rec = VList []) /\
               (strip (cell row "Perceptions JSON") <> "" ->
                loads_with_fallback (strip (cell row "Perceptions JSON"))
                = Ok (perceptions rec)))
            (filter (fun row => strip (cell row "Result ID") <> "") rows)
            recs.
Proof.
  intros Hrows. unfold load_results.
  enough (Hgen : forall acc, exists recs,
    for_each rows load_result_row acc = Ok (acc ++ recs) /\
    Forall2 (fun row rec =>
               result_id rec = strip (cell row "Result ID") /\
               session_id rec = strip (cell row "Session ID") /\
               quiz_link_id rec = strip (cell row "Quiz Link ID") /\
               created_at rec = strip (cell row "Created At") /\
               (strip (cell row "Perceptions JSON") = "" ->
                perceptions rec = VList []) /\
               (strip (cell row "Perceptions JSON") <> "" ->
                loads_with_fallback (strip (cell row "Perceptions JSON"))
                = Ok (perceptions rec)))
            (filter (fun row => strip (cell row "Result ID") <> "") rows)
            recs).
  { destruct (Hgen []) as (recs & Hload & Hrecs). by exists recs. }
  induction Hrows as [|row rows Hrow Hrows IH]; intros acc.
  - exists []. split; [by rewrite app_nil_r | constructor].
  - rewrite for_each_cons, load_result_row_eq, filter_cons.
    assert (Hv : exists v, row_perceptions row = Ok v /\
      (strip (cell row "Perceptions JSON") = "" -> v = VList []) /\
      (strip (cell row "Perceptions JSON") <> "" ->
       loads_with_fallback (strip (cell row "Perceptions JSON")) = Ok v)).
    { unfold row_perceptions.
      destruct (String.eqb_spec (strip (cell row "Perceptions JSON")) "") as [He|Hne].
      - by exists (VList []).
      - destruct Hrow as [?|[v Hv]]; [done|]. exists v. by rewrite Hv. }
    destruct Hv as (v & -> & Hblank & Hdecoded). cbn [mbind result_bind].
    destruct (String.eqb_spec (strip (cell row "Result ID")) "") as [Hid|Hid].
    + rewrite decide_False by (by intros ?). apply IH.
    + rewrite decide_True by done.
      destruct (IH (acc ++ [record_of row v])) as (recs & Hload & Hrecs).
      exists (record_of row v :: recs). split.
      * by rewrite Hload, <- app_assoc.
      * constructor; [|done]. by repeat split.
Qed.

End WithRuntime.

(** The theorems, and the claims as first stated, at the rows of module
    [Example]. *)

Lemma load_quizzes_decode_error_witness :
  load_quizzes (rt := Ref.runtime)
    ([Example.good_quiz_row] ++ Example.bad_quiz_row :: [Example.good_quiz_row])
  = Raise (JSONDecodeError "Expecting property name enclosed in double quotes" "{bad" 1).
Proof.
  refine (proj1 (load_quizzes_decode_error (rt := Ref.runtime)
                   [Example.good_quiz_row] [Example.good_quiz_row] Example.bad_quiz_row)
                _ "Expecting property name enclosed in double quotes" "{bad" 1%nat
                "Expecting property name enclosed in double quotes" "{bad" 1%nat
                _ _ _ _ _).
  - vm_compute. reflexivity.
  - vm_compute. discriminate.
  - vm_compute. discriminate.
  - vm_compute. reflexivity.
  - vm_compute. reflexivity.
Defined.

(** C5, as first stated, fails: the cell of this row decodes in neither
    way, and [load_quizzes] returns, because the row has no quiz id. Where
    the exception is raised it is the same whichever row held the cell:
    its offset counts characters of the cell. *)
Lemma undecodable_cell_without_id_is_skipped :
  (exists msg doc pos,
     @json_loads Ref.runtime
       (strip (cell Example.bad_quiz_row_no_id "Questions JSON"))
     = Raise (JSONDecodeError msg doc pos)) /\
  (exists msg doc pos,
     @json_loads Ref.runtime
       (replace dquote2 dquote1
          (strip (cell Example.bad_quiz_row_no_id "Questions JSON")))
     = Raise (JSONDecodeError msg doc pos)) /\
  load_quizzes (rt := Ref.runtime) [Example.bad_quiz_row_no_id] = Ok ∅ /\
  load_quizzes (rt := Ref.runtime) [Example.bad_quiz_row]
  = load_quizzes (rt := Ref.runtime) [Example.good_quiz_row; Example.bad_quiz_row].
Proof.
  split; [|split; [|split]].
  - do 3 eexists. vm_compute. reflexivity.
  - do 3 eexists. vm_compute. reflexivity.
  - vm_compute. reflexivity.
  - vm_compute. reflexivity.
Qed.

Lemma load_results_spec_witness :
  exists recs,
    load_results (rt := Ref.runtime) Example.result_rows = Ok recs /\
    result_id <$> recs = ["r1"; "r3"] /\
    (perceptions <$> recs) !! 1%nat = Some (VList []).
Proof.
  destruct (load_results_spec (rt := Ref.runtime) Example.result_rows)
    as (recs & Hload & Hrecs).
  { constructor; [|constructor; [|constructor; [|constructor]]].
    - right. eexists. vm_compute. reflexivity.
    - right. eexists. vm_compute. reflexivity.
    - left. vm_compute. reflexivity. }
  exists recs. split; [exact Hload|].
  assert (Hrows : filter (fun row => strip (cell row "Result ID") <> "") Example.result_rows
                  = [Example.result_rows !!! 0%nat; Example.result_rows !!! 2%nat]).
  { vm_compute. reflexivity. }
  rewrite Hrows in Hrecs.
  apply Forall2_cons_inv_l in Hrecs as (r1 & recs1 & (Hid1 & _) & Hrecs & ->).
  apply Forall2_cons_inv_l in Hrecs as (r3 & recs3 & (Hid3 & _ & _ & _ & Hblank & _) & Hrecs & ->).
  apply Forall2_nil_inv_l in Hrecs as ->.
  split.
  - simpl. rewrite Hid1, Hid3. vm_compute. reflexivity.
  - simpl. rewrite Hblank; [reflexivity|]. vm_compute. reflexivity.
Defined.

(** C6, as first stated, fails: a row with a result id whose cell decodes
    in neither way gives no record; [load_results] raises and returns no
    list at all. *)
Lemma undecodable_perceptions_raise :
  strip (cell Example.bad_result_row "Result ID") = "r4" /\
  load_results (rt := Ref.runtime) [Example.bad_result_row]
  = Raise (JSONDecodeError "Expecting property name enclosed in double quotes" "{bad" 1) /\
  load_results (rt := Ref.runtime) (Example.result_rows ++ [Example.bad_result_row])
  = Raise (JSONDecodeError "Expecting property name enclosed in double quotes" "{bad" 1).
Proof. repeat split; vm_compute; reflexivity. Qed.

End LoaderClaims.

(** ** The .env loader *)

Module EnvFacts.
Import Py StrFacts.

Lemma str_contains_str_drop ch n s :
  str_contains ch s = false -> str_contains ch (str_drop n s) = false.
Proof.
  revert s. induction n as [|n IH]; intros s; [done|].
  destruct s as [|c s]; [done|]. simpl.
  intros [_ Hs]%orb_false_iff. by apply IH.
Qed.

Lemma environ_set_preserves key val (env env' : gmap string string) k v :
  env !! key = None -> environ_set key val env = Ok env' ->
  env !! k = Some v -> env' !! k = Some v.
Proof.
  unfold environ_set. intros Hfresh Hset Hk.
  destruct (str_contains "=" key); [done|].
  destruct (str_contains "000" key || str_contains "000" val); [done|].
  injection Hset as <-. rewrite lookup_insert_ne; [done|]. congruence.
Qed.

(** The two scripts carry the same loader. *)
Lemma load_env_file_same :
  Analyze.load_env_file = Trends.load_env_file /\
  Analyze.load_env_lines = Trends.load_env_lines /\
  Analyze.load_env_line = Trends.load_env_line.
Proof. repeat split. Qed.

Import Trends.

Lemma load_env_line_preserves raw (env env' : gmap string string) k v :
  load_env_line raw env = Ok env' -> env !! k = Some v -> env' !! k = Some v.
Proof.
  unfold load_env_line. intros Hline Hk.
  repeat match type of Hline with
         | (if ?b then _ else _) = _ => destruct b eqn:?
         | (let (_, _) := ?p in _) = _ => destruct p
         end; try (by injection Hline as <-).
  eapply environ_set_preserves; [|done..].
  match goal with
  | Hguard : (_ && bool_decide (env !! _ = None)) = true |- _ =>
      apply andb_prop in Hguard as [_ Hfresh]
  end.
  by apply bool_decide_eq_true in Hfresh.
Qed.

Lemma load_env_lines_preserves lines (env : gmap string string) k v :
  env !! k = Some v -> (load_env_lines lines env).1 !! k = Some v.
Proof.
  revert env. induction lines as [|raw lines IH]; intros env Hk; [done|].
  simpl. destruct (load_env_line raw env) as [env'|e] eqn:Hline; [|done].
  apply IH. by eapply load_env_line_preserves.
Qed.

Lemma load_env_file_preserves file (env : gmap string string) k v :
  env !! k = Some v -> load_env_file file env !! k = Some v.
Proof.
  intros Hk. destruct file as [[text|e]|]; [|done..].
  by apply load_env_lines_preserves.
Qed.

(** A line without an equals sign changes nothing and raises nothing. *)
Lemma load_env_line_no_equals raw (env : gmap string string) :
  str_contains "=" raw = false -> load_env_line raw env = Ok env.
Proof.
  intros Hraw. unfold load_env_line.
  destruct (String.eqb (strip raw) "" || startswith (strip raw) "#"); [done|].
  assert (Hline : str_contains "="
            (if startswith (lower (strip raw)) "export "
             then lstrip (str_drop 7 (strip raw)) else strip raw) = false).
  { destruct (startswith _ _).
    - by apply str_contains_lstrip, str_contains_str_drop, str_contains_strip.
    - by apply str_contains_strip. }
  by rewrite Hline.
Qed.

Lemma load_env_lines_skip before bad after (env : gmap string string) :
  str_contains "=" bad = false ->
  load_env_lines (before ++ bad :: after) env = load_env_lines (before ++ after) env.
Proof.
  intros Hbad. revert env. induction before as [|raw before IH]; intros env; simpl.
  - by rewrite load_env_line_no_equals.
  - destruct (load_env_line raw env); [apply IH | done].
Qed.

End EnvFacts.

Module EnvClaims.
Import Py EnvFacts.

(** C7. In both scripts [load_env_file] leaves every variable that is set
    before the call with the value it has, whatever the file holds; a line
    without an equals sign raises nothing and changes nothing, and the
    file gives the environment it would give without that line. *)
Theorem load_env_file_keeps_preset (file : option (result string))
  (env : gmap string string) :
  (forall k v, env !! k = Some v ->
     Trends.load_env_file file env !! k = Some v /\
     Analyze.load_env_file file env !! k = Some v) /\
  (forall bad, str_contains "=" bad = false ->
     Trends.load_env_line bad env = Ok env /\
     Analyze.load_env_line bad env = Ok env) /\
  (forall text text' before bad after,
     str_contains "=" bad = false ->
     splitlines text = before ++ bad :: after ->
     splitlines text' = before ++ after ->
     Trends.load_env_file (Some (Ok text)) env
     = Trends.load_env_file (Some (Ok text')) env /\
     Analyze.load_env_file (Some (Ok text)) env
     = Analyze.load_env_file (Some (Ok text')) env).
Proof.
  destruct load_env_file_same as (-> & Hlines & ->).
  split; [|split].
  - intros k v Hk. split; by apply load_env_file_preserves.
  - intros bad Hbad. split; by apply load_env_line_no_equals.
  - intros text text' before bad after Hbad Htext Htext'.
    assert (Trends.load_env_file (Some (Ok text)) env
            = Trends.load_env_file (Some (Ok text')) env) as Heq; [|by split].
    unfold Trends.load_env_file. rewrite Htext, Htext'.
    by rewrite load_env_lines_skip.
Qed.

Lemma load_env_file_keeps_preset_witness :
  Trends.load_env_file (Some (Ok Example.dotenv_text)) Example.preset_env
    !! "PPLX_API_KEY" = Some "from-shell" /\
  Analyze.load_env_file (Some (Ok Example.dotenv_text)) Example.preset_env
    !! "PPLX_API_KEY" = Some "from-shell".
Proof.
  apply (proj1 (load_env_file_keeps_preset
                  (Some (Ok Example.dotenv_text)) Example.preset_env)).
  vm_compute. reflexivity.
Defined.

End EnvClaims.

(** ** The trends tool *)

Module TrendsFacts.
Import Py Trends TrendsSpec.

Lemma extend_nil st : extend st [] = st.
Proof. destruct st. unfold extend. simpl. by rewrite app_nil_r. Qed.

Lemma extend_extend st evs1 evs2 :
  extend (extend st evs1) evs2 = extend st (evs1 ++ evs2).
Proof. unfold extend. simpl. by rewrite app_assoc. Qed.

Lemma quiet_app q1 q2 : quiet q1 -> quiet q2 -> quiet (q1 ++ q2).
Proof. apply Forall_app_2. Qed.

Lemma quiet_requests q : quiet q -> requests q = [].
Proof.
  induction 1 as [|ev q Hev _ IH]; [done|].
  unfold requests in *. simpl. by destruct ev.
Qed.

Lemma requests_app t1 t2 : requests (t1 ++ t2) = requests t1 ++ requests t2.
Proof. apply omap_app. Qed.

Lemma quiet_filter q : quiet q -> List.filter is_get q = [].
Proof. induction 1 as [|ev q Hev _ IH]; [done|]. simpl. by rewrite Hev. Qed.

Lemma fallback_hops_quiet q : quiet q -> fallback_hops q = O.
Proof.
  induction 1 as [|ev q Hev Hq IH]; [done|]. simpl.
  destruct ev; try done. destruct Hq as [|[] q' Hev' Hq']; done.
Qed.

(** After quiet events, a line and a request: the hop counts when the line
    is the announcement and the request is for the RSS feed. *)
Lemma fallback_hops_quiet_get q s u rest :
  quiet q ->
  fallback_hops (q ++ Print s :: HttpGet u :: rest)
  = ((if String.eqb s falling_back && String.eqb u rss_url then 1 else 0)
     + fallback_hops rest)%nat.
Proof.
  induction 1 as [|ev q Hev Hq IH].
  - simpl. by destruct rest as [|[] ?].
  - rewrite <- IH. cbn [app fallback_hops].
    destruct ev; try done.
    destruct Hq as [|[] q' Hev' Hq']; done.
Qed.

(** *** Quiet steps *)

Lemma bind_ok {A B : Type} (m : M A) (k : A -> M B) st a st' :
  m st = (Ok a, st') -> (m ≫= k) st = k a st'.
Proof. unfold mbind, M_bind. by intros ->. Qed.

Lemma bind_raise {A B : Type} (m : M A) (k : A -> M B) st e st' :
  m st = (Raise e, st') -> (m ≫= k) st = (Raise e, st').
Proof. unfold mbind, M_bind. by intros ->. Qed.

Lemma quiet_ret {A : Type} (a : A) : quiet_step (mret a).
Proof. intros st. exists []. split; [constructor | by rewrite extend_nil]. Qed.

Lemma quiet_lift {A : Type} (r : result A) : quiet_step (lift r).
Proof. intros st. exists []. split; [constructor | by rewrite extend_nil]. Qed.

Lemma quiet_bind {A B : Type} (m : M A) (k : A -> M B) :
  quiet_step m -> (forall a, quiet_step (k a)) -> quiet_step (m ≫= k).
Proof.
  intros Hm Hk st. destruct (Hm st) as (q1 & Hq1 & Hst).
  destruct (m st) as [[a|e] st'] eqn:Hrun; simpl in Hst; subst st'.
  - rewrite (bind_ok _ _ _ _ _ Hrun).
    destruct (Hk a (extend st q1)) as (q2 & Hq2 & ->).
    exists (q1 ++ q2). split; [by apply quiet_app | apply extend_extend].
  - rewrite (bind_raise _ _ _ _ _ Hrun). by exists q1.
Qed.

Lemma quiet_print s : quiet_step (print s).
Proof. intros st. exists [Print s]. split; [by repeat constructor | done]. Qed.

Lemma quiet_emit ev : is_get ev = false -> quiet_step (emit ev).
Proof. intros Hev st. exists [ev]. split; [by repeat constructor | done]. Qed.

Lemma quiet_file_op w ev : is_get ev = false -> quiet_step (file_op w ev).
Proof. intros Hev st. exists [ev]. split; [by repeat constructor | done]. Qed.

Lemma quiet_try_with {A : Type} (m : M A) (h : exn -> M A) :
  quiet_step m -> (forall e, quiet_step (h e)) -> quiet_step (try_with m h).
Proof.
  intros Hm Hh st. unfold try_with. destruct (Hm st) as (q1 & Hq1 & Hst).
  destruct (m st) as [[a|e] st'] eqn:Hrun; simpl in Hst; subst st'.
  - by exists q1.
  - destruct (Hh e (extend st q1)) as (q2 & Hq2 & ->).
    exists (q1 ++ q2). split; [by apply quiet_app | apply extend_extend].
Qed.

Lemma quiet_for_enumerate {A : Type} i (xs : list A) (body : nat -> A -> M unit) :
  (forall j x, quiet_step (body j x)) -> quiet_step (for_enumerate i xs body).
Proof.
  intros Hbody. revert i. induction xs as [|x xs IH]; intros i; simpl.
  - apply (quiet_ret tt).
  - apply quiet_bind; [apply Hbody | intros _; apply IH].
Qed.

Lemma quiet_when b (m : M unit) : quiet_step m -> quiet_step (when b m).
Proof. intros Hm. destruct b; [done | apply (quiet_ret tt)]. Qed.

Lemma quiet_unless b (m : M unit) : quiet_step m -> quiet_step (unless b m).
Proof. intros Hm. destruct b; [apply (quiet_ret tt) | done]. Qed.

Create HintDb quiet.
#[export] Hint Resolve quiet_ret quiet_lift quiet_print quiet_for_enumerate
  quiet_when quiet_unless quiet_try_with : quiet.
#[export] Hint Extern 2 (quiet_step (_ ≫= _)) =>
  apply quiet_bind; [|intros ?] : quiet.
#[export] Hint Extern 2 (quiet_step (if ?b then _ else _)) => destruct b : quiet.
#[export] Hint Extern 2 (quiet_step (match ?r with Ok _ => _ | Raise _ => _ end)) =>
  destruct r : quiet.
#[export] Hint Extern 3 (quiet_step (emit _)) => apply quiet_emit; reflexivity : quiet.
#[export] Hint Extern 3 (quiet_step (file_op _ _)) =>
  apply quiet_file_op; reflexivity : quiet.

Section WithRuntime.
Context {rt : Runtime}.

Lemma quiet_print_rss rss max : quiet_step (print_rss rss max).
Proof. unfold print_rss, print_rss_item. auto 10 with quiet. Qed.

Lemma quiet_print_realtime_item i item : quiet_step (print_realtime_item i item).
Proof. unfold print_realtime_item. auto 10 with quiet. Qed.

Lemma quiet_print_results items : quiet_step (print_results items).
Proof.
  induction items as [|item items IH]; simpl; [apply (quiet_ret tt)|].
  apply quiet_bind; [|by intros _]. unfold print_result. auto with quiet.
Qed.

Lemma quiet_results_block results : quiet_step (results_block results).
Proof. unfold results_block. pose proof quiet_print_results. auto 10 with quiet. Qed.

(** A quiet step, with its result. *)
Lemma quiet_step_run {A : Type} (m : M A) st :
  quiet_step m -> exists r q, quiet q /\ m st = (r, extend st q).
Proof.
  intros Hm. destruct (Hm st) as (q & Hq & Hst).
  exists (m st).1, q. split; [done|]. rewrite <- Hst. by destruct (m st).
Qed.

(** *** The blocks of [main] *)

Lemma fetch_gb_daily_rss_run w st :
  fetch_gb_daily_rss w st
  = (Ok (rss_result w (http w (requests_made st) rss_url)), extend st [HttpGet rss_url]).
Proof. done. Qed.

Lemma fetch_gb_realtime_run w max st :
  fetch_gb_realtime w max st
  = (Ok (realtime_result (http w (requests_made st) realtime_url) max),
     extend st [HttpGet realtime_url]).
Proof. done. Qed.

Lemma print_run s st : print s st = (Ok tt, extend st [Print s]).
Proof. done. Qed.

(** The search never raises into [main], and makes no request of a feed. *)
Lemma search_run w args st :
  exists resp q, quiet q /\
    try_with (call_perplexity_search w (query args) (max_results args))
      (fun e => _ ← print ("Error calling Perplexity Search API: " +:+ exn_str e);
                mret (VDict [])) st
    = (Ok resp, extend st q).
Proof.
  unfold try_with, call_perplexity_search.
  destruct (negb (truthy _)).
  - eexists _, [Print _]. split; [by repeat constructor | done].
  - destruct (sdk_search w _ _ _) as [resp|e].
    + eexists resp, [Search _ _ _]. split; [by repeat constructor | done].
    + eexists _, [Search _ _ _; Print _]. split; [by repeat constructor|].
      unfold mbind, M_bind, print, emit, mret, M_ret, extend. simpl.
      by rewrite <- app_assoc.
Qed.

Lemma rss_block_run w max st :
  exists r q, quiet q /\
    rss_block w max st = (r, extend st (Print rss_header :: HttpGet rss_url :: q)).
Proof.
  unfold rss_block.
  erewrite bind_ok by apply print_run.
  erewrite bind_ok by apply fetch_gb_daily_rss_run.
  match goal with |- context [print_rss ?rss max ?st'] =>
    destruct (quiet_step_run (print_rss rss max) st' (quiet_print_rss _ _))
      as (r & q & Hq & ->) end.
  exists r, q. split; [done|]. by rewrite !extend_extend.
Qed.

Lemma requests_made_quiet st q :
  quiet q -> requests_made (extend st q) = requests_made st.
Proof.
  intros Hq. unfold requests_made, extend. simpl.
  by rewrite List.filter_app, (quiet_filter q Hq), app_nil_r.
Qed.

(** The realtime block: its request, then either the fallback (the error,
    the announcement, the request of the RSS feed, and lines) or lines. *)
Lemma realtime_block_run w max st :
  let rt_dict := realtime_result (http w (requests_made st) realtime_url) max in
  exists r q, quiet q /\
    realtime_block w max st
    = (r, extend st
            (Print realtime_header :: HttpGet realtime_url ::
             (if truthy (dict_get "error" rt_dict)
              then Print (py_str (dict_get "error" rt_dict))
                   :: Print falling_back :: HttpGet rss_url :: q
              else q))).
Proof.
  intros rt_dict. unfold realtime_block.
  erewrite bind_ok by apply print_run.
  erewrite bind_ok by apply fetch_gb_realtime_run.
  rewrite (requests_made_quiet st [Print _]) by (by repeat constructor).
  fold rt_dict. destruct (truthy (dict_get "error" rt_dict)).
  - erewrite bind_ok by apply print_run.
    erewrite bind_ok by apply print_run.
    erewrite bind_ok by apply fetch_gb_daily_rss_run.
    match goal with |- context [print_rss ?rss max ?st'] =>
      destruct (quiet_step_run (print_rss rss max) st' (quiet_print_rss _ _))
        as (r & q & Hq & ->) end.
    exists r, q. split; [done|]. by rewrite !extend_extend.
  - match goal with |- context [mbind ?k ?m ?st'] =>
      destruct (quiet_step_run (mbind k m) st') as (r & q & Hq & Hrun) end.
    { apply quiet_bind; [apply quiet_lift|]. intros items.
      apply quiet_for_enumerate. intros. apply quiet_print_realtime_item. }
    exists r, q. split; [done|]. rewrite Hrun. by rewrite !extend_extend.
Qed.

(** *** The whole run *)

Lemma main_unfold w args st :
  main w args st
  = (resp ← try_with (call_perplexity_search w (query args) (max_results args))
             (fun e => _ ← print ("Error calling Perplexity Search API: " +:+ exn_str e);
                       mret (VDict []));
     _ ← when (realtime_in_effect args) (realtime_block w (max_results args));
     after_realtime w args resp)
      {| environ := load_env_file (dotenv w) (environ st); trace := trace st |}.
Proof.
  unfold main, realtime_in_effect, after_realtime, after_rss.
  by destruct (include_rss args), (realtime args), (search_only args).
Qed.

Lemma quiet_out_block w path resp : quiet_step (out_block w path resp).
Proof. unfold out_block, dump_response. auto 10 with quiet. Qed.

Lemma quiet_json_block w resp : quiet_step (json_block w resp).
Proof. unfold json_block, dump_response. auto 10 with quiet. Qed.

Lemma quiet_after_rss w args resp : quiet_step (after_rss w args resp).
Proof.
  unfold after_rss. pose proof quiet_results_block.
  pose proof quiet_out_block. pose proof quiet_json_block.
  apply quiet_bind; [auto with quiet|]. intros _.
  apply quiet_bind; [destruct (out args); auto 10 with quiet|]. intros _.
  auto 10 with quiet.
Qed.

Lemma after_realtime_run w args resp st :
  exists r evs, rss_part args evs /\ after_realtime w args resp st = (r, extend st evs).
Proof.
  unfold after_realtime. destruct (include_rss args) eqn:Hrss; simpl.
  - destruct (rss_block_run w (max_results args) st) as ([[]|e] & qS & HqS & Hrun).
    + erewrite bind_ok by exact Hrun.
      destruct (quiet_step_run (after_rss w args resp) (extend st (Print rss_header :: HttpGet rss_url :: qS))
                  (quiet_after_rss _ _ _)) as (r & q & Hq & ->).
      exists r, ((Print rss_header :: HttpGet rss_url :: qS) ++ q).
      split; [|by rewrite extend_extend].
      exists (Print rss_header :: HttpGet rss_url :: qS), q. eauto 10.
    + erewrite bind_raise by exact Hrun.
      exists (Raise e), (Print rss_header :: HttpGet rss_url :: qS).
      split; [|done].
      exists (Print rss_header :: HttpGet rss_url :: qS), [].
      rewrite app_nil_r. split; [constructor|]. split; [done|]. eauto 10.
  - erewrite bind_ok by reflexivity.
    destruct (quiet_step_run (after_rss w args resp) st (quiet_after_rss _ _ _))
      as (r & q & Hq & ->).
    exists r, q. split; [|done]. exists [], q. auto.
Qed.

(** The trace of a run: quiet events, the realtime block when the
    realtime source is in effect, then the rest. The realtime request is
    the first request of the run. *)
Lemma run_trace w args env :
  let rt_dict := realtime_result (http w 0 realtime_url) (max_results args) in
  exists q0 qR rest,
    quiet q0 /\ quiet qR /\ (rest = [] \/ rss_part args rest) /\
    trace (run w args env).2
    = q0 ++
      (if realtime_in_effect args then
         Print realtime_header :: HttpGet realtime_url ::
         (if truthy (dict_get "error" rt_dict)
          then Print (py_str (dict_get "error" rt_dict))
               :: Print falling_back :: HttpGet rss_url :: qR
          else qR)
       else []) ++ rest.
Proof.
  intros rt_dict. unfold run. rewrite main_unfold. cbn [environ trace].
  set (st1 := {| environ := load_env_file (dotenv w) env; trace := [] |}).
  destruct (search_run w args st1) as (resp & q0 & Hq0 & Hsearch).
  erewrite bind_ok by exact Hsearch.
  assert (Hmade : requests_made (extend st1 q0) = O)
    by (by rewrite requests_made_quiet).
  destruct (realtime_in_effect args); simpl.
  - destruct (realtime_block_run w (max_results args) (extend st1 q0))
      as (r & qR & HqR & Hrun).
    rewrite Hmade in Hrun. fold rt_dict in Hrun.
    destruct r as [[]|e].
    + erewrite bind_ok by exact Hrun.
      match goal with |- context [after_realtime w args resp ?st'] =>
        destruct (after_realtime_run w args resp st') as (r & evs & Hevs & ->) end.
      exists q0, qR, evs. split; [done|]. split; [done|]. split; [by right|].
      rewrite !extend_extend. simpl.
      destruct (truthy (dict_get "error" rt_dict)); simpl;
        by rewrite <- ?app_assoc.
    + erewrite bind_raise by exact Hrun.
      exists q0, qR, []. split; [done|]. split; [done|]. split; [by left|].
      rewrite !extend_extend. simpl. by rewrite app_nil_r.
  - erewrite bind_ok by reflexivity.
    destruct (after_realtime_run w args resp (extend st1 q0)) as (r & evs & Hevs & ->).
    exists q0, [], evs. split; [done|]. split; [constructor|]. split; [by right|].
    by rewrite extend_extend.
Qed.

End WithRuntime.

End TrendsFacts.

Module TrendsClaims.
Import Py Trends TrendsSpec TrendsFacts.

Section WithRuntime.
Context {rt : Runtime}.

(** The realtime fetch returns an error result exactly when its request
    fails or its body is no JSON text. *)
Lemma realtime_error_result outcome max :
  truthy (dict_get "error" (realtime_result outcome max)) = true <->
  match outcome with
  | HttpURLError _ | HttpOtherError _ => True
  | HttpBody raw =>
      exists e,
        json_loads (if startswith raw anti_csrf_prefix
                    then lstrip (str_drop (String.length anti_csrf_prefix) raw)
                    else raw) = Raise e
  end.
Proof.
  destruct outcome as [e|e|raw]; simpl; [done..|].
  destruct (json_loads _) as [data|e]; simpl.
  - split; [done | by intros [e ?]].
  - split; [by exists e | done].
Qed.

(** Nothing after the realtime block is a fallback hop or a realtime
    request. *)
Lemma no_hop_in_rest args qR rest :
  quiet qR -> rest = [] \/ rss_part args rest ->
  fallback_hops (qR ++ rest) = O /\ realtime_url ∉ requests (qR ++ rest).
Proof.
  intros HqR [->|(S & q & Hq & -> & HS)].
  - rewrite app_nil_r. split; [by apply fallback_hops_quiet|].
    rewrite quiet_requests by done. apply not_elem_of_nil.
  - destruct HS as [->|(_ & qS & HqS & ->)].
    + simpl. split; [by apply fallback_hops_quiet, quiet_app|].
      rewrite quiet_requests by (by apply quiet_app). apply not_elem_of_nil.
    + split.
      * rewrite <- app_comm_cons. cbn [app].
        rewrite fallback_hops_quiet_get by done.
        rewrite fallback_hops_quiet by (by apply quiet_app). done.
      * change ((Print rss_header :: HttpGet rss_url :: qS) ++ q)
          with ([Print rss_header; HttpGet rss_url] ++ (qS ++ q)).
        rewrite !requests_app.
        rewrite (quiet_requests qR), (quiet_requests qS), (quiet_requests q) by done.
        cbn. rewrite list_elem_of_singleton. discriminate.
Qed.

(** What is requested after the realtime block: nothing, or the RSS feed
    once, by the block of [--include-rss], right after its header. *)
Lemma requests_of_rest args rest :
  rest = [] \/ rss_part args rest ->
  requests rest = [] \/
  include_rss args = true /\ requests rest = [rss_url] /\
  exists post,
    rest = Print rss_header :: HttpGet rss_url :: post /\ requests post = [].
Proof.
  intros [->|(S & q & Hq & -> & [->|(Hrss & qS & HqS & ->)])].
  - by left.
  - left. by apply quiet_requests.
  - right. split; [done|].
    assert (Hpost : requests (qS ++ q) = [])
      by (by rewrite requests_app, (quiet_requests qS), (quiet_requests q)).
    split.
    + change ((Print rss_header :: HttpGet rss_url :: qS) ++ q)
        with ([Print rss_header; HttpGet rss_url] ++ (qS ++ q)).
      by rewrite requests_app, Hpost.
    + by exists (qS ++ q).
Qed.

(** C9. A run makes a fallback hop exactly when the realtime source is in
    effect (asked for, or taken because no source flag is given) and its
    fetch returns an error result, and then it makes one. The requests of
    a run are, in this order: the realtime one when that source is in
    effect, the RSS one of the fallback when that fetch failed, and the
    RSS one of [--include-rss], which comes right after the header of its
    block and is the last request; there is no other. When the realtime
    source is in effect its request is the first of the run and is made
    once; if the fetch returns an error result, the error is printed, the
    fallback is announced and the RSS feed is requested at once; if the
    fetch succeeds, the run has no fallback hop. *)
Theorem realtime_failure_falls_back_once (w : World) (args : Args)
  (env : gmap string string) :
  let rt_dict := realtime_result (http w 0 realtime_url) (max_results args) in
  let failed := truthy (dict_get "error" rt_dict) in
  let t := trace (run w args env).2 in
  ((fallback_hops t <= 1)%nat /\
   (realtime_in_effect args = true ->
   exists before after,
     t = before ++ HttpGet realtime_url :: after /\
     requests before = [] /\
     (realtime_url ∉ requests after) /\
     (truthy (dict_get "error" rt_dict) = true ->
      fallback_hops t = 1%nat /\
      exists after',
        after = Print (py_str (dict_get "error" rt_dict))
                :: Print falling_back :: HttpGet rss_url :: after') /\
     (truthy (dict_get "error" rt_dict) = false -> fallback_hops t = O))) /\
  fallback_hops t = (if realtime_in_effect args && failed then 1 else 0)%nat /\
  (exists tail,
     requests t
     = (if realtime_in_effect args
        then realtime_url :: (if failed then [rss_url] else [])
        else []) ++ tail /\
     (tail = [] \/
      include_rss args = true /\ tail = [rss_url] /\
      exists pre post,
        t = pre ++ Print rss_header :: HttpGet rss_url :: post /\
        requests post = [])).
Proof.
  intros rt_dict failed t.
  destruct (run_trace w args env) as (q0 & qR & rest & Hq0 & HqR & Hrest & Ht).
  fold rt_dict t in Ht. fold failed in Ht.
  destruct (no_hop_in_rest args qR rest HqR Hrest) as [Hhops Hreq].
  assert (Hcount : fallback_hops t
                   = (if realtime_in_effect args && failed then 1 else 0)%nat).
  { rewrite Ht. destruct (realtime_in_effect args); cbn [app andb].
    - rewrite fallback_hops_quiet_get by done. destruct failed; cbn [app].
      + change (Print ?e :: Print falling_back :: HttpGet rss_url :: qR ++ rest)
          with ([Print e] ++ Print falling_back :: HttpGet rss_url :: (qR ++ rest)).
        rewrite fallback_hops_quiet_get by (by repeat constructor).
        by rewrite Hhops.
      + by rewrite Hhops.
    - by destruct (no_hop_in_rest args q0 rest Hq0 Hrest) as [-> _]. }
  split; [split|split].
  - rewrite Hcount. destruct (_ && _); lia.
  - intros Heff. rewrite Heff in Ht, Hcount. cbn [andb] in Hcount.
    exists (q0 ++ [Print realtime_header]),
           ((if failed
             then Print (py_str (dict_get "error" rt_dict))
                  :: Print falling_back :: HttpGet rss_url :: qR
             else qR) ++ rest).
    split; [rewrite Ht, <- app_assoc; by destruct failed|].
    split; [apply quiet_requests, quiet_app; [done | by repeat constructor]|].
    split.
    { destruct failed; [|done].
      cbn [app requests omap list_omap]. fold (requests (qR ++ rest)).
      rewrite not_elem_of_cons. split; [discriminate | done]. }
    fold failed. split.
    + intros Hfailed. rewrite Hfailed in Hcount |- *. split; [done|]. by eexists.
    + intros Hfailed. by rewrite Hfailed in Hcount.
  - exact Hcount.
  - assert (Hhead : exists head,
      t = head ++ rest /\
      requests head
      = if realtime_in_effect args
        then realtime_url :: (if failed then [rss_url] else [])
        else []).
    { eexists. split; [rewrite Ht, app_assoc; reflexivity|].
      rewrite requests_app, (quiet_requests q0 Hq0). cbn [app].
      destruct (realtime_in_effect args); [|done].
      cbn [requests omap list_omap]. f_equal.
      destruct failed; cbn [omap list_omap]; fold (requests qR);
        by rewrite (quiet_requests qR HqR). }
    destruct Hhead as (head & Hhead & Hrequests).
    exists (requests rest). split; [by rewrite Hhead, requests_app, Hrequests|].
    destruct (requests_of_rest args rest Hrest)
      as [->|(Hrss & -> & post & -> & Hpost)]; [by left|].
    right. split; [done|]. split; [done|]. by exists head, post.
Qed.

End WithRuntime.

Lemma realtime_failure_falls_back_once_witness :
  realtime_in_effect Example.default_args = true /\
  truthy (dict_get "error"
            (realtime_result (rt := Ref.runtime)
               (http Example.realtime_down 0 realtime_url)
               (max_results Example.default_args))) = true /\
  fallback_hops (trace (run (rt := Ref.runtime)
                          Example.realtime_down Example.default_args ∅).2) = 1%nat.
Proof.
  split; [reflexivity|]. split; [reflexivity|].
  destruct (proj2 (proj1 (realtime_failure_falls_back_once (rt := Ref.runtime)
                     Example.realtime_down Example.default_args ∅)) eq_refl)
    as (before & after & _ & _ & _ & Herr & _).
  exact (proj1 (Herr eq_refl)).
Defined.

End TrendsClaims.
(** ** The text of JSON values

    [json.loads] reads what [json.dumps] writes, for the reference codec. *)

Module JsonFacts.
Import Py Ref JsonSpec StrFacts.

Lemma bytes_app a b : bytes (a +:+ b) = bytes a ++ bytes b.
Proof.
  induction a as [|c a IH]; [done|].
  change (c :: bytes (a +:+ b) = c :: (bytes a ++ bytes b)). by rewrite IH.
Qed.

Lemma bytes_length s : length (bytes s) = String.length s.
Proof. induction s as [|c s IH]; [done|]. simpl. by rewrite IH. Qed.

(** *** Strings *)

(** One step of the scanner reads what one character is written as. *)
Lemma scan_char c fuel begin acc tail idx :
  tail <> [] ->
  exists idx',
    scanstring (S fuel) begin acc (bytes (json_escape_char c) ++ tail) idx
    = scanstring fuel begin (c :: acc) tail idx'.
Proof.
  intros Htail. destruct tail as [|t tail]; [done|].
  destruct c as [[] [] [] [] [] [] [] []]; eexists; reflexivity.
Qed.

Lemma json_escape_char_length c : (1 <= length (bytes (json_escape_char c)))%nat.
Proof. destruct c as [[] [] [] [] [] [] [] []]; vm_compute; lia. Qed.

(** The scanner reads a string back from its escaped text. *)
Lemma scanstring_escape s fuel begin acc rest idx :
  (length (bytes (json_escape s)) < fuel)%nat ->
  exists idx',
    scanstring fuel begin acc (bytes (json_escape s) ++ "034"%char :: rest) idx
    = Scanned (string_of_list_ascii (rev acc ++ bytes s)) rest idx'.
Proof.
  revert fuel acc idx. induction s as [|c s IH]; intros fuel acc idx Hfuel.
  - destruct fuel as [|fuel]; [simpl in Hfuel; lia|].
    eexists. cbn. by rewrite app_nil_r.
  - cbn [json_escape] in Hfuel |- *. rewrite bytes_app in Hfuel |- *.
    rewrite length_app in Hfuel. pose proof (json_escape_char_length c).
    destruct fuel as [|fuel]; [lia|]. rewrite <- app_assoc.
    destruct (scan_char c fuel begin acc
                (bytes (json_escape s) ++ "034"%char :: rest) idx) as [idx1 ->].
    { by destruct (bytes (json_escape s)). }
    destruct (IH fuel (c :: acc) idx1) as [idx' ->]; [lia|].
    exists idx'. cbn [rev]. by rewrite <- app_assoc.
Qed.

Lemma string_of_bytes s : string_of_list_ascii (bytes s) = s.
Proof. apply string_of_list_ascii_of_string. Qed.

(** *** Numbers *)

Lemma span_digits_app ds rest :
  digits ds ->
  match rest with
  | c :: _ => is_digit c = false
  | [] => True
  end ->
  span_digits (ds ++ rest) = (ds, rest).
Proof.
  intros Hds Hrest. induction Hds as [|c ds Hc _ IH]; cbn [app span_digits].
  - destruct rest as [|c rest]; [done|]. cbn [span_digits]. by rewrite Hrest.
  - by rewrite Hc, IH.
Qed.

Lemma number_end_no_digit rest :
  number_end rest ->
  match rest with
  | c :: _ => is_digit c = false
  | [] => True
  end.
Proof. destruct rest; [done|]. by intros [? _]. Qed.

Lemma delimited_number_end rest : delimited rest -> number_end rest.
Proof. destruct rest as [|c rest]; [done|]. by intros [-> | [-> | ->]]. Qed.

Lemma digit_not_sign c :
  is_digit c = true ->
  Ascii.eqb c "-" = false /\ Ascii.eqb c "." = false /\
  Ascii.eqb c "e" = false /\ Ascii.eqb c "E" = false /\ Ascii.eqb c "+" = false.
Proof. by destruct c as [[] [] [] [] [] [] [] []]. Qed.

(** The scanner reads a number from its text. *)
Lemma scan_number_text neg int_ds frac exp rest idx :
  number_ok int_ds frac exp -> number_end rest ->
  exists idx',
    scan_number (number_text neg int_ds frac exp ++ rest) idx
    = Scanned (number_value neg int_ds frac exp) rest idx'.
Proof.
  intros (Hint & Hzero & Hfrac & Hexp) Hrest.
  pose proof (number_end_no_digit rest Hrest) as Hnodigit.
  set (exp_text := match exp with
                   | Some (eneg, ds) => "e"%char :: (if eneg then "-"%char else "+"%char) :: ds
                   | None => []
                   end).
  set (frac_text := match frac with Some ds => "."%char :: ds | None => [] end).
  (* the exponent *)
  assert (Hscan_exp :
    match exp_text ++ rest with
    | c :: r =>
        if Ascii.eqb c "e" || Ascii.eqb c "E" then
          let (eneg, r1) := take_sign r in
          let (ds, r2) := span_digits r1 in
          if is_nil ds then (false, 0, exp_text ++ rest)
          else (true, if eneg then - Z_of_digits ds else Z_of_digits ds, r2)
        else (false, 0, exp_text ++ rest)
    | [] => (false, 0, exp_text ++ rest)
    end
    = (match exp with Some _ => true | None => false end,
       match exp with
       | Some (eneg, ds) => if eneg then - Z_of_digits ds else Z_of_digits ds
       | None => 0
       end, rest)).
  { subst exp_text. destruct exp as [[eneg ds]|].
    - destruct Hexp as [Hds Hne]. cbn [app]. cbn [Ascii.eqb Bool.eqb orb].
      assert (take_sign ((if eneg then "-"%char else "+"%char) :: ds ++ rest)
              = (eneg, ds ++ rest)) as -> by (by destruct eneg).
      rewrite span_digits_app by done. by destruct ds.
    - cbn [app]. destruct rest as [|c rest]; [done|].
      destruct Hrest as (_ & _ & He & HE).
      apply Ascii.eqb_neq in He, HE. by rewrite He, HE. }
  (* the fraction *)
  assert (Hexp_head : match exp_text ++ rest with
                      | c :: _ => is_digit c = false /\ c <> "."%char
                      | [] => True
                      end).
  { subst exp_text. destruct exp as [[eneg ds]|]; [done|].
    destruct rest; [done|]. cbn [app]. by destruct Hrest as (? & ? & _). }
  assert (Hscan_frac :
    match frac_text ++ exp_text ++ rest with
    | c :: r =>
        if Ascii.eqb c "." then
          let (ds, r') := span_digits r in
          if is_nil ds then ([], frac_text ++ exp_text ++ rest) else (ds, r')
        else ([], frac_text ++ exp_text ++ rest)
    | [] => ([], frac_text ++ exp_text ++ rest)
    end
    = (default [] frac, exp_text ++ rest)).
  { subst frac_text. destruct frac as [ds|].
    - destruct Hfrac as [Hds Hne]. cbn [app]. cbn [Ascii.eqb Bool.eqb].
      rewrite span_digits_app; [by destruct ds | done |].
      destruct (exp_text ++ rest); [done|]. by destruct Hexp_head.
    - cbn [app default]. destruct (exp_text ++ rest) as [|c r]; [done|].
      destruct Hexp_head as [_ Hdot]. apply Ascii.eqb_neq in Hdot. by rewrite Hdot. }
  (* the digits before the point *)
  assert (Hfrac_head : match frac_text ++ exp_text ++ rest with
                       | c :: _ => is_digit c = false
                       | [] => True
                       end).
  { subst frac_text. destruct frac; [done|]. cbn [app].
    destruct (exp_text ++ rest); [done|]. by destruct Hexp_head. }
  assert (Hscan_int :
    match int_ds ++ frac_text ++ exp_text ++ rest with
    | c :: r =>
        if Ascii.eqb c "0" then ([c], r)
        else if is_digit c then span_digits (int_ds ++ frac_text ++ exp_text ++ rest)
        else ([], int_ds ++ frac_text ++ exp_text ++ rest)
    | [] => ([], int_ds ++ frac_text ++ exp_text ++ rest)
    end
    = (int_ds, frac_text ++ exp_text ++ rest)).
  { destruct Hzero as [->|Hlead]; [done|].
    destruct int_ds as [|c ds]; [done|]. cbn [app].
    cbn [no_leading_zero] in Hlead. apply Ascii.eqb_neq in Hlead. rewrite Hlead.
    pose proof (Forall_inv Hint) as Hc. cbn beta in Hc. rewrite Hc.
    change (c :: ds ++ frac_text ++ exp_text ++ rest)
      with ((c :: ds) ++ frac_text ++ exp_text ++ rest).
    by rewrite span_digits_app. }
  assert (Hnonempty : is_nil int_ds = false).
  { destruct Hzero as [->|Hlead]; [done|]. by destruct int_ds. }
  assert (Hsign :
    match number_text neg int_ds frac exp ++ rest with
    | c :: r => if Ascii.eqb c "-" then (true, r)
                else (false, number_text neg int_ds frac exp ++ rest)
    | [] => (false, number_text neg int_ds frac exp ++ rest)
    end
    = (neg, int_ds ++ frac_text ++ exp_text ++ rest)).
  { unfold number_text. fold frac_text exp_text. rewrite <- !app_assoc.
    destruct neg; [done|]. cbn [app].
    destruct int_ds as [|c ds]; [done|]. cbn [app].
    pose proof (Forall_inv Hint) as Hc. cbn beta in Hc.
    by destruct (digit_not_sign c Hc) as (-> & _). }
  unfold scan_number. rewrite Hsign, Hscan_int, Hnonempty, Hscan_frac, Hscan_exp.
  eexists. unfold number_value.
  destruct frac as [ds|], exp as [[eneg es]|]; cbn [default is_nil negb andb];
    try reflexivity.
  all: destruct Hfrac as [_ Hne]; destruct ds; [done | reflexivity].
Qed.

(** The decimal text of integers. *)
Lemma pretty_N_char_digit x : is_digit (pretty_N_char x) = true.
Proof. unfold pretty_N_char. by repeat case_match. Qed.

Lemma pretty_N_go_digits x s :
  (0 < x)%N ->
  exists ds, bytes (pretty_N_go x s) = ds ++ bytes s /\ digits ds /\ no_leading_zero ds.
Proof.
  revert s. induction (N.lt_wf_0 x) as [x _ IH]. intros s Hx.
  rewrite pretty_N_go_step by done.
  destruct (decide (x `div` 10 = 0)%N) as [Hsmall|Hlarge].
  - rewrite Hsmall, pretty_N_go_0.
    exists [pretty_N_char (x `mod` 10)]. split; [done|]. split.
    + constructor; [apply pretty_N_char_digit | constructor].
    + assert (x < 10)%N by (by apply N.div_small_iff in Hsmall).
      rewrite N.mod_small by done. cbn [no_leading_zero].
      assert (x = 1 \/ x = 2 \/ x = 3 \/ x = 4 \/ x = 5 \/ x = 6
              \/ x = 7 \/ x = 8 \/ x = 9)%N as Hcases by lia.
      naive_solver.
  - destruct (IH (x `div` 10)%N) with (s := String (pretty_N_char (x `mod` 10)) s)
      as (ds & Hbytes & Hds & Hlead).
    { by apply N.div_lt. }
    { by apply N.neq_0_lt_0. }
    exists (ds ++ [pretty_N_char (x `mod` 10)]). rewrite Hbytes, <- app_assoc.
    split; [done|]. split.
    + apply Forall_app_2; [done|]. constructor; [apply pretty_N_char_digit | constructor].
    + by destruct ds.
Qed.

Lemma pretty_positive_digits p :
  digits (bytes (pretty (Z.pos p))) /\ no_leading_zero (bytes (pretty (Z.pos p))).
Proof.
  unfold pretty, pretty_Z, pretty, pretty_positive, pretty, pretty_N.
  rewrite decide_False by done.
  destruct (pretty_N_go_digits (N.pos p) "") as (ds & -> & Hds & Hlead); [done|].
  by rewrite app_nil_r.
Qed.

Lemma pretty_nonneg_digits (z : Z) :
  0 <= z -> digits (bytes (pretty z)) /\ bytes (pretty z) <> [].
Proof.
  intros Hz. destruct z as [|p|p]; [|..|lia].
  - split; [by repeat constructor | done].
  - destruct (pretty_positive_digits p) as [Hds Hlead]. split; [done|].
    by destruct (bytes (pretty (Z.pos p))).
Qed.

Lemma number_text_plain neg ds :
  number_text neg ds None None = (if neg then ["-"%char] else []) ++ ds.
Proof. unfold number_text. by rewrite !app_nil_r. Qed.

Lemma pretty_Z_text (z : Z) :
  exists neg ds,
    bytes (pretty z) = number_text neg ds None None /\ number_ok ds None None.
Proof.
  destruct z as [|p|p].
  - exists false, ["0"%char]. split; [done|]. by repeat split; [repeat constructor | left].
  - destruct (pretty_positive_digits p) as [Hds Hlead].
    exists false, (bytes (pretty (Z.pos p))). rewrite number_text_plain.
    split; [done|]. by repeat split; [|right].
  - destruct (pretty_positive_digits p) as [Hds Hlead].
    exists true, (bytes (pretty (Z.pos p))). rewrite number_text_plain.
    split; [done|]. by repeat split; [|right].
Qed.

(** *** The decimal text of floats *)

Lemma bytes_of_list l : bytes (string_of_list_ascii l) = l.
Proof. apply list_ascii_of_string_of_list_ascii. Qed.

Lemma bytes_substring_0 k s : bytes (String.substring 0 k s) = take k (bytes s).
Proof.
  revert s. induction k as [|k IH]; intros [|c s]; try done.
  cbn [String.substring]. change (c :: bytes (String.substring 0 k s) = c :: take k (bytes s)).
  by rewrite IH.
Qed.

Lemma bytes_substring_from n s :
  bytes (String.substring n (String.length s - n) s) = drop n (bytes s).
Proof.
  revert s. induction n as [|n IH]; intros s.
  - rewrite Nat.sub_0_r, bytes_substring_0, <- bytes_length. by rewrite firstn_all.
  - destruct s as [|c s]; [done|]. cbn [String.substring String.length Nat.sub].
    apply IH.
Qed.

Lemma bytes_str_take k s : bytes (str_take k s) = take (Z.to_nat k) (bytes s).
Proof. apply bytes_substring_0. Qed.

Lemma bytes_str_from k s : bytes (str_from k s) = drop (Z.to_nat k) (bytes s).
Proof. apply bytes_substring_from. Qed.

Lemma bytes_zeros n : bytes (zeros n) = repeat "0"%char (Z.to_nat n).
Proof. apply bytes_of_list. Qed.

Lemma digits_repeat_zero k : digits (repeat "0"%char k).
Proof. induction k; by constructor. Qed.

Lemma digits_take k ds : digits ds -> digits (take k ds).
Proof. apply Forall_take. Qed.

Lemma digits_drop k ds : digits ds -> digits (drop k ds).
Proof. apply Forall_drop. Qed.

Lemma no_leading_zero_take k ds :
  (0 < k)%nat -> no_leading_zero ds -> no_leading_zero (take k ds).
Proof. intros Hk Hds. destruct k; [lia|]. by destruct ds. Qed.

Lemma no_leading_zero_app ds more : no_leading_zero ds -> no_leading_zero (ds ++ more).
Proof. by destruct ds. Qed.

(** The digits of a float, set out with a point or an exponent. *)
Lemma format_repr_text ds decpt :
  digits (bytes ds) -> no_leading_zero (bytes ds) ->
  exists int_ds frac exp,
    bytes (format_repr ds decpt) = number_text false int_ds frac exp /\
    number_ok int_ds frac exp.
Proof.
  intros Hds Hlead. unfold format_repr.
  assert (Hlen : Z.of_nat (String.length ds) = Z.of_nat (length (bytes ds)))
    by (by rewrite bytes_length).
  assert (Hne : (0 < length (bytes ds))%nat) by (destruct (bytes ds); [done | simpl; lia]).
  rewrite Hlen. set (n := Z.of_nat (length (bytes ds))).
  destruct ((-4 <? decpt) && (decpt <=? 16)).
  - destruct (Z.leb_spec decpt 0) as [Hneg|Hpos].
    + exists ["0"%char], (Some (repeat "0"%char (Z.to_nat (- decpt)) ++ bytes ds)), None.
      split.
      * rewrite !bytes_app, bytes_zeros. unfold number_text. cbn [app].
        by rewrite ?app_nil_r, <- ?app_assoc.
      * split; [by repeat constructor|]. split; [by left|]. split; [|done]. split.
        -- apply Forall_app_2; [apply digits_repeat_zero | done].
        -- intros [_ Hnil]%app_eq_nil. rewrite Hnil in Hne. simpl in Hne. lia.
    + destruct (Z.leb_spec n decpt) as [Hlong|Hshort].
      * exists (bytes ds ++ repeat "0"%char (Z.to_nat (decpt - n))), (Some ["0"%char]), None.
        split.
        -- rewrite !bytes_app, bytes_zeros. unfold number_text. cbn [app].
           by rewrite ?app_nil_r, <- ?app_assoc.
        -- split; [apply Forall_app_2; [done | apply digits_repeat_zero]|].
           split; [right; by apply no_leading_zero_app|]. split; [|done].
           split; [by repeat constructor | done].
      * exists (take (Z.to_nat decpt) (bytes ds)),
               (Some (drop (Z.to_nat decpt) (bytes ds))), None.
        split.
        -- rewrite !bytes_app, bytes_str_take, bytes_str_from. unfold number_text.
           cbn [app]. by rewrite ?app_nil_r, <- ?app_assoc.
        -- split; [by apply digits_take|].
           split; [right; apply no_leading_zero_take; [lia | done]|].
           split; [|done]. split; [by apply digits_drop|].
           intros Hnil. apply (f_equal length) in Hnil.
           rewrite length_drop in Hnil. simpl in Hnil. lia.
  - set (e := decpt - 1).
    destruct (pretty_nonneg_digits (Z.abs e)) as [Hes Hes_ne]; [lia|].
    set (pad := if Z.abs e <? 10 then "0" +:+ pretty (Z.abs e) else pretty (Z.abs e)).
    assert (Hpad : digits (bytes pad) /\ bytes pad <> []).
    { subst pad. destruct (Z.abs e <? 10); [|done]. split; [|done].
      change (bytes ("0" +:+ pretty (Z.abs e))) with ("0"%char :: bytes (pretty (Z.abs e))).
      by constructor. }
    assert (Hexp : bytes ("e" +:+ (if e <? 0 then "-" else "+") +:+ pad)
                   = "e"%char :: (if e <? 0 then "-"%char else "+"%char) :: bytes pad)
      by (by destruct (e <? 0)).
    destruct (Z.eqb_spec n 1) as [Hone|Hmore].
    + exists (bytes ds), None, (Some (e <? 0, bytes pad)).
      split; [rewrite bytes_app, Hexp; unfold number_text; cbn [app];
              by rewrite ?app_nil_r, <- ?app_assoc|].
      split; [done|]. split; [by right|]. by split.
    + exists (take 1 (bytes ds)), (Some (drop 1 (bytes ds))), (Some (e <? 0, bytes pad)).
      split.
      * rewrite bytes_app, Hexp, !bytes_app, bytes_str_take, bytes_str_from.
        unfold number_text. cbn [app]. by rewrite ?app_nil_r, <- ?app_assoc.
      * split; [by apply digits_take|].
        split; [right; apply no_leading_zero_take; [lia | done]|].
        split; [|done]. split; [by apply digits_drop|].
        intros Hnil. apply (f_equal length) in Hnil.
        rewrite length_drop in Hnil. simpl in Hnil. lia.
Qed.

(** The digits of a float are those of a positive integer. *)
Lemma scaled_nonneg p q j :
  0 < p -> 0 < q ->
  0 <= (scaled p q j).1 /\ ((scaled p q j).2 = true -> 1 <= (scaled p q j).1).
Proof.
  intros Hp Hq. unfold scaled. destruct (Z.leb_spec 0 j) as [Hj|Hj]; cbn [fst snd].
  - assert (0 < q * 10 ^ j) by (apply Z.mul_pos_pos; [done | by apply Z.pow_pos_nonneg]).
    split; [apply Z.div_pos; lia|].
    intros Hexact%Z.eqb_eq. pose proof (Z.div_mod p (q * 10 ^ j)). nia.
  - assert (0 < p * 10 ^ (- j))
      by (apply Z.mul_pos_pos; [done | apply Z.pow_pos_nonneg; lia]).
    split; [apply Z.div_pos; lia|].
    intros Hexact%Z.eqb_eq. pose proof (Z.div_mod (p * 10 ^ (- j)) q). nia.
Qed.

Lemma float_of_decimal_zero j : float_of_decimal 0 j = 0%float.
Proof. unfold float_of_decimal. by destruct (0 <=? j). Qed.

Lemma zero_is_not_finite f s m e :
  Prim2SF f = S754_finite s m e -> PrimFloat.eqb 0 f = false.
Proof. intros Hf. rewrite FloatAxioms.eqb_spec, Hf. by destruct s. Qed.

Lemma shortest_from_pos fuel f p q t n s m e :
  0 < p -> 0 < q -> Prim2SF f = S754_finite s m e ->
  1 <= (shortest_from fuel f p q t n).1.
Proof.
  intros Hp Hq Hf. revert n. induction fuel as [|fuel IH]; intros n;
    cbn [shortest_from]; pose proof (scaled_nonneg p q (t - n + 1) Hp Hq) as [Hlo Hexact];
    destruct (scaled p q (t - n + 1)) as [lo exact]; cbn [fst snd] in *.
  - lia.
  - destruct exact; [by apply Hexact|].
    assert (Hzero : PrimFloat.eqb (float_of_decimal lo (t - n + 1)) f = true -> 1 <= lo).
    { intros Hread. destruct (decide (lo = 0)) as [->|]; [|lia].
      rewrite float_of_decimal_zero in Hread.
      by rewrite (zero_is_not_finite f s m e) in Hread. }
    destruct (PrimFloat.eqb (float_of_decimal lo (t - n + 1)) f);
      destruct (PrimFloat.eqb (float_of_decimal (lo + 1) (t - n + 1)) f);
      cbn [andb]; try destruct (lo_is_closer _ _ _ _); cbn [fst];
      first [by apply Hzero | lia | apply IH].
Qed.

Lemma strip_zeros_pos fuel d j : 1 <= d -> 1 <= (strip_zeros fuel d j).1.
Proof.
  revert d j. induction fuel as [|fuel IH]; intros d j Hd; [done|].
  cbn [strip_zeros]. destruct (Z.eqb_spec (d mod 10) 0) as [Hmod|]; [|done].
  destruct (Z.eqb_spec d 0) as [|_]; [lia|]. cbn [negb andb]. apply IH.
  pose proof (Z.div_mod d 10). lia.
Qed.

(** The text of a float that is a number is the text of a number. *)
Lemma json_float_text f :
  match Prim2SF f with
  | S754_zero _ | S754_finite _ _ _ => True
  | _ => False
  end ->
  exists neg int_ds frac exp,
    bytes (json_float f) = number_text neg int_ds frac exp /\
    number_ok int_ds frac exp.
Proof.
  unfold json_float, repr_float. intros Hf.
  pose proof (FloatAxioms.abs_spec f) as Habs.
  destruct (Prim2SF f) as [s| | |s m e] eqn:Hsf; try done.
  - exists s, ["0"%char], (Some ["0"%char]), None.
    split; [by destruct s|].
    by repeat split; [repeat constructor | left | repeat constructor |].
  - set (p := if 0 <=? e then Z.pos m * 2 ^ e else Z.pos m).
    set (q := if 0 <=? e then 1 else 2 ^ (- e)).
    assert (Hp : 0 < p).
    { subst p. destruct (Z.leb_spec 0 e); [|done].
      apply Z.mul_pos_pos; [done | by apply Z.pow_pos_nonneg]. }
    assert (Hq : 0 < q).
    { subst q. destruct (Z.leb_spec 0 e); [done|]. apply Z.pow_pos_nonneg; lia. }
    pose proof (shortest_from_pos 17 (PrimFloat.abs f) p q (ilog10 p q) 1
                  false m e Hp Hq Habs) as Hd.
    destruct (shortest_from 17 (PrimFloat.abs f) p q (ilog10 p q) 1) as [d j].
    cbn [fst] in Hd. pose proof (strip_zeros_pos 400 d j Hd) as Hd'.
    destruct (strip_zeros 400 d j) as [d' j']. cbn [fst] in Hd'.
    destruct d' as [|d'|d']; [lia| |lia].
    destruct (pretty_positive_digits d') as [Hds Hlead].
    destruct (format_repr_text (pretty (Z.pos d'))
                (Z.of_nat (String.length (pretty (Z.pos d'))) + j') Hds Hlead)
      as (int_ds & frac & exp & Htext & Hok).
    exists s, int_ds, frac, exp. split; [|done].
    rewrite bytes_app, Htext. unfold number_text. by destruct s.
Qed.

(** *** Values *)

(** Where a value starts there is no white space, no closing bracket and
    no byte order mark. *)
Lemma scan_once_head fuel s idx v r i :
  scan_once fuel s idx = Scanned v r i ->
  exists c s',
    s = c :: s' /\ is_json_space c = false /\ Ascii.eqb c "]" = false /\
    Ascii.eqb "239" c = false.
Proof.
  intros Hscan. destruct fuel as [|fuel]; [done|]. destruct s as [|c s']; [done|].
  exists c, s'. split; [done|].
  destruct c as [[] [] [] [] [] [] [] []];
    first [ by repeat split | exfalso; cbn in Hscan; discriminate Hscan ].
Qed.

Lemma skip_ws_head c s idx : is_json_space c = false -> skip_ws (c :: s) idx = (c :: s, idx).
Proof. intros Hc. cbn [skip_ws]. by rewrite Hc. Qed.

Lemma skip_ws_space c s idx :
  is_json_space c = false -> skip_ws (" "%char :: c :: s) idx = (c :: s, S idx).
Proof. intros Hc. cbn [skip_ws]. change (is_json_space " ") with true. cbv iota. by rewrite Hc. Qed.

Lemma delimited_skip_ws rest idx :
  delimited rest -> skip_ws rest idx = (rest, idx).
Proof. destruct rest as [|c rest]; [done|]. by intros [-> | [-> | ->]]. Qed.

(** A number is scanned as a number. *)
Lemma scan_once_number_head c s fuel idx :
  is_digit c = true \/ c = "-"%char ->
  scan_once (S fuel) (c :: s) idx
  = match scan_number (c :: s) idx with
    | Stop _ =>
        match word "NaN" (c :: s), word "Infinity" (c :: s), word "-Infinity" (c :: s) with
        | Some r, _, _ => Scanned (VFloat nan) r (idx + 3)
        | _, Some r, _ => Scanned (VFloat infinity) r (idx + 8)
        | _, _, Some r => Scanned (VFloat neg_infinity) r (idx + 9)
        | _, _, _ => Stop idx
        end
    | r => r
    end.
Proof.
  intros [Hc | ->]; [|reflexivity].
  destruct c as [[] [] [] [] [] [] [] []]; try discriminate Hc; reflexivity.
Qed.

Lemma scan_once_number neg int_ds frac exp fuel rest idx :
  number_ok int_ds frac exp -> number_end rest -> (1 <= fuel)%nat ->
  exists idx',
    scan_once fuel (number_text neg int_ds frac exp ++ rest) idx
    = Scanned (number_value neg int_ds frac exp) rest idx'.
Proof.
  intros Hok Hrest Hfuel. destruct fuel as [|fuel]; [lia|].
  destruct (scan_number_text neg int_ds frac exp rest idx Hok Hrest) as [idx' Hscan].
  exists idx'.
  assert (Hhead : exists c s, number_text neg int_ds frac exp ++ rest = c :: s /\
                    (is_digit c = true \/ c = "-"%char)).
  { unfold number_text. destruct neg; [by eexists _, _; split; [|right]|].
    destruct Hok as (Hint & Hzero & _). cbn [app].
    destruct int_ds as [|c ds]; [by destruct Hzero|].
    eexists c, _. split; [done|]. left. by apply Forall_inv in Hint. }
  destruct Hhead as (c & s & Htext & Hc). rewrite Htext in Hscan |- *.
  by rewrite scan_once_number_head, Hscan.
Qed.

(** [json.loads] on a text that the scanner reads whatever follows. *)
Lemma loads_of_scan t x w :
  (forall fuel rest idx,
     (w <= fuel)%nat -> delimited rest ->
     exists idx', scan_once fuel (bytes t ++ rest) idx = Scanned x rest idx') ->
  (w <= 2 * length (bytes t) + 2)%nat ->
  json_loads t = Ok x.
Proof.
  intros Hscan Hw. unfold json_loads. fold (bytes t).
  destruct (Hscan (2 * length (bytes t) + 2)%nat [] O Hw I) as [idx' Hrun].
  rewrite app_nil_r in Hrun.
  destruct (scan_once_head _ _ _ _ _ _ Hrun) as (c & s' & Ht & Hspace & _ & Hbom).
  rewrite Ht in Hrun |- *. cbn [utf8_bom read_word]. rewrite Hbom.
  rewrite skip_ws_head by done. by rewrite Hrun.
Qed.

(** What follows a number, a constant or a string in a text is no part of
    it: it is read the same whatever follows, and wherever it is. *)
Lemma scan_leaf_any (v : value) :
  match v with
  | VList _ | VDict _ => False
  | _ => True
  end ->
  exists x,
    match v with
    | VInt _ | VFloat _ => True
    | _ => x = v
    end /\
    forall fuel rest idx,
      (1 <= fuel)%nat -> delimited rest ->
      exists idx', scan_once fuel (bytes (json_dumps v) ++ rest) idx = Scanned x rest idx'.
Proof.
  intros Hleaf. destruct v as [|b|n|f|s|xs|kvs]; try done.
  - exists VNone. split; [done|]. intros [|fuel] rest idx Hfuel _; [lia|]. by eexists.
  - exists (VBool b). split; [done|].
    intros [|fuel] rest idx Hfuel _; [lia|]. by destruct b; eexists.
  - destruct (pretty_Z_text n) as (neg & ds & Htext & Hok).
    exists (number_value neg ds None None). split; [done|].
    intros fuel rest idx Hfuel Hrest. cbn [json_dumps]. rewrite Htext.
    apply scan_once_number; [done | by apply delimited_number_end | done].
  - cbn [json_dumps]. unfold json_float at 1.
    destruct (Prim2SF f) as [s|s| |s m e] eqn:Hf.
    + destruct (json_float_text f) as (neg & ds & frac & exp & Htext & Hok);
        [by rewrite Hf|].
      exists (number_value neg ds frac exp). split; [done|].
      intros fuel rest idx Hfuel Hrest.
      unfold json_float in Htext. rewrite Hf in Htext. rewrite Htext.
      apply scan_once_number; [done | by apply delimited_number_end | done].
    + exists (VFloat (if s then neg_infinity else infinity)). split; [done|].
      intros [|fuel] rest idx Hfuel _; [lia|]. by destruct s; eexists.
    + exists (VFloat nan). split; [done|].
      intros [|fuel] rest idx Hfuel _; [lia|]. by eexists.
    + destruct (json_float_text f) as (neg & ds & frac & exp & Htext & Hok);
        [by rewrite Hf|].
      exists (number_value neg ds frac exp). split; [done|].
      intros fuel rest idx Hfuel Hrest.
      unfold json_float in Htext. rewrite Hf in Htext. rewrite Htext.
      apply scan_once_number; [done | by apply delimited_number_end | done].
  - exists (VStr s). split; [done|]. intros [|fuel] rest idx Hfuel _; [lia|].
    cbn [json_dumps]. unfold json_string.
    change (bytes (String "034" (json_escape s) +:+ String "034" "") ++ rest)
      with ("034"%char :: bytes (json_escape s +:+ String "034" "") ++ rest).
    rewrite bytes_app, <- app_assoc. cbn [scan_once Ascii.eqb Bool.eqb].
    destruct (scanstring_escape s
                (length ("034"%char :: bytes (json_escape s) ++ bytes (String "034" "") ++ rest))
                idx [] rest (S idx)) as [idx' Hscan].
    { cbn [length]. rewrite length_app. lia. }
    change (bytes (String "034" "") ++ rest) with ("034"%char :: rest).
    change (bytes (String "034" "") ++ rest) with ("034"%char :: rest) in Hscan.
    rewrite Hscan. exists idx'. cbn [rev app]. by rewrite string_of_bytes.
Qed.

Lemma bytes_nonempty_length s : s <> "" -> (1 <= length (bytes s))%nat.
Proof. destruct s; [done|]. simpl. lia. Qed.

Lemma scan_leaf (v : value) :
  match v with
  | VList _ | VDict _ => False
  | _ => True
  end ->
  scans v.
Proof.
  intros Hleaf. destruct (scan_leaf_any v Hleaf) as (x & Hx & Hscan).
  assert (Himage : image v = x).
  { destruct v as [|b|n|f|s|xs|kvs]; try done; cbn [image]; unfold read_back;
      erewrite loads_of_scan; try done; exact Hscan || lia. }
  intros fuel rest idx Hfuel Hrest. rewrite Himage. apply Hscan; [|done].
  by destruct v.
Qed.

(** *** Arrays and objects *)

Lemma scan_elements_unfold fuel acc s idx :
  scan_elements (S fuel) acc s idx
  = match expecting_value (scan_once fuel s idx) with
    | Scanned v r i =>
        let (r1, i1) := skip_ws r i in
        match r1 with
        | c :: r2 =>
            if Ascii.eqb c "]" then Scanned (VList (acc ++ [v])) r2 (S i1)
            else if Ascii.eqb c "," then
              let (r3, i3) := skip_ws r2 (S i1) in
              scan_elements fuel (acc ++ [v]) r3 i3
            else Bad "Expecting ',' delimiter" i1
        | [] => Bad "Expecting ',' delimiter" i1
        end
    | r => r
    end.
Proof. reflexivity. Qed.

Lemma scan_members_unfold fuel acc s idx :
  scan_members (S fuel) acc s idx
  = match scanstring (S (length s)) (Nat.pred idx) [] s idx with
    | Scanned key r i =>
        let (r1, i1) := skip_ws r i in
        match r1 with
        | c :: r2 =>
            if Ascii.eqb c ":" then
              let (r3, i3) := skip_ws r2 (S i1) in
              match expecting_value (scan_once fuel r3 i3) with
              | Scanned v r4 i4 =>
                  let acc' := ODict.set key v acc in
                  let (r5, i5) := skip_ws r4 i4 in
                  match r5 with
                  | c' :: r6 =>
                      if Ascii.eqb c' "}" then Scanned (VDict acc') r6 (S i5)
                      else if Ascii.eqb c' "," then
                        let (r7, i7) := skip_ws r6 (S i5) in
                        match r7 with
                        | q :: r8 =>
                            if Ascii.eqb q "034"
                            then scan_members fuel acc' r8 (S i7)
                            else Bad property_name_msg i7
                        | [] => Bad property_name_msg i7
                        end
                      else Bad "Expecting ',' delimiter" i5
                  | [] => Bad "Expecting ',' delimiter" i5
                  end
              | r => r
              end
            else Bad "Expecting ':' delimiter" i1
        | [] => Bad "Expecting ':' delimiter" i1
        end
    | Stop i => Stop i
    | Bad m p => Bad m p
    end.
Proof. reflexivity. Qed.

Lemma scan_once_array fuel s idx :
  scan_once (S fuel) ("["%char :: s) idx
  = let (s1, i1) := skip_ws s (S idx) in
    match s1 with
    | c1 :: s2 =>
        if Ascii.eqb c1 "]" then Scanned (VList []) s2 (S i1)
        else scan_elements fuel [] s1 i1
    | [] => scan_elements fuel [] s1 i1
    end.
Proof. reflexivity. Qed.

Lemma scan_once_object fuel s idx :
  scan_once (S fuel) ("{"%char :: s) idx
  = let (s1, i1) := skip_ws s (S idx) in
    match s1 with
    | c1 :: s2 =>
        if Ascii.eqb c1 "}" then Scanned (VDict []) s2 (S i1)
        else if Ascii.eqb c1 "034" then scan_members fuel [] s2 (S i1)
        else Bad property_name_msg i1
    | [] => Bad property_name_msg i1
    end.
Proof. reflexivity. Qed.

(** The text of a value that is read starts as a value does. *)
Lemma scans_head v rest :
  scans v -> delimited rest ->
  exists c s,
    bytes (json_dumps v) ++ rest = c :: s /\ is_json_space c = false /\
    Ascii.eqb c "]" = false.
Proof.
  intros Hv Hrest. destruct (Hv (weight v) rest O) as [idx' Hscan]; [done..|].
  destruct (scan_once_head _ _ _ _ _ _ Hscan) as (c & s & Htext & Hspace & Hclose & _).
  by exists c, s.
Qed.

Lemma bytes_json_string s :
  bytes (json_string s) = "034"%char :: bytes (json_escape s) ++ ["034"%char].
Proof.
  unfold json_string.
  change (bytes (String "034" (json_escape s) +:+ String "034" ""))
    with ("034"%char :: bytes (json_escape s +:+ String "034" "")).
  by rewrite bytes_app.
Qed.

Lemma elements_text_join xs rest :
  xs <> [] ->
  bytes (join ", " (map json_dumps xs)) ++ "]"%char :: rest = elements_text xs rest.
Proof.
  induction xs as [|x xs IH]; [done|]. intros _. destruct xs as [|y ys]; [done|].
  cbn [map join elements_text]. cbn [map join] in IH.
  rewrite !bytes_app, <- !app_assoc. f_equal. cbn [bytes list_ascii_of_string app].
  f_equal. f_equal. by apply IH.
Qed.

Lemma members_text_join kvs rest :
  kvs <> [] ->
  bytes (join ", " (map (fun kv => json_string kv.1 +:+ ": " +:+ json_dumps kv.2) kvs))
    ++ "}"%char :: rest
  = "034"%char :: members_text kvs rest.
Proof.
  assert (Hmember : forall (kv : string * value) more,
    bytes (json_string kv.1 +:+ ": " +:+ json_dumps kv.2) ++ more
    = "034"%char :: bytes (json_escape kv.1) ++ "034"%char :: ":"%char :: " "%char
      :: bytes (json_dumps kv.2) ++ more).
  { intros kv more. rewrite !bytes_app, bytes_json_string. cbn [app].
    by rewrite <- !app_assoc. }
  induction kvs as [|kv kvs IH]; [done|]. intros _. destruct kvs as [|kv' kvs].
  - cbn [map join members_text]. apply Hmember.
  - cbn [map join members_text]. cbn [map join] in IH.
    rewrite bytes_app, <- app_assoc, Hmember. do 6 f_equal.
    rewrite bytes_app, <- app_assoc. cbn [bytes list_ascii_of_string app].
    do 2 f_equal. by apply IH.
Qed.

Lemma elements_text_head x xs rest :
  exists more, elements_text (x :: xs) rest = bytes (json_dumps x) ++ more /\ delimited more.
Proof.
  cbn [elements_text]. destruct xs; eexists; (split; [reflexivity|]); cbn; auto.
Qed.

Lemma weights_cons {A : Type} (value_of : A -> value) x xs :
  weights value_of (x :: xs) = S (weight (value_of x) + weights value_of xs).
Proof. reflexivity. Qed.

Lemma weight_array xs : weight (VList xs) = S (weights id xs).
Proof. reflexivity. Qed.

Lemma weight_object kvs : weight (VDict kvs) = S (weights snd kvs).
Proof. reflexivity. Qed.

(** The elements of an array, from any of them on. *)
Lemma scan_elements_text xs :
  Forall scans xs -> xs <> [] ->
  forall acc fuel rest idx,
    (weights id xs <= fuel)%nat ->
    exists idx',
      scan_elements fuel acc (elements_text xs rest) idx
      = Scanned (VList (acc ++ map image xs)) rest idx'.
Proof.
  induction 1 as [|x xs Hx Hxs IH]; [done|]. intros _ acc fuel rest idx Hfuel.
  rewrite weights_cons in Hfuel. cbn [id] in Hfuel.
  destruct fuel as [|fuel]; [lia|]. rewrite scan_elements_unfold.
  cbn [elements_text].
  set (after := match xs with
                | [] => "]"%char :: rest
                | _ => ","%char :: " "%char :: elements_text xs rest
                end).
  assert (Hafter : delimited after) by (subst after; destruct xs; cbn; auto).
  destruct (Hx fuel after idx) as [i Hscan]; [lia | done|].
  rewrite Hscan. cbn [expecting_value]. rewrite delimited_skip_ws by done.
  subst after. destruct xs as [|y ys].
  - cbn [Ascii.eqb Bool.eqb]. by eexists.
  - cbn [Ascii.eqb Bool.eqb].
    destruct (elements_text_head y ys rest) as (more & Htext & Hmore).
    destruct (scans_head y more (Forall_inv Hxs) Hmore) as (c & s & Hhead & Hspace & _).
    rewrite Htext, Hhead, skip_ws_space by done. rewrite <- Hhead, <- Htext.
    destruct (IH ltac:(done) (acc ++ [image x]) fuel rest (S (S i))) as [idx' Hrest];
      [lia|].
    rewrite Hrest. exists idx'. cbn [map]. by rewrite <- app_assoc.
Qed.

(** The members of an object, from any of them on. *)
Lemma scan_members_text kvs :
  Forall (fun kv => scans kv.2) kvs -> kvs <> [] ->
  forall acc fuel rest idx,
    (weights snd kvs <= fuel)%nat ->
    exists idx',
      scan_members fuel acc (members_text kvs rest) idx
      = Scanned (VDict (fold_left (fun acc kv => ODict.set kv.1 (image kv.2) acc) kvs acc))
                rest idx'.
Proof.
  induction 1 as [|[k v] kvs Hv Hkvs IH]; [done|]. intros _ acc fuel rest idx Hfuel.
  rewrite weights_cons in Hfuel. cbn [snd] in Hfuel.
  destruct fuel as [|fuel]; [lia|]. rewrite scan_members_unfold.
  cbn [members_text fst snd] in *.
  set (after := match kvs with
                | [] => "}"%char :: rest
                | _ => ","%char :: " "%char :: "034"%char :: members_text kvs rest
                end).
  assert (Hafter : delimited after) by (subst after; destruct kvs; cbn; auto).
  destruct (scanstring_escape k
              (S (length (bytes (json_escape k) ++ "034"%char :: ":"%char :: " "%char
                          :: bytes (json_dumps v) ++ after)))
              (Nat.pred idx) []
              (":"%char :: " "%char :: bytes (json_dumps v) ++ after) idx)
    as [i Hkey].
  { rewrite length_app. lia. }
  rewrite Hkey. cbn [rev app]. rewrite string_of_bytes.
  rewrite skip_ws_head by done. cbn [Ascii.eqb Bool.eqb].
  destruct (scans_head v after Hv Hafter) as (c & s & Hhead & Hspace & _).
  rewrite Hhead, skip_ws_space by done. rewrite <- Hhead.
  destruct (Hv fuel after (S (S i))) as [i4 Hscan]; [lia | done|].
  rewrite Hscan. cbn [expecting_value]. cbv zeta.
  rewrite delimited_skip_ws by done. subst after.
  destruct kvs as [|kv' kvs'].
  - cbn [Ascii.eqb Bool.eqb fold_left fst snd]. by eexists.
  - cbn [Ascii.eqb Bool.eqb]. rewrite skip_ws_space by done.
    cbn [Ascii.eqb Bool.eqb].
    destruct (IH ltac:(done) (ODict.set k (image v) acc) fuel rest (S (S (S i4))))
      as [idx' Hrest]; [lia|].
    rewrite Hrest. by exists idx'.
Qed.

(** The scanner reads what [json.dumps] writes for a value. *)
Lemma scan_value n v : (weight v <= n)%nat -> scans v.
Proof.
  revert v. induction n as [|n IH]; intros v Hn.
  { destruct v; cbn [weight] in Hn; lia. }
  destruct v as [|b|z|f|s|xs|kvs]; try (by apply scan_leaf).
  - (* an array *)
    rewrite weight_array in Hn.
    assert (Hxs : Forall scans xs).
    { apply Nat.succ_le_mono in Hn. clear -IH Hn.
      induction xs as [|x xs IHxs]; [constructor|].
      rewrite weights_cons in Hn. cbn [id] in Hn.
      constructor; [apply IH; lia | apply IHxs; lia]. }
    intros fuel rest idx Hfuel Hrest. rewrite weight_array in Hfuel.
    destruct fuel as [|fuel]; [lia|]. cbn [json_dumps image].
    change (bytes ("[" +:+ join ", " (map json_dumps xs) +:+ "]") ++ rest)
      with ("["%char :: bytes (join ", " (map json_dumps xs) +:+ "]") ++ rest).
    rewrite bytes_app, <- app_assoc, scan_once_array.
    change (bytes "]" ++ rest) with ("]"%char :: rest).
    destruct xs as [|x xs]; [by eexists|].
    rewrite elements_text_join by done.
    destruct (elements_text_head x xs rest) as (more & Htext & Hmore).
    destruct (scans_head x more (Forall_inv Hxs) Hmore) as (c & s & Hhead & Hspace & Hclose).
    rewrite Htext, Hhead, skip_ws_head by done. rewrite Hclose, <- Hhead, <- Htext.
    destruct (scan_elements_text (x :: xs) Hxs ltac:(done) [] fuel rest (S idx))
      as [idx' Hscan]; [lia|].
    rewrite Hscan. by exists idx'.
  - (* an object *)
    rewrite weight_object in Hn.
    assert (Hkvs : Forall (fun kv => scans kv.2) kvs).
    { apply Nat.succ_le_mono in Hn. clear -IH Hn.
      induction kvs as [|kv kvs IHkvs]; [constructor|].
      rewrite weights_cons in Hn.
      constructor; [apply IH; lia | apply IHkvs; lia]. }
    intros fuel rest idx Hfuel Hrest. rewrite weight_object in Hfuel.
    destruct fuel as [|fuel]; [lia|]. cbn [json_dumps image].
    match goal with
    | |- context [bytes ("{" +:+ ?members +:+ "}") ++ rest] =>
        change (bytes ("{" +:+ members +:+ "}") ++ rest)
          with ("{"%char :: bytes (members +:+ "}") ++ rest)
    end.
    rewrite bytes_app, <- app_assoc, scan_once_object.
    change (bytes "}" ++ rest) with ("}"%char :: rest).
    destruct kvs as [|kv kvs]; [by eexists|].
    rewrite members_text_join by done. rewrite skip_ws_head by done.
    cbn [Ascii.eqb Bool.eqb].
    destruct (scan_members_text (kv :: kvs) Hkvs ltac:(done) [] fuel rest (S (S idx)))
      as [idx' Hscan]; [lia|].
    rewrite Hscan. by exists idx'.
Qed.

(** *** [json.loads] after [json.dumps] *)

Lemma bytes_app_length a b :
  length (bytes (a +:+ b)) = (length (bytes a) + length (bytes b))%nat.
Proof. by rewrite bytes_app, length_app. Qed.

(** The steps for the parts of a container are bounded by its text. *)
Lemma weights_le_join {A : Type} (value_of : A -> value) (text_of : A -> string) xs :
  Forall (fun x => (weight (value_of x) <= 2 * length (bytes (text_of x)))%nat) xs ->
  xs <> [] ->
  (weights value_of xs <= 2 * length (bytes (join ", " (map text_of xs))) + 1)%nat.
Proof.
  induction 1 as [|x xs Hx Hxs IH]; [done|]. intros _. rewrite weights_cons.
  destruct xs as [|y ys].
  - cbn [map join weights fold_right]. lia.
  - cbn [map join]. cbn [map join] in IH. rewrite !bytes_app_length.
    change (length (bytes ", ")) with 2%nat.
    specialize (IH ltac:(done)). lia.
Qed.

Lemma weight_le_text n v :
  (weight v <= n)%nat -> (weight v <= 2 * length (bytes (json_dumps v)))%nat.
Proof.
  revert v. induction n as [|n IH]; intros v Hn.
  { destruct v; cbn [weight] in Hn; lia. }
  destruct v as [|b|z|f|s|xs|kvs].
  1-5: match goal with
       | |- (weight ?v <= _)%nat =>
           destruct (scans_head v [] (scan_value _ v (Nat.le_refl _)) I)
             as (c & t & Htext & _);
           rewrite app_nil_r in Htext; rewrite Htext; cbn [weight length]; lia
       end.
  - rewrite weight_array in Hn |- *. cbn [json_dumps]. rewrite !bytes_app_length.
    destruct xs as [|x xs]; [cbn; lia|].
    pose proof (weights_le_join id json_dumps (x :: xs)) as Hjoin.
    cbn [bytes list_ascii_of_string length].
    assert (Forall (fun x => (weight (id x) <= 2 * length (bytes (json_dumps x)))%nat)
              (x :: xs)) as Hparts; [|specialize (Hjoin Hparts ltac:(done)); lia].
    apply Nat.succ_le_mono in Hn. clear -IH Hn. revert Hn. generalize (x :: xs).
    intros l. induction l as [|y l IHl]; intros Hn; [constructor|].
    rewrite weights_cons in Hn. cbn [id] in Hn.
    constructor; [apply IH; lia | apply IHl; lia].
  - rewrite weight_object in Hn |- *. cbn [json_dumps]. rewrite !bytes_app_length.
    destruct kvs as [|kv kvs]; [cbn; lia|].
    pose proof (weights_le_join snd
                  (fun kv => json_string kv.1 +:+ ": " +:+ json_dumps kv.2) (kv :: kvs))
      as Hjoin.
    cbn [bytes list_ascii_of_string length].
    assert (Forall (fun kv : string * value =>
              (weight kv.2
               <= 2 * length (bytes (json_string kv.1 +:+ ": " +:+ json_dumps kv.2)))%nat)
              (kv :: kvs)) as Hparts; [|specialize (Hjoin Hparts ltac:(done)); lia].
    apply Nat.succ_le_mono in Hn. clear -IH Hn. revert Hn. generalize (kv :: kvs).
    intros l. induction l as [|y l IHl]; intros Hn; [constructor|].
    rewrite weights_cons in Hn.
    constructor; [|apply IHl; lia].
    rewrite !bytes_app_length. specialize (IH y.2 ltac:(lia)). lia.
Qed.

(** [json.loads] reads the text [json.dumps] writes for any value, as the
    image of the value. *)
Lemma loads_dumps v : json_loads (json_dumps v) = Ok (image v).
Proof.
  apply (loads_of_scan _ _ (weight v)).
  - apply (scan_value (weight v)). done.
  - pose proof (weight_le_text (weight v) v (Nat.le_refl _)). lia.
Qed.

End JsonFacts.

(** ** The prompt composer *)

Module PromptClaims.
Import Py Analyze PromptSpec JsonSpec JsonFacts.

(** C4. For every context, [build_prompt_messages] returns exactly two
    messages, the first of role [system] and the second of role [user].
    The content of the second is the JSON text [json.dumps] writes for the
    payload, and [json.loads] reads it: as an object whose keys are
    [task], [result_context], [requirements] and [format], in this order,
    the value of [result_context] being the context as [json.loads] reads
    it from its own text. The codec is the reference one. *)
Theorem build_prompt_messages_shape (context : value) :
  exists system user,
    build_prompt_messages (rt := Ref.runtime) context = [system; user] /\
    role system = "system" /\
    role user = "user" /\
    content user = Ref.json_dumps (user_payload context) /\
    (exists kvs,
       user_payload context = VDict kvs /\
       kvs.*1 = ["task"; "result_context"; "requirements"; "format"] /\
       assoc "result_context" kvs = Some context) /\
    (exists parsed context',
       Ref.json_loads (content user) = Ok (VDict parsed) /\
       ODict.keys parsed = ["task"; "result_context"; "requirements"; "format"] /\
       Ref.json_loads (Ref.json_dumps context) = Ok context' /\
       assoc "result_context" parsed = Some context').
Proof.
  exists {| role := "system"; content := sys_prompt |},
         {| role := "user"; content := Ref.json_dumps (user_payload context) |}.
  split; [reflexivity|]. split; [reflexivity|]. split; [reflexivity|].
  split; [reflexivity|]. split.
  - unfold user_payload. eexists. split; [reflexivity|]. split; reflexivity.
  - cbn [content]. rewrite loads_dumps. eexists _, (image context).
    split; [reflexivity|]. split; [reflexivity|].
    split; [apply loads_dumps | reflexivity].
Qed.

(** The prompt of the first example: what is read is the payload itself. *)
Lemma build_prompt_messages_shape_witness :
  exists user parsed,
    build_prompt_messages (rt := Ref.runtime) example_context !! 1%nat = Some user /\
    Ref.json_loads (content user) = Ok (VDict parsed) /\
    ODict.keys parsed = ["task"; "result_context"; "requirements"; "format"] /\
    assoc "result_context" parsed = Some example_context.
Proof.
  destruct (build_prompt_messages_shape example_context)
    as (system & user & Hmsgs & _ & _ & _ & _ & parsed & context' & Hparsed & Hkeys
        & Hcontext & Hvalue).
  assert (Hsame : context' = example_context).
  { assert (Hrun : Ref.json_loads (Ref.json_dumps example_context) = Ok example_context)
      by (vm_compute; reflexivity).
    rewrite Hrun in Hcontext. by injection Hcontext. }
  subst context'. exists user, parsed. split; [by rewrite Hmsgs|]. by repeat split.
Defined.

End PromptClaims.

(** ** Further properties *)

Module MoreFacts.
Import Py Analyze LoaderSpec PyFacts LoaderFacts.

Section WithRuntime.
Context {rt : Runtime}.

Lemma load_quiz_row_eq row quizzes :
  load_quiz_row row quizzes
  = if quiz_row_read row
    then qmap ← quiz_row_map row;
         Ok (<[strip (cell row "Quiz Link ID") := qmap]> quizzes)
    else Ok quizzes.
Proof.
  unfold load_quiz_row, quiz_row_read, quiz_row_map.
  destruct (row_is_empty row) eqn:Hrow.
  - apply row_is_empty_true in Hrow. subst row. by rewrite !cell_empty.
  - destruct (String.eqb (strip (cell row "Quiz Link ID")) ""); [done|].
    destruct (String.eqb (strip (cell row "Questions JSON")) ""); [done|]. simpl.
    destruct (loads_with_fallback _) as [qitems|]; [|done]. simpl.
    destruct (py_iter qitems) as [its|]; [|done]. simpl.
    by destruct (for_each its load_question ∅).
Qed.

(** X1. The quiz index: every quiz id read has the question map of the last
    row read for it, and no other id has an entry. *)
Theorem load_quizzes_index (rows : list (gmap string string)) :
  Forall (fun row => quiz_row_read row = true -> is_ok (quiz_row_map row) = true) rows ->
  exists quizzes,
    load_quizzes rows = Ok quizzes /\
    forall quiz_link_id, quizzes !! quiz_link_id = last (quiz_maps_for quiz_link_id rows).
Proof.
  intros Hrows. unfold load_quizzes.
  enough (Hgen : forall acc, exists quizzes,
    for_each rows load_quiz_row acc = Ok quizzes /\
    forall quiz_link_id,
      quizzes !! quiz_link_id
      = match last (quiz_maps_for quiz_link_id rows) with
        | Some qmap => Some qmap
        | None => acc !! quiz_link_id
        end).
  { destruct (Hgen ∅) as (quizzes & Hload & Hlookup). exists quizzes.
    split; [done|]. intros qid. rewrite Hlookup, lookup_empty.
    by destruct (last _). }
  induction Hrows as [|row rows Hrow _ IH]; intros acc.
  - by exists acc.
  - rewrite for_each_cons, load_quiz_row_eq. unfold quiz_maps_for. cbn [omap list_omap].
    fold (quiz_maps_for).
    destruct (quiz_row_read row) eqn:Hread; cbn [andb].
    + specialize (Hrow eq_refl).
      destruct (quiz_row_map row) as [qmap|e] eqn:Hmap; [|done]. cbn [mbind result_bind].
      destruct (IH (<[strip (cell row "Quiz Link ID") := qmap]> acc))
        as (quizzes & -> & Hlookup).
      exists quizzes. split; [done|]. intros qid. rewrite Hlookup.
      fold (quiz_maps_for qid rows).
      destruct (String.eqb_spec (strip (cell row "Quiz Link ID")) qid) as [->|Hne].
      * rewrite last_cons, lookup_insert_eq. by destruct (last _).
      * rewrite lookup_insert_ne by done. done.
    + cbn [mbind result_bind].
      destruct (IH acc) as (quizzes & -> & Hlookup).
      exists quizzes. split; [done|]. intros qid. by rewrite Hlookup.
Qed.

End WithRuntime.

Lemma load_quizzes_index_witness :
  exists quizzes,
    load_quizzes (rt := Ref.runtime)
      [Example.good_quiz_row; Example.bad_quiz_row_no_id] = Ok quizzes /\
    is_Some (quizzes !! "quiz-1") /\
    quizzes !! "quiz-2" = None.
Proof.
  destruct (load_quizzes_index (rt := Ref.runtime)
              [Example.good_quiz_row; Example.bad_quiz_row_no_id])
    as (quizzes & Hload & Hlookup).
  { constructor; [|constructor; [|constructor]].
    - intros _. vm_compute. reflexivity.
    - intros Hread. vm_compute in Hread. discriminate Hread. }
  exists quizzes. split; [exact Hload|]. rewrite !Hlookup. split.
  - vm_compute. eexists. reflexivity.
  - vm_compute. reflexivity.
Defined.

(** X2. The response extractor returns a text only when the response is an
    object whose first choice is an object with a message object whose
    content is a string that is not blank, and then returns that string;
    in every other case it returns nothing. It is total: the exceptions of
    its lookups do not leave it. *)
Theorem extract_markdown_content_spec (response_json : value) (text : string) :
  extract_markdown_content response_json = Some text <->
  exists d choice msg,
    response_json = VDict d /\
    first_of (py_or (dict_get "choices" d) (VList [])) = Ok (VDict choice) /\
    py_or (dict_get "message" choice) (VDict []) = VDict msg /\
    dict_get "content" msg = VStr text /\
    strip text <> "".
Proof.
  unfold extract_markdown_content. split.
  - destruct response_json as [| | | | |xs|d]; try done. cbn [as_dict mbind result_bind].
    destruct (truthy (py_or (dict_get "choices" d) (VList []))) eqn:Hchoices; [|done].
    cbn [negb]. destruct (first_of _) as [first|e] eqn:Hfirst; [|done].
    cbn [mbind result_bind].
    destruct first as [| | | | |xs|choice]; try done. cbn [as_dict mbind result_bind].
    destruct (py_or (dict_get "message" choice) (VDict [])) as [| | | | |xs|msg] eqn:Hmsg;
      try done.
    cbn [as_dict mbind result_bind].
    destruct (dict_get "content" msg) as [| | | |content| |] eqn:Hcontent; try done.
    destruct (String.eqb_spec (strip content) "") as [Hblank|Hblank]; [done|].
    cbn [negb try_except]. intros [= <-]. by exists d, choice, msg.
  - intros (d & choice & msg & -> & Hfirst & Hmsg & Hcontent & Hblank).
    cbn [as_dict mbind result_bind].
    assert (Htruthy : truthy (py_or (dict_get "choices" d) (VList [])) = true).
    { destruct (py_or (dict_get "choices" d) (VList [])) as [| | | |s|xs|kvs];
        try done; [by destruct s | by destruct xs]. }
    rewrite Htruthy, Hfirst. cbn [negb mbind result_bind as_dict].
    rewrite Hmsg. cbn [as_dict mbind result_bind]. rewrite Hcontent.
    by destruct (String.eqb_spec (strip text) "").
Qed.

End MoreFacts.

Module MoreTrendsFacts.
Import Py Trends TrendsSpec TrendsFacts.

Section WithRuntime.
Context {rt : Runtime}.

(** X3. Both fetchers make one request and return a dict, whatever the world
    answers: no exception leaves them. The dict is an error result, with
    a message that is not empty, exactly when the request or the parsing
    failed. *)
Theorem fetchers_contain_errors (w : World) (max_items : Z) (st : State) :
  (exists rt_dict,
     fetch_gb_realtime w max_items st = (Ok rt_dict, extend st [HttpGet realtime_url]) /\
     rt_dict = realtime_result (http w (requests_made st) realtime_url) max_items /\
     (truthy (dict_get "error" rt_dict) = true <->
      match http w (requests_made st) realtime_url with
      | HttpURLError _ | HttpOtherError _ => True
      | HttpBody raw =>
          exists e,
            json_loads (if startswith raw anti_csrf_prefix
                        then lstrip (str_drop (String.length anti_csrf_prefix) raw)
                        else raw) = Raise e
      end)) /\
  (exists rss,
     fetch_gb_daily_rss w st = (Ok rss, extend st [HttpGet rss_url]) /\
     (truthy (dict_get "error" rss) = true <->
      match http w (requests_made st) rss_url with
      | HttpURLError _ | HttpOtherError _ => True
      | HttpBody data => exists e, rss_xml w data = Raise e
      end)).
Proof.
  split.
  - eexists. split; [apply fetch_gb_realtime_run|]. split; [done|].
    destruct (http w (requests_made st) realtime_url) as [e|e|raw]; simpl; [done..|].
    destruct (json_loads _) as [data|e]; simpl.
    + split; [done | by intros [e ?]].
    + split; [by exists e | done].
  - eexists. split; [apply fetch_gb_daily_rss_run|].
    destruct (http w (requests_made st) rss_url) as [e|e|data]; simpl; [done..|].
    destruct (rss_xml w data) as [channel|e]; simpl.
    + split; [done | by intros [e ?]].
    + split; [by exists e | done].
Qed.

End WithRuntime.

End MoreTrendsFacts.

(** ** Further properties of the context builder *)

Module MoreContextFacts.
Import Py Analyze ContextSpec MoreSpec PyFacts ODictFacts ContextFacts.

Section WithRuntime.
Context {rt : Runtime}.
Implicit Types (qm : gmap string QuestionMeta) (d : list (string * value)).

(** *** Entries that are no objects *)

Lemma forallb_is_object entries :
  forallb is_object entries = true -> exists ds, entries = VDict <$> ds.
Proof.
  induction entries as [|entry entries IH]; simpl; [by exists []|].
  intros [Hentry Hrest]%andb_prop. destruct (IH Hrest) as [ds ->].
  destruct entry; try done. by eexists (_ :: ds).
Qed.

Lemma for_each_build_item_raises qm entries st :
  forallb is_object entries = false ->
  for_each entries (build_item qm) st
  = Raise (AttributeError "object has no attribute 'get'").
Proof.
  revert st. induction entries as [|entry entries IH]; intros st; [done|].
  rewrite for_each_cons. destruct entry as [| | | | | |d]; try done.
  cbn [forallb is_object andb]. intros Hrest.
  rewrite build_item_dict. cbn [mbind result_bind]. by apply IH.
Qed.

(** *** The keys of the source dictionary *)

Lemma keys_set_in {V : Type} k (v : V) dct :
  k ∈ ODict.keys dct -> ODict.keys (ODict.set k v dct) = ODict.keys dct.
Proof.
  unfold ODict.keys. induction dct as [|[k0 v0] dct IH]; simpl; intros Hin.
  - by apply elem_of_nil in Hin.
  - destruct (String.eqb_spec k k0) as [->|Hne]; [done|]. simpl. f_equal.
    apply IH. apply elem_of_cons in Hin as [?|?]; done.
Qed.

Lemma keys_set_fresh {V : Type} k (v : V) dct :
  k ∉ ODict.keys dct -> ODict.keys (ODict.set k v dct) = ODict.keys dct ++ [k].
Proof.
  unfold ODict.keys. induction dct as [|[k0 v0] dct IH]; simpl; intros Hin; [done|].
  apply not_elem_of_cons in Hin as [Hne Hin].
  destruct (String.eqb_spec k k0) as [->|_]; [done|]. simpl. f_equal. by apply IH.
Qed.

Lemma keys_record_sources ss all_sources :
  ODict.keys (record_sources ss all_sources)
  = ODict.keys all_sources
    ++ filter (fun u => u ∉ ODict.keys all_sources) (first_occurrences (url <$> ss)).
Proof.
  revert all_sources. induction ss as [|s ss IH]; intros all_sources.
  - simpl. by rewrite app_nil_r.
  - rewrite record_sources_cons, IH, fmap_cons. cbn [first_occurrences].
    rewrite filter_cons.
    destruct (decide (url s ∈ ODict.keys all_sources)) as [Hin|Hin].
    + rewrite keys_set_in by done. rewrite decide_False by (by intros Hn; apply Hn).
      f_equal. rewrite list_filter_filter. apply list_filter_iff.
      intros u. split; [|tauto]. intros Hu. split; [done|]. by intros ->.
    + rewrite keys_set_fresh by done. rewrite decide_True by done.
      rewrite <- app_assoc. cbn [app]. do 2 f_equal.
      rewrite list_filter_filter. apply list_filter_iff.
      intros u. rewrite not_elem_of_app, list_elem_of_singleton. tauto.
Qed.

Lemma filter_Forall {A : Type} (P : A -> Prop) `{!forall x, Decision (P x)} (l : list A) :
  Forall P l -> filter P l = l.
Proof.
  induction 1 as [|x l Hx _ IH]; [done|].
  rewrite filter_cons, decide_True by done. by rewrite IH.
Qed.

Lemma first_occurrences_elem u l : u ∈ first_occurrences l <-> u ∈ l.
Proof.
  induction l as [|x l IH]; [done|]. cbn [first_occurrences].
  rewrite !elem_of_cons, list_elem_of_filter, IH.
  destruct (decide (u = x)); naive_solver.
Qed.

(** The URLs of the candidate sources are those of the sources visited. *)
Lemma candidate_url_visited u ss :
  u ∈ ref_url <$> (source_ref <$> ODict.values (record_sources ss [])) <->
  u ∈ url <$> ss.
Proof.
  rewrite candidate_urls, keys_record_sources. cbn [ODict.keys fmap list_fmap app].
  rewrite list_elem_of_filter, first_occurrences_elem.
  split; [tauto|]. intros Hu. split; [apply not_elem_of_nil | done].
Qed.

Lemma item_sources_entry_item qm d :
  item_sources (entry_item qm d) = source_ref <$> entry_sources qm d.
Proof. done. Qed.

Lemma has_sources_entry_item qm d :
  has_sources (entry_item qm d) = bool_decide (entry_sources qm d <> []).
Proof.
  unfold has_sources. rewrite item_sources_entry_item.
  by destruct (entry_sources qm d).
Qed.

Lemma length_filter_has_sources qm ds :
  length (List.filter has_sources (entry_item qm <$> ds))
  = length (filter (fun d => entry_sources qm d <> []) ds).
Proof.
  induction ds as [|d ds IH]; [done|].
  rewrite fmap_cons, filter_cons. cbn [List.filter].
  rewrite has_sources_entry_item.
  case_bool_decide; case_decide; try done. simpl. by rewrite IH.
Qed.

Lemma visited_sources_nil qm ds :
  visited_sources qm ds = [] <-> Forall (fun d => entry_sources qm d = []) ds.
Proof.
  unfold visited_sources. induction ds as [|d ds IH].
  - split; [constructor | done].
  - rewrite bind_cons, Forall_cons, <- IH. split.
    + apply app_eq_nil.
    + by intros [-> ->].
Qed.

(** *** The properties *)

(** X4. The builder raises exactly when the perceptions cannot be iterated
    (the [TypeError] of the loop) or one of the entries iterated is not an
    object (the [AttributeError] of its first [get]); otherwise it returns a
    context with one item per entry. *)
Theorem build_context_raises (res : ResultRecord) qm :
  match py_iter (perceptions res) with
  | Raise e => build_context_for_result res qm = Raise e
  | Ok entries =>
      if forallb is_object entries
      then exists ctx, build_context_for_result res qm = Ok ctx /\
                       length (items ctx) = length entries
      else build_context_for_result res qm
           = Raise (AttributeError "object has no attribute 'get'")
  end.
Proof.
  destruct (py_iter (perceptions res)) as [entries|e] eqn:Hiter.
  - destruct (forallb is_object entries) eqn:Hobjects.
    + destruct (forallb_is_object _ Hobjects) as [ds ->].
      eexists. split; [by apply build_context_dicts|].
      cbn [items]. by rewrite !length_fmap.
    + unfold build_context_for_result. rewrite Hiter. cbn [mbind result_bind].
      by rewrite for_each_build_item_raises.
  - unfold build_context_for_result. by rewrite Hiter.
Qed.

(** X5. [num_with_sources] counts the entries whose question is in the quiz
    mapping with at least one source; it never exceeds [num_questions],
    and it is zero exactly when there is no candidate source. *)
Theorem num_with_sources_spec (res : ResultRecord) qm ds :
  py_iter (perceptions res) = Ok (VDict <$> ds) ->
  exists ctx,
    build_context_for_result res qm = Ok ctx /\
    num_with_sources (summary ctx)
    = length (filter (fun d => entry_sources qm d <> []) ds) /\
    (num_with_sources (summary ctx) <= num_questions (summary ctx))%nat /\
    (num_with_sources (summary ctx) = O <-> candidate_sources ctx = []).
Proof.
  intros Hp. eexists. split; [by apply build_context_dicts|].
  cbn [summary num_with_sources num_questions candidate_sources].
  rewrite length_filter_has_sources. split; [done|]. split; [apply length_filter|].
  rewrite length_zero_iff_nil.
  assert (Hnone : filter (fun d => entry_sources qm d <> []) ds = []
                  <-> visited_sources qm ds = []).
  { rewrite visited_sources_nil. clear Hp. induction ds as [|d ds IH].
    - split; [constructor | done].
    - rewrite filter_cons, Forall_cons, <- IH.
      destruct (decide (entry_sources qm d = [])) as [Hd|Hd].
      + rewrite decide_False by (by intros Hn; apply Hn). tauto.
      + rewrite decide_True by done. split; [done | by intros [? _]]. }
  rewrite Hnone. split.
  - by intros ->.
  - intros Hempty. destruct (visited_sources qm ds) as [|s ss] eqn:Hvisited; [done|].
    exfalso.
    assert (Hin : url s ∈ ref_url <$> (source_ref <$> ODict.values (record_sources (s :: ss) []))).
    { apply candidate_url_visited. rewrite fmap_cons. left. }
    rewrite Hempty in Hin. by apply elem_of_nil in Hin.
Qed.

(** X6. The candidate sources are the sources of the items: a URL is that of
    a candidate source exactly when it is that of a source of some item. *)
Theorem candidate_sources_cover_items (res : ResultRecord) qm ds :
  py_iter (perceptions res) = Ok (VDict <$> ds) ->
  exists ctx,
    build_context_for_result res qm = Ok ctx /\
    forall u,
      u ∈ ref_url <$> candidate_sources ctx <->
      exists it, it ∈ items ctx /\ u ∈ ref_url <$> item_sources it.
Proof.
  intros Hp. eexists. split; [by apply build_context_dicts|].
  cbn [items candidate_sources]. intros u.
  rewrite candidate_url_visited. unfold visited_sources.
  rewrite list_elem_of_fmap. split.
  - intros (s & -> & Hs). apply list_elem_of_bind in Hs as (d & Hs & Hd).
    exists (entry_item qm d). split; [by apply list_elem_of_fmap_2|].
    rewrite item_sources_entry_item, <- list_fmap_compose.
    by apply (list_elem_of_fmap_2 (ref_url ∘ source_ref)).
  - intros (it & Hit & Hu). apply list_elem_of_fmap in Hit as (d & -> & Hd).
    rewrite item_sources_entry_item, <- list_fmap_compose in Hu.
    apply list_elem_of_fmap in Hu as (s & -> & Hs).
    exists s. split; [done|]. apply list_elem_of_bind. by exists d.
Qed.

(** X7. The candidate sources come in the order in which their URLs are
    first visited: a URL met again keeps its place. *)
Theorem candidate_sources_first_visit_order (res : ResultRecord) qm ds :
  py_iter (perceptions res) = Ok (VDict <$> ds) ->
  exists ctx,
    build_context_for_result res qm = Ok ctx /\
    ref_url <$> candidate_sources ctx
    = first_occurrences (url <$> visited_sources qm ds).
Proof.
  intros Hp. eexists. split; [by apply build_context_dicts|].
  cbn [candidate_sources]. rewrite candidate_urls, keys_record_sources.
  cbn [ODict.keys fmap list_fmap app]. apply filter_Forall.
  apply Forall_forall. intros u _. apply not_elem_of_nil.
Qed.

(** X8. An entry whose question id is in the quiz mapping gets, at its own
    position, an item with the category and the sources of that question
    (a source without a name is named by its URL), the entry's guess and
    actual value unchanged, and as question text the entry's own
    [questionText] when it has one and the question of the quiz
    otherwise. *)
Theorem matched_perception_item (res : ResultRecord) qm ds :
  py_iter (perceptions res) = Ok (VDict <$> ds) ->
  exists ctx,
    build_context_for_result res qm = Ok ctx /\
    forall i d m, ds !! i = Some d -> qm !! entry_qid d = Some m ->
      exists it,
        items ctx !! i = Some it /\
        question_id it = entry_qid d /\
        item_category it = category m /\
        item_sources it
        = (fun s => {| ref_name := if truthy (name s) then name s else VStr (url s);
                       ref_url := url s |}) <$> sources m /\
        user_guess it = dict_get "userGuessValue" d /\
        actual_value it = dict_get "actualValue" d /\
        item_question it
        = strip (if truthy (dict_get "questionText" d)
                 then py_str (dict_get "questionText" d)
                 else question m).
Proof.
  intros Hp. eexists. split; [by apply build_context_dicts|]. cbn [items].
  intros i d m Hd Hm. exists (entry_item qm d). split.
  { by rewrite list_lookup_fmap, Hd. }
  unfold entry_item, entry_sources. cbn. rewrite Hm.
  repeat split. unfold py_or. by destruct (truthy (dict_get "questionText" d)).
Qed.

(** X9. The quiz mapping has no part in the error metric: whatever mapping
    is given, the builder raises the same exception or returns contexts
    with the same number of entries, the same mean error and, item by
    item, the same guess, actual value and error. *)
Theorem metrics_independent_of_quiz (res : ResultRecord) qm1 qm2 :
  metrics <$> build_context_for_result res qm1
  = metrics <$> build_context_for_result res qm2.
Proof.
  destruct (py_iter (perceptions res)) as [entries|e] eqn:Hiter.
  - destruct (forallb is_object entries) eqn:Hobjects.
    + destruct (forallb_is_object _ Hobjects) as [ds ->].
      rewrite !(build_context_dicts res _ ds Hiter).
      cbn [fmap result_fmap]. unfold metrics.
      cbn [summary items num_questions mean_abs_error]. do 2 f_equal.
      * f_equal. by rewrite !errors_of_items.
      * by rewrite <- !list_fmap_compose.
    + unfold build_context_for_result. rewrite Hiter. cbn [mbind result_bind].
      by rewrite !for_each_build_item_raises.
  - unfold build_context_for_result. by rewrite Hiter.
Qed.

End WithRuntime.

(** The theorems at the inputs of module [Example]. *)

Lemma num_with_sources_spec_witness :
  py_iter (perceptions Example.result1) = Ok (VDict <$> Example.entries) /\
  exists ctx,
    build_context_for_result (rt := Ref.runtime) Example.result1 Example.quiz = Ok ctx /\
    num_with_sources (summary ctx) = 2%nat.
Proof.
  split; [reflexivity|].
  destruct (num_with_sources_spec (rt := Ref.runtime)
              Example.result1 Example.quiz Example.entries eq_refl)
    as (ctx & Hctx & Hn & _).
  exists ctx. split; [exact Hctx|]. rewrite Hn. vm_compute. reflexivity.
Defined.

Lemma candidate_sources_cover_items_witness :
  py_iter (perceptions Example.result1) = Ok (VDict <$> Example.entries) /\
  exists ctx,
    build_context_for_result (rt := Ref.runtime) Example.result1 Example.quiz = Ok ctx /\
    exists it, it ∈ items ctx /\ "https://b" ∈ ref_url <$> item_sources it.
Proof.
  split; [reflexivity|].
  destruct (candidate_sources_cover_items (rt := Ref.runtime)
              Example.result1 Example.quiz Example.entries eq_refl)
    as (ctx & Hctx & Hcover).
  exists ctx. split; [exact Hctx|]. apply Hcover.
  pose proof Hctx as Hval. vm_compute in Hval. injection Hval as <-.
  vm_compute. right. left.
Defined.

Lemma candidate_sources_first_visit_order_witness :
  py_iter (perceptions Example.result1) = Ok (VDict <$> Example.entries) /\
  exists ctx,
    build_context_for_result (rt := Ref.runtime) Example.result1 Example.quiz = Ok ctx /\
    ref_url <$> candidate_sources ctx = ["https://a"; "https://b"].
Proof.
  split; [reflexivity|].
  destruct (candidate_sources_first_visit_order (rt := Ref.runtime)
              Example.result1 Example.quiz Example.entries eq_refl)
    as (ctx & Hctx & Horder).
  exists ctx. split; [exact Hctx|]. rewrite Horder. vm_compute. reflexivity.
Defined.

Lemma matched_perception_item_witness :
  py_iter (perceptions Example.result1) = Ok (VDict <$> Example.entries) /\
  exists ctx it,
    build_context_for_result (rt := Ref.runtime) Example.result1 Example.quiz = Ok ctx /\
    items ctx !! 1%nat = Some it /\
    item_category it = VStr "geography" /\
    item_question it = "Population of Paris?" /\
    ref_url <$> item_sources it = ["https://a"; "https://b"].
Proof.
  split; [reflexivity|].
  destruct (matched_perception_item (rt := Ref.runtime)
              Example.result1 Example.quiz Example.entries eq_refl)
    as (ctx & Hctx & Hitems).
  destruct (Hitems 1%nat _ Example.q2 eq_refl eq_refl)
    as (it & Hit & _ & Hcat & Hsrc & _ & _ & Hq).
  exists ctx, it. split; [exact Hctx|]. split; [exact Hit|].
  split; [exact Hcat|]. split; [exact Hq|]. rewrite Hsrc. reflexivity.
Defined.

End MoreContextFacts.

(** ** Further properties of the loaders *)

Module MoreLoaderFacts.
Import Py Analyze ContextSpec LoaderSpec MoreSpec PyFacts StrFacts LoaderFacts ContextFacts.

(** *** Stripping *)

Lemma stripped_strip s : strip s <> "" -> stripped (strip s).
Proof. intros Hs. split; [done | apply strip_strip]. Qed.

Lemma null_or_truthy_or v : null_or_truthy (py_or v VNone).
Proof. unfold py_or. destruct (truthy v) eqn:Hv; [by right | by left]. Qed.

(** *** Loop invariants *)

Lemma for_each_invariant {A S : Type} (P : S -> Prop) (xs : list A)
  (body : A -> S -> result S) st st' :
  (forall x s s', P s -> body x s = Ok s' -> P s') ->
  P st -> for_each xs body st = Ok st' -> P st'.
Proof.
  intros Hbody. revert st. induction xs as [|x xs IH]; intros st Hst Hloop.
  - by injection Hloop as <-.
  - rewrite for_each_cons in Hloop.
    destruct (body x st) as [s|e] eqn:Hx; [|done]. eauto.
Qed.

Section WithRuntime.
Context {rt : Runtime}.

Lemma load_source_ok s sources_list sources_list' :
  Forall source_ok sources_list ->
  load_source s sources_list = Ok sources_list' ->
  Forall source_ok sources_list'.
Proof.
  unfold load_source. intros Hok Hload.
  destruct (as_dict s) as [d|e]; [|done]. cbn [mbind result_bind] in Hload.
  destruct (String.eqb_spec (strip (py_str (py_or (dict_get "url" d) (VStr "")))) "")
    as [Hblank|Hurl].
  - by injection Hload as <-.
  - injection Hload as <-. apply Forall_app_2; [done|].
    constructor; [|constructor]. split; cbn [url name].
    + by apply stripped_strip.
    + apply null_or_truthy_or.
Qed.

Lemma load_question_ok item (qmap qmap' : gmap string QuestionMeta) :
  map_Forall question_ok qmap ->
  load_question item qmap = Ok qmap' ->
  map_Forall question_ok qmap'.
Proof.
  unfold load_question. intros Hok Hload.
  destruct (as_dict item) as [d|e]; [|done]. cbn [mbind result_bind] in Hload.
  match type of Hload with
  | (if String.eqb ?qid "" then _ else _) = _ =>
      destruct (String.eqb_spec qid "") as [Hblank|Hqid]
  end.
  - by injection Hload as <-.
  - destruct (py_iter _) as [ss|e]; [|done]. cbn [mbind result_bind] in Hload.
    destruct (for_each ss load_source []) as [sources_list|e] eqn:Hsources; [|done].
    cbn [mbind result_bind] in Hload. injection Hload as <-.
    apply map_Forall_insert_2; [|done].
    split; [done|]. split; [by apply stripped_strip|].
    split; [apply strip_strip|]. split; [apply null_or_truthy_or|].
    cbn [sources].
    eapply (for_each_invariant (Forall source_ok)); [|constructor|exact Hsources].
    intros. by eapply load_source_ok.
Qed.

Lemma load_quiz_row_ok row quizzes quizzes' :
  quiz_index_ok quizzes ->
  load_quiz_row row quizzes = Ok quizzes' ->
  quiz_index_ok quizzes'.
Proof.
  unfold load_quiz_row. intros Hok Hload.
  destruct (row_is_empty row); [by injection Hload as <-|].
  destruct (String.eqb_spec (strip (cell row "Quiz Link ID")) "") as [Hblank|Hid];
    [by injection Hload as <-|].
  destruct (String.eqb (strip (cell row "Questions JSON")) "");
    [by injection Hload as <-|].
  destruct (loads_with_fallback _) as [qitems|e]; [|done].
  cbn [mbind result_bind] in Hload.
  destruct (py_iter qitems) as [its|e]; [|done]. cbn [mbind result_bind] in Hload.
  destruct (for_each its load_question ∅) as [qmap|e] eqn:Hquestions; [|done].
  cbn [mbind result_bind] in Hload. injection Hload as <-.
  apply map_Forall_insert_2; [|done]. split; [by apply stripped_strip|].
  eapply (for_each_invariant (map_Forall question_ok));
    [|apply map_Forall_empty|exact Hquestions].
  intros. by eapply load_question_ok.
Qed.

(** Whatever the rows, the index [load_quizzes] returns is well formed. *)
Lemma load_quizzes_ok rows quizzes :
  load_quizzes rows = Ok quizzes -> quiz_index_ok quizzes.
Proof.
  apply (for_each_invariant quiz_index_ok); [|apply map_Forall_empty].
  intros. by eapply load_quiz_row_ok.
Qed.

Lemma source_ref_of_ok s : source_ok s -> source_ref_ok (source_ref s).
Proof.
  intros [[Hurl Hstripped] Hname]. split; [done|].
  cbn [source_ref ref_name]. unfold name_or_url.
  destruct (truthy (name s)) eqn:Htruthy; [done|].
  cbn [truthy]. by destruct (String.eqb_spec (url s) "").
Qed.

Lemma entry_sources_ok (qm : gmap string QuestionMeta) d :
  map_Forall question_ok qm -> Forall source_ok (entry_sources qm d).
Proof.
  intros Hqm. unfold entry_sources.
  destruct (qm !! entry_qid d) as [m|] eqn:Hm; [|constructor].
  by destruct (Hqm _ _ Hm) as (_ & _ & _ & _ & Hsources).
Qed.

(** *** The properties *)

(** X10. Whatever the rows hold, every index [load_quizzes] returns is well
    formed: a quiz id and a question id are never blank and have no white
    space around them, a question is filed under its own id, the URL of a
    source is never blank, and a category or a source name is null or
    counts as true. *)
Theorem load_quizzes_well_formed (rows : list (gmap string string)) quizzes :
  load_quizzes rows = Ok quizzes ->
  forall quiz_link_id qmap, quizzes !! quiz_link_id = Some qmap ->
    stripped quiz_link_id /\
    forall k m, qmap !! k = Some m ->
      id m = k /\ stripped k /\ strip (question m) = question m /\
      null_or_truthy (category m) /\
      Forall (fun s => stripped (url s) /\ null_or_truthy (name s)) (sources m).
Proof.
  intros Hload quiz_link_id qmap Hqmap.
  destruct (load_quizzes_ok _ _ Hload _ _ Hqmap) as [Hid Hquestions].
  split; [done|]. intros k m Hm. exact (Hquestions _ _ Hm).
Qed.

(** X11. [load_results] decodes the cell of a row before it looks at the
    row's [Result ID]: the first row whose cell is not blank and decodes
    in neither way ends the load with the exception of the second
    attempt, also when the row has no [Result ID] and would be dropped. *)
Theorem load_results_first_error (pre post : list (gmap string string)) row e :
  Forall (fun r => is_ok (row_perceptions r) = true) pre ->
  strip (cell row "Perceptions JSON") <> "" ->
  loads_with_fallback (strip (cell row "Perceptions JSON")) = Raise e ->
  load_results (pre ++ row :: post) = Raise e.
Proof.
  intros Hpre Hcell Hdecode. unfold load_results. rewrite for_each_app.
  assert (Hloop : exists recs, for_each pre load_result_row [] = Ok recs).
  { generalize (@nil ResultRecord).
    induction Hpre as [|r pre Hr _ IH]; intros acc; [by exists acc|].
    rewrite for_each_cons, load_result_row_eq.
    destruct (row_perceptions r) as [v|]; [|done]. cbn [mbind result_bind].
    apply IH. }
  destruct Hloop as [recs ->]. cbn [mbind result_bind].
  rewrite for_each_cons, load_result_row_eq. unfold row_perceptions.
  destruct (String.eqb_spec (strip (cell row "Perceptions JSON")) ""); [done|].
  by rewrite Hdecode.
Qed.

(** X12. A context built with the questions [main] looks up in a loaded
    index (those of the quiz id, or none) lists only sources with a URL
    that is not blank and a name that is neither null nor empty, among the
    candidate sources and in every item. *)
Theorem loaded_sources_well_formed (rows : list (gmap string string)) quizzes
  (res : ResultRecord) ctx :
  load_quizzes rows = Ok quizzes ->
  build_context_for_result res (default ∅ (quizzes !! quiz_link_id res)) = Ok ctx ->
  Forall source_ref_ok (candidate_sources ctx) /\
  Forall (fun it => Forall source_ref_ok (item_sources it)) (items ctx).
Proof.
  intros Hload Hctx.
  assert (Hqm : map_Forall question_ok (default ∅ (quizzes !! quiz_link_id res))).
  { destruct (quizzes !! quiz_link_id res) as [qmap|] eqn:Hqmap.
    - by destruct (load_quizzes_ok _ _ Hload _ _ Hqmap).
    - apply map_Forall_empty. }
  set (qm := default ∅ (quizzes !! quiz_link_id res)) in *.
  destruct (proj1 (build_context_returns res qm)) as [ds Hds]; [by exists ctx|].
  rewrite (build_context_dicts res qm ds Hds) in Hctx. injection Hctx as <-.
  cbn [candidate_sources items]. split.
  - apply Forall_forall. intros r Hr.
    apply elem_of_candidates in Hr as (s & -> & Hlast).
    apply last_filter_elem in Hlast as [Hs _]. apply source_ref_of_ok.
    apply list_elem_of_bind in Hs as (d & Hs & _).
    pose proof (entry_sources_ok qm d Hqm) as Hok.
    by eapply Forall_forall in Hok.
  - apply Forall_fmap, Forall_forall. intros d _.
    cbn [item_sources entry_item compose]. apply Forall_fmap.
    eapply Forall_impl; [by apply entry_sources_ok|]. apply source_ref_of_ok.
Qed.

End WithRuntime.

(** The theorems at the rows of the examples. *)

Lemma load_quizzes_well_formed_witness :
  exists quizzes qmap m,
    load_quizzes (rt := Ref.runtime) [MoreExample.quiz_row] = Ok quizzes /\
    quizzes !! "quiz-7" = Some qmap /\
    qmap !! "q1" = Some m /\
    Forall (fun s => stripped (url s) /\ null_or_truthy (name s)) (sources m).
Proof.
  destruct (load_quizzes (rt := Ref.runtime) [MoreExample.quiz_row])
    as [quizzes|e] eqn:Hload; [|vm_compute in Hload; discriminate Hload].
  assert (Hqmap : exists qmap, quizzes !! "quiz-7" = Some qmap /\
                               is_Some (qmap !! "q1")).
  { vm_compute in Hload. injection Hload as <-. vm_compute. eauto. }
  destruct Hqmap as (qmap & Hqmap & [m Hm]).
  exists quizzes, qmap, m. split; [reflexivity|]. split; [exact Hqmap|].
  split; [exact Hm|].
  destruct (load_quizzes_well_formed (rt := Ref.runtime) _ _ Hload _ _ Hqmap)
    as [_ Hquestions].
  exact (proj2 (proj2 (proj2 (proj2 (Hquestions _ _ Hm))))).
Defined.

Lemma load_results_first_error_witness :
  load_results (rt := Ref.runtime)
    ([Example.result_rows !!! 0%nat] ++ MoreExample.bad_result_row_no_id
       :: [Example.result_rows !!! 2%nat])
  = Raise (JSONDecodeError "Expecting property name enclosed in double quotes" "{bad" 1).
Proof.
  apply (load_results_first_error (rt := Ref.runtime)).
  - constructor; [|constructor]. vm_compute. reflexivity.
  - vm_compute. discriminate.
  - vm_compute. reflexivity.
Defined.

Lemma loaded_sources_well_formed_witness :
  exists quizzes ctx,
    load_quizzes (rt := Ref.runtime) [MoreExample.quiz_row] = Ok quizzes /\
    build_context_for_result (rt := Ref.runtime) MoreExample.result7
      (default ∅ (quizzes !! quiz_link_id MoreExample.result7)) = Ok ctx /\
    length (candidate_sources ctx) = 2%nat /\
    Forall source_ref_ok (candidate_sources ctx).
Proof.
  destruct (load_quizzes (rt := Ref.runtime) [MoreExample.quiz_row])
    as [quizzes|e] eqn:Hload; [|vm_compute in Hload; discriminate Hload].
  destruct (build_context_for_result (rt := Ref.runtime) MoreExample.result7
              (default ∅ (quizzes !! quiz_link_id MoreExample.result7)))
    as [ctx|e] eqn:Hctx.
  - exists quizzes, ctx. split; [reflexivity|]. split; [exact Hctx|]. split.
    + pose proof Hload as Hquizzes. vm_compute in Hquizzes. injection Hquizzes as <-.
      vm_compute in Hctx. injection Hctx as <-. reflexivity.
    + exact (proj1 (loaded_sources_well_formed (rt := Ref.runtime) _ _ _ _ Hload Hctx)).
  - exfalso. pose proof Hload as Hquizzes. vm_compute in Hquizzes.
    injection Hquizzes as <-. vm_compute in Hctx. discriminate Hctx.
Defined.

End MoreLoaderFacts.

(** ** Further properties of the .env loader *)

Module MoreEnvFacts.
Import Py MoreSpec StrFacts EnvFacts MoreLoaderFacts.
Import Trends.

(** *** Reading a file again *)

(** A line that has been read changes nothing when it is read again, in
    any environment that kept what it set. *)
Lemma load_env_line_again raw (env env' E : gmap string string) :
  load_env_line raw env = Ok env' ->
  (forall k v, env' !! k = Some v -> E !! k = Some v) ->
  load_env_line raw E = Ok E.
Proof.
  unfold load_env_line. intros Hline Hkept. cbv zeta in Hline |- *.
  destruct (String.eqb (strip raw) "" || startswith (strip raw) "#"); [done|].
  destruct (negb (str_contains "=" _)); [done|].
  destruct (split_once "=" _) as [key val].
  destruct (String.eqb_spec (strip key) "") as [Hblank|Hkey]; [done|].
  cbn [negb andb] in *.
  destruct (env !! strip key) as [v|] eqn:Hpresent.
  - rewrite bool_decide_eq_false_2 in Hline by done.
    injection Hline as <-.
    by rewrite bool_decide_eq_false_2 by (by rewrite (Hkept _ _ Hpresent)).
  - rewrite bool_decide_eq_true_2 in Hline by done.
    unfold environ_set in Hline.
    destruct (str_contains "=" (strip key)); [done|].
    destruct (_ || _); [done|]. injection Hline as <-.
    rewrite bool_decide_eq_false_2; [done|].
    by rewrite (Hkept (strip key) _ (lookup_insert_eq _ _ _)).
Qed.

Lemma load_env_lines_again lines (env : gmap string string) :
  load_env_lines lines (load_env_lines lines env).1 = load_env_lines lines env.
Proof.
  revert env. induction lines as [|raw lines IH]; intros env; [done|].
  cbn [load_env_lines].
  destruct (load_env_line raw env) as [env'|e] eqn:Hline.
  - rewrite (load_env_line_again raw env env'); [apply IH | done |].
    intros k v Hk. by apply load_env_lines_preserves.
  - cbn [fst load_env_lines]. by rewrite Hline.
Qed.

(** *** A line that raises *)

Lemma load_env_lines_stop before bad after (env : gmap string string) e :
  load_env_line bad (load_env_lines before env).1 = Raise e ->
  (load_env_lines (before ++ bad :: after) env).1 = (load_env_lines before env).1.
Proof.
  revert env. induction before as [|raw before IH]; intros env; cbn [app load_env_lines].
  - cbn [fst]. by intros ->.
  - destruct (load_env_line raw env) as [env'|e'] eqn:Hline; [apply IH | done].
Qed.

(** *** The export prefix *)

Lemma lower_app a s : lower (a +:+ s) = lower a +:+ lower s.
Proof.
  induction a as [|c a IH]; [done|].
  change (String (lower_ascii c) (lower (a +:+ s))
          = String (lower_ascii c) (lower a +:+ lower s)).
  by rewrite IH.
Qed.

Lemma lower_ascii_e c :
  lower_ascii c = "e"%char ->
  utf8_width c = 1%nat /\ is_space (String c "") = false /\ c <> "#"%char.
Proof. by destruct c as [[] [] [] [] [] [] [] []]. Qed.

Lemma lower_ascii_width c d :
  lower_ascii c = d -> utf8_width d = 1%nat -> utf8_width c = 1%nat.
Proof. intros <-. by destruct c as [[] [] [] [] [] [] [] []]. Qed.

(** The text of a line that starts with the word, in any letter case. *)
Lemma strip_export pre s :
  lower pre = "export " -> stripped s ->
  strip (pre +:+ s) = pre +:+ s /\
  startswith (pre +:+ s) "#" = false /\
  String.eqb (pre +:+ s) "" = false /\
  startswith (lower (pre +:+ s)) "export " = true /\
  lstrip (str_drop 7 (pre +:+ s)) = s.
Proof.
  intros Hpre [Hne Hs].
  destruct pre as [|c1 [|c2 [|c3 [|c4 [|c5 [|c6 [|c7 [|c8 pre]]]]]]]]; try done.
  injection Hpre as H1 H2 H3 H4 H5 H6 H7.
  destruct (lower_ascii_e c1 H1) as (Hwidth & Hspace & Hhash).
  set (word := String c1 (String c2 (String c3 (String c4 (String c5 (String c6 (String c7 ""))))))).
  assert (Happ : word +:+ s
    = String c1 (String c2 (String c3 (String c4 (String c5 (String c6 (String c7 s)))))))
    by done.
  split; [|split; [|split; [|split]]].
  - apply strip_app_ascii; [done..| |done|done].
    repeat apply Forall_cons_2; [..|by apply Forall_nil];
      (eapply lower_ascii_width; [eassumption | done]).
  - rewrite Happ. unfold startswith. cbn [String.prefix].
    by destruct (ascii_dec "#" c1).
  - by rewrite Happ.
  - rewrite lower_app. unfold word. cbn [lower].
    rewrite H1, H2, H3, H4, H5, H6, H7. by destruct (lower s).
  - rewrite Happ. cbn [str_drop]. by apply lstrip_fixed.
Qed.

(** *** The properties *)

(** X13. Loading a file is idempotent: loading it again into the
    environment it gave changes nothing. *)
Theorem load_env_file_idempotent (file : option (result string))
  (env : gmap string string) :
  Trends.load_env_file file (Trends.load_env_file file env)
  = Trends.load_env_file file env /\
  Analyze.load_env_file file (Analyze.load_env_file file env)
  = Analyze.load_env_file file env.
Proof.
  destruct load_env_file_same as (-> & _ & _).
  assert (Trends.load_env_file file (Trends.load_env_file file env)
          = Trends.load_env_file file env) as Heq; [|by split].
  destruct file as [[text|e]|]; [|done..].
  unfold Trends.load_env_file. by rewrite load_env_lines_again.
Qed.

(** X14. A line on which the assignment raises ends the loading, silently:
    what the lines before it set stays set and the lines after it are not
    read, so that the file gives the environment it would give if it ended
    before that line. *)
Theorem load_env_file_stops_at_error (text text' : string) before bad after
  (env : gmap string string) e :
  splitlines text = before ++ bad :: after ->
  splitlines text' = before ->
  Trends.load_env_line bad (Trends.load_env_file (Some (Ok text')) env) = Raise e ->
  Trends.load_env_file (Some (Ok text)) env
  = Trends.load_env_file (Some (Ok text')) env /\
  Analyze.load_env_file (Some (Ok text)) env
  = Analyze.load_env_file (Some (Ok text')) env.
Proof.
  destruct load_env_file_same as (-> & _ & _).
  unfold Trends.load_env_file. intros -> -> Hbad.
  split; by eapply load_env_lines_stop.
Qed.

(** X15. The word [export] before an assignment, in any letter case, is
    dropped: the line sets what the assignment alone sets. The assignment
    is taken without white space around it, and is itself neither a
    comment nor an [export] line. *)
Theorem load_env_line_export (pre line : string) (env : gmap string string) :
  lower pre = "export " ->
  stripped line ->
  startswith line "#" = false ->
  startswith (lower line) "export " = false ->
  Trends.load_env_line (pre +:+ line) env = Trends.load_env_line line env /\
  Analyze.load_env_line (pre +:+ line) env = Analyze.load_env_line line env.
Proof.
  destruct load_env_file_same as (_ & _ & ->).
  intros Hpre Hline Hcomment Hexport.
  assert (Trends.load_env_line (pre +:+ line) env = Trends.load_env_line line env)
    as Heq; [|by split].
  destruct (strip_export pre line Hpre Hline) as (Hs & Hhash & Hempty & Hlower & Hdrop).
  unfold Trends.load_env_line. rewrite Hs, Hhash, Hempty, Hlower, Hdrop.
  destruct Hline as [Hne Hstrip]. rewrite Hstrip, Hcomment, Hexport.
  by destruct (String.eqb_spec line "").
Qed.

(** The theorems at lines of examples. *)

Lemma load_env_file_stops_at_error_witness :
  Trends.load_env_file
    (Some (Ok ("A=1" +:+ newline +:+ "B=" +:+ String "000" "" +:+ newline +:+ "C=3")))
    ∅
  = Trends.load_env_file (Some (Ok "A=1")) ∅.
Proof.
  refine (proj1 (load_env_file_stops_at_error
                   ("A=1" +:+ newline +:+ "B=" +:+ String "000" "" +:+ newline +:+ "C=3")
                   "A=1" ["A=1"] ("B=" +:+ String "000" "") ["C=3"] ∅
                   (ValueError "embedded null byte") _ _ _)).
  - vm_compute. reflexivity.
  - vm_compute. reflexivity.
  - vm_compute. reflexivity.
Defined.

Lemma load_env_line_export_witness :
  Trends.load_env_line "EXPORT PPLX_API_KEY='k'" ∅
  = Trends.load_env_line "PPLX_API_KEY='k'" ∅.
Proof.
  refine (proj1 (load_env_line_export "EXPORT " "PPLX_API_KEY='k'" ∅ _ _ _ _)).
  - vm_compute. reflexivity.
  - split; [discriminate | vm_compute; reflexivity].
  - vm_compute. reflexivity.
  - vm_compute. reflexivity.
Defined.

End MoreEnvFacts.

(** ** Further properties of the trends tool *)

Module MoreTrendsRun.
Import Py Trends TrendsSpec MoreTrendsSpec StrFacts TrendsFacts.

(** *** Steps whose events satisfy a predicate *)

Section Only.
Context (P : event -> bool) (Hprint : forall s, P (Print s) = true).

Lemma only_ret {A : Type} (a : A) : only P (mret a).
Proof. intros st. exists []. split; [done | by rewrite extend_nil]. Qed.

Lemma only_lift {A : Type} (r : result A) : only P (lift r).
Proof. intros st. exists []. split; [done | by rewrite extend_nil]. Qed.

Lemma only_bind {A B : Type} (m : M A) (k : A -> M B) :
  only P m -> (forall a, only P (k a)) -> only P (m ≫= k).
Proof.
  intros Hm Hk st. destruct (Hm st) as (q1 & Hq1 & Hst).
  destruct (m st) as [[a|e] st'] eqn:Hrun; simpl in Hst; subst st'.
  - rewrite (bind_ok _ _ _ _ _ Hrun).
    destruct (Hk a (extend st q1)) as (q2 & Hq2 & ->).
    exists (q1 ++ q2). split; [|apply extend_extend].
    by rewrite forallb_app, Hq1, Hq2.
  - rewrite (bind_raise _ _ _ _ _ Hrun). by exists q1.
Qed.

Lemma only_emit ev : P ev = true -> only P (emit ev).
Proof. intros Hev st. exists [ev]. split; [|done]. simpl. by rewrite Hev. Qed.

Lemma only_print s : only P (print s).
Proof. apply only_emit, Hprint. Qed.

Lemma only_file_op w ev : P ev = true -> only P (file_op w ev).
Proof. intros Hev st. exists [ev]. split; [|done]. simpl. by rewrite Hev. Qed.

Lemma only_for_enumerate {A : Type} i (xs : list A) (body : nat -> A -> M unit) :
  (forall j x, only P (body j x)) -> only P (for_enumerate i xs body).
Proof.
  intros Hbody. revert i. induction xs as [|x xs IH]; intros i; simpl.
  - apply (only_ret tt).
  - apply only_bind; [apply Hbody | intros _; apply IH].
Qed.

Lemma only_when b (m : M unit) : only P m -> only P (when b m).
Proof. intros Hm. destruct b; [done | apply (only_ret tt)]. Qed.

Lemma only_unless b (m : M unit) : only P m -> only P (unless b m).
Proof. intros Hm. destruct b; [apply (only_ret tt) | done]. Qed.

Lemma only_run {A : Type} (m : M A) st :
  only P m -> exists r evs, forallb P evs = true /\ m st = (r, extend st evs).
Proof.
  intros Hm. destruct (Hm st) as (evs & Hevs & Hst).
  exists (m st).1, evs. split; [done|]. rewrite <- Hst. by destruct (m st).
Qed.

End Only.

Lemma quiet_only {A : Type} (m : M A) :
  quiet_step m -> only (fun ev => negb (is_get ev)) m.
Proof.
  intros Hm st. destruct (Hm st) as (q & Hq & Hst). exists q. split; [|done].
  apply forallb_forall. intros ev Hev. apply List.Forall_forall with (x := ev) in Hq.
  - by rewrite Hq.
  - done.
Qed.

Lemma searches_app t1 t2 : searches (t1 ++ t2) = searches t1 ++ searches t2.
Proof. apply List.filter_app. Qed.

Lemma searches_none evs :
  forallb (fun ev => negb (is_search ev)) evs = true -> searches evs = [].
Proof.
  induction evs as [|ev evs IH]; [done|]. simpl.
  intros [Hev Hevs]%andb_prop. destruct (is_search ev); [done|]. by apply IH.
Qed.

Section WithRuntime.
Context {rt : Runtime}.

#[local] Abbreviation no_search := (only (fun ev => negb (is_search ev))).

Lemma no_search_urlopen w u : no_search (urlopen w u).
Proof. intros st. by exists [HttpGet u]. Qed.

Lemma no_search_print_rss rss max : no_search (print_rss rss max).
Proof.
  unfold print_rss. destruct (truthy _); [by apply only_print|].
  apply only_bind; [apply only_lift|]. intros items.
  apply only_for_enumerate. intros j x. unfold print_rss_item.
  apply only_bind; [apply only_lift|]. intros d. by apply only_print.
Qed.

Lemma no_search_fetch_rss w : no_search (fetch_gb_daily_rss w).
Proof.
  apply only_bind; [apply no_search_urlopen|]. intros outcome. apply only_ret.
Qed.

Lemma no_search_realtime_block w max : no_search (realtime_block w max).
Proof.
  unfold realtime_block.
  apply only_bind; [by apply only_print|]. intros _.
  apply only_bind.
  { apply only_bind; [apply no_search_urlopen|]. intros outcome. apply only_ret. }
  intros rt_dict. destruct (truthy _).
  - apply only_bind; [by apply only_print|]. intros _.
    apply only_bind; [by apply only_print|]. intros _.
    apply only_bind; [apply no_search_fetch_rss|]. intros rss.
    apply no_search_print_rss.
  - apply only_bind; [apply only_lift|]. intros items.
    apply only_for_enumerate. intros j x. unfold print_realtime_item.
    apply only_bind; [apply only_lift|]. intros d.
    apply only_bind.
    { destruct (truthy _); [|apply only_ret].
      apply only_bind; [apply only_lift|]. intros joined. apply only_ret. }
    intros extra. by apply only_print.
Qed.

Lemma no_search_rss_block w max : no_search (rss_block w max).
Proof.
  unfold rss_block. apply only_bind; [by apply only_print|]. intros _.
  apply only_bind; [apply no_search_fetch_rss|]. intros rss.
  apply no_search_print_rss.
Qed.

Lemma no_search_print_results items : no_search (print_results items).
Proof.
  induction items as [|item items IH]; simpl; [apply (only_ret _ tt)|].
  apply only_bind; [|by intros _]. unfold print_result.
  destruct (format_result_line item); by apply only_print.
Qed.

Lemma no_search_after_realtime w args resp : no_search (after_realtime w args resp).
Proof.
  unfold after_realtime, after_rss.
  apply only_bind; [apply only_when, no_search_rss_block|]. intros _.
  apply only_bind.
  { apply only_unless. unfold results_block.
    apply only_bind; [by apply only_print|]. intros _.
    destruct (negb _); [by apply only_print|].
    apply only_bind; [apply only_lift|]. intros items.
    apply no_search_print_results. }
  intros _. apply only_bind.
  { destruct (out args) as [path|]; [|apply (only_ret _ tt)]. unfold out_block.
    apply only_bind; [by apply only_file_op|]. intros _.
    apply only_bind; [apply only_lift|]. intros text.
    apply only_bind; [by apply only_file_op|]. intros _. by apply only_print. }
  intros _. apply only_bind; [|intros _; apply only_ret].
  apply only_when. unfold json_block. apply only_bind; [by apply only_print|]. intros _.
  apply only_bind; [apply only_lift|]. intros text. by apply only_print.
Qed.

(** *** The search *)

Lemma api_key_of_getenv (env : gmap string string) :
  let api_key := py_or (getenv "PPLX_API_KEY" env) (getenv "PERPLEXITY_API_KEY" env) in
  match api_key_of env with
  | Some k => truthy api_key = true /\ py_str api_key = k
  | None => truthy api_key = false
  end.
Proof.
  unfold api_key_of, py_or, getenv.
  destruct (env !! "PPLX_API_KEY") as [[|c k]|];
    destruct (env !! "PERPLEXITY_API_KEY") as [[|c' k']|]; done.
Qed.

Lemma guarded_search_run w args st :
  guarded_search w args st
  = match api_key_of (environ st) with
    | None =>
        (Ok (VDict []),
         extend st [Print ("Error calling Perplexity Search API: " +:+ missing_key)])
    | Some k =>
        match sdk_search w k (query args) (max_results args) with
        | Ok resp => (Ok resp, extend st [Search k (query args) (max_results args)])
        | Raise e =>
            (Ok (VDict []),
             extend st [Search k (query args) (max_results args);
                        Print ("Error calling Perplexity Search API: " +:+ exn_str e)])
        end
    end.
Proof.
  unfold guarded_search, try_with, call_perplexity_search.
  pose proof (api_key_of_getenv (environ st)) as Hkey. cbv zeta in Hkey.
  destruct (api_key_of (environ st)) as [k|].
  - destruct Hkey as [-> ->]. cbn [negb].
    destruct (sdk_search w k (query args) (max_results args)) as [resp|e]; [done|].
    unfold mbind, M_bind, print, emit, mret, M_ret, extend. simpl.
    by rewrite <- app_assoc.
  - by rewrite Hkey.
Qed.

Lemma main_search w args st :
  main w args st
  = (resp ← guarded_search w args;
     _ ← when (realtime_in_effect args) (realtime_block w (max_results args));
     after_realtime w args resp)
      {| environ := load_env_file (dotenv w) (environ st); trace := trace st |}.
Proof. apply main_unfold. Qed.

(** *** Lines *)

Lemma print_results_run items st :
  print_results items st = (Ok tt, extend st ((fun item => Print (result_line item)) <$> items)).
Proof.
  revert st. induction items as [|item items IH]; intros st.
  - by rewrite extend_nil.
  - cbn [print_results].
    assert (Hitem : print_result item st = (Ok tt, extend st [Print (result_line item)])).
    { unfold print_result, result_line. by destruct (format_result_line item). }
    erewrite bind_ok by exact Hitem. by rewrite IH, extend_extend.
Qed.

Lemma for_enumerate_prints {A : Type} (f : nat -> A -> string)
  (body : nat -> A -> M unit) :
  (forall j x st, body j x st = (Ok tt, extend st [Print (f j x)])) ->
  forall i xs st,
    for_enumerate i xs body st
    = (Ok tt, extend st (Print <$> imap (fun k x => f (i + k)%nat x) xs)).
Proof.
  intros Hbody i xs. revert i. induction xs as [|x xs IH]; intros i st.
  - by rewrite extend_nil.
  - cbn [for_enumerate]. erewrite bind_ok by apply Hbody.
    rewrite IH, extend_extend. cbn [imap fmap list_fmap app].
    rewrite Nat.add_0_r. do 4 f_equal. apply imap_ext. intros k y _. simpl.
    f_equal. lia.
Qed.

Lemma slice_to_fmap {A B : Type} (f : A -> B) n (xs : list A) :
  slice_to n (f <$> xs) = f <$> slice_to n xs.
Proof. unfold slice_to. rewrite length_fmap. by destruct (0 <=? n); rewrite fmap_take. Qed.

Lemma print_rss_item_run i it st :
  print_rss_item i (rss_item_dict it) st = (Ok tt, extend st [Print (rss_line i it)]).
Proof.
  unfold print_rss_item, rss_item_dict, rss_line, or_empty.
  generalize (strip (default "" (entry_title it))),
             (strip (default "" (entry_approx_traffic it))),
             (strip (default "" (entry_pub_date it))).
  intros t a d. cbn [lift as_dict]. erewrite bind_ok by reflexivity.
  change (dict_get "title" _) with (VStr t).
  change (dict_get "approx_traffic" _) with (VStr a).
  change (dict_get "pub_date" _) with (VStr d).
  unfold py_or, print, emit, extend. cbn [truthy].
  destruct (String.eqb t "") eqn:Ht, (String.eqb a "") eqn:Ha, (String.eqb d "") eqn:Hd;
    cbn [negb py_str truthy String.eqb]; rewrite ?Ht, ?Ha, ?Hd;
    cbn [negb py_str truthy String.eqb];
    do 4 f_equal; rewrite ?str_app_assoc, ?str_app_nil_r; reflexivity.
Qed.

Lemma no_search_rest w args resp :
  no_search (_ ← when (realtime_in_effect args) (realtime_block w (max_results args));
             after_realtime w args resp).
Proof.
  apply only_bind; [apply only_when, no_search_realtime_block|]. intros _.
  apply no_search_after_realtime.
Qed.

Lemma collect_invariant (P : value -> Prop) xs body items :
  (forall x acc acc', Forall P acc -> body x acc = Ok acc' -> Forall P acc') ->
  Forall P items -> Forall P (collect xs body items).
Proof.
  intros Hbody. revert items. induction xs as [|x xs IH]; intros items Hitems; [done|].
  cbn [collect]. destruct (body x items) as [items'|e] eqn:Hx; [|done].
  apply IH. by eapply Hbody.
Qed.

Lemma realtime_story_item s items items' :
  Forall realtime_item items -> realtime_story s items = Ok items' ->
  Forall realtime_item items'.
Proof.
  unfold realtime_story. intros Hitems Hstory.
  destruct (as_dict s) as [d|]; [|done]. cbn [mbind result_bind] in Hstory.
  destruct (value_strip _) as [title|]; [|done]. cbn [mbind result_bind] in Hstory.
  match type of Hstory with
  | (?m ≫= _) = _ => destruct m as [label|]; [|done]
  end.
  cbn [mbind result_bind] in Hstory. injection Hstory as <-.
  apply Forall_app_2; [done|]. constructor; [|constructor]. by eexists _, _, _.
Qed.

Lemma realtime_search_item t items items' :
  Forall realtime_item items -> realtime_search t items = Ok items' ->
  Forall realtime_item items'.
Proof.
  unfold realtime_search. intros Hitems Hsearch.
  destruct (as_dict t) as [d|]; [|done]. cbn [mbind result_bind] in Hsearch.
  destruct (as_dict (default _ _)) as [title|]; [|done].
  cbn [mbind result_bind] in Hsearch. injection Hsearch as <-.
  apply Forall_app_2; [done|]. constructor; [|constructor]. by eexists _, _, _.
Qed.

Lemma length_slice_to {A : Type} n (xs : list A) :
  0 <= n -> (length (slice_to n xs) <= Z.to_nat n)%nat.
Proof.
  intros Hn. unfold slice_to. destruct (Z.leb_spec 0 n); [|lia].
  rewrite length_take. lia.
Qed.

Lemma Forall_slice_to {A : Type} (P : A -> Prop) n (xs : list A) :
  Forall P xs -> Forall P (slice_to n xs).
Proof. intros Hxs. unfold slice_to. destruct (0 <=? n); by apply Forall_take. Qed.

(** *** The file of [--out] and the dump of [--print-json] *)




(** *** The properties *)


(** X17. The SDK is called at most once in a run: once, first of all and
    with the first of [PPLX_API_KEY] and [PERPLEXITY_API_KEY] that is set
    and not empty once [.env] is loaded, or not at all when there is no
    such key, in which case the run starts by printing that the key is
    missing. *)
Theorem sdk_called_at_most_once (w : World) (args : Args) (env : gmap string string) :
  let t := trace (run w args env).2 in
  match api_key_of (load_env_file (dotenv w) env) with
  | Some k =>
      searches t = [Search k (query args) (max_results args)] /\
      head t = Some (Search k (query args) (max_results args))
  | None =>
      searches t = [] /\
      head t = Some (Print ("Error calling Perplexity Search API: " +:+ missing_key))
  end.
Proof.
  intros t. subst t. unfold run. rewrite main_search. cbn [environ trace].
  set (st := {| environ := load_env_file (dotenv w) env; trace := [] |}).
  pose proof (guarded_search_run w args st) as Hsearch. cbn [environ st] in Hsearch.
  destruct (api_key_of (load_env_file (dotenv w) env)) as [k|].
  - destruct (sdk_search w k (query args) (max_results args)) as [resp|e];
      erewrite bind_ok by exact Hsearch;
      match goal with |- context [mbind ?f ?m ?st0] =>
        destruct (only_run _ (mbind f m) st0 (no_search_rest w args _))
          as (r & evs & Hevs & ->)
      end; cbn [snd extend trace app]; rewrite !searches_app, (searches_none _ Hevs);
      done.
  - erewrite bind_ok by exact Hsearch.
    match goal with |- context [mbind ?f ?m ?st0] =>
      destruct (only_run _ (mbind f m) st0 (no_search_rest w args _))
        as (r & evs & Hevs & ->)
    end. cbn [snd extend trace app]. rewrite !searches_app, (searches_none _ Hevs).
    done.
Qed.

(** X18. The list of results is printed without an exception leaving it:
    after the header comes one line per result, in order, an item that
    cannot be formatted being printed as it is; results that count as
    false give the line that none was returned, and results that cannot be
    iterated raise after the header. *)
Theorem results_block_lines (results : value) (st : State) :
  results_block results st
  = if negb (truthy results)
    then (Ok tt, extend st [Print results_header; Print "(No results returned)"])
    else match py_iter results with
         | Ok items =>
             (Ok tt, extend st (Print results_header
                                :: ((fun item => Print (result_line item)) <$> items)))
         | Raise e => (Raise e, extend st [Print results_header])
         end.
Proof.
  unfold results_block. erewrite bind_ok by apply print_run.
  destruct (negb (truthy results)).
  - by rewrite print_run, extend_extend.
  - destruct (py_iter results) as [items|e]; [|done].
    cbn [lift]. erewrite bind_ok by reflexivity.
    by rewrite print_results_run, extend_extend.
Qed.

(** X19. What the realtime fetch makes of an answer is an error with a
    message that is not empty, or a list of items each with a label, its
    entities and its start, and no more items than asked for. *)
Theorem realtime_result_shape (outcome : http_outcome) (max_items : Z) :
  (exists msg, realtime_result outcome max_items = [("error", VStr msg)] /\ msg <> "") \/
  (exists items,
     realtime_result outcome max_items = [("items", VList items)] /\
     Forall realtime_item items /\
     (0 <= max_items -> (length items <= Z.to_nat max_items)%nat)).
Proof.
  destruct outcome as [e|e|raw]; [left; by eexists..|]. cbn [realtime_result].
  destruct (json_loads _) as [data|e]; [|left; by eexists].
  right. eexists. split; [reflexivity|]. split; [|apply length_slice_to].
  apply Forall_slice_to.
  assert (Hstories : Forall realtime_item
            match realtime_stories data with
            | Ok stories => collect stories realtime_story []
            | Raise _ => []
            end).
  { destruct (realtime_stories data); [|constructor].
    apply collect_invariant; [apply realtime_story_item | constructor]. }
  destruct (match realtime_stories data with Ok _ => _ | Raise _ => _ end); [|done].
  destruct (realtime_searches data); [|constructor].
  apply collect_invariant; [apply realtime_search_item | constructor].
Qed.

(** X20. The anti-CSRF prefix and the line feed after it are dropped before
    the body is parsed: a prefixed body gives what the body alone gives. *)
Theorem realtime_prefix_dropped (body : string) (max_items : Z) :
  lstrip body = body ->
  startswith body anti_csrf_prefix = false ->
  realtime_result (HttpBody (anti_csrf_prefix +:+ newline +:+ body)) max_items
  = realtime_result (HttpBody body) max_items.
Proof.
  intros Hbody Hprefix. cbn [realtime_result]. rewrite Hprefix.
  change (startswith (anti_csrf_prefix +:+ newline +:+ body) anti_csrf_prefix) with true.
  cbv iota.
  change (str_drop (String.length anti_csrf_prefix) (anti_csrf_prefix +:+ newline +:+ body))
    with (String "010" body).
  assert (lstrip (String "010" body) = lstrip body) as ->; [|by rewrite Hbody].
  unfold lstrip. by rewrite code_points_cons.
Qed.

(** X21. A run makes at most three requests, in this order: the realtime
    one when the realtime source is in effect, the RSS one of the
    fallback when that fetch returned an error, and the RSS one of
    [--include-rss]. *)
Theorem requests_of_run (w : World) (args : Args) (env : gmap string string) :
  let rt_dict := realtime_result (http w 0 realtime_url) (max_results args) in
  let reqs := requests (trace (run w args env).2) in
  (exists tail,
     reqs = (if realtime_in_effect args
             then realtime_url
                  :: (if truthy (dict_get "error" rt_dict) then [rss_url] else [])
             else []) ++ tail /\
     (tail = [] \/ include_rss args = true /\ tail = [rss_url])) /\
  (length reqs <= 3)%nat.
Proof.
  intros rt_dict reqs. subst reqs.
  destruct (run_trace w args env) as (q0 & qR & rest & Hq0 & HqR & Hrest & ->).
  fold rt_dict.
  assert (Htail : exists tail, requests rest = tail /\
            (tail = [] \/ include_rss args = true /\ tail = [rss_url])).
  { destruct Hrest as [->|(S & q & Hq & -> & [->|(Hrss & qS & HqS & ->)])].
    - exists []. by split; [|left].
    - exists []. split; [|by left]. simpl. by apply quiet_requests.
    - exists [rss_url]. split; [|by right].
      change ((Print rss_header :: HttpGet rss_url :: qS) ++ q)
        with ([Print rss_header; HttpGet rss_url] ++ (qS ++ q)).
      by rewrite !requests_app, (quiet_requests qS), (quiet_requests q). }
  destruct Htail as (tail & Htail & Hcases).
  assert (Hreqs : requests
      (q0 ++
       (if realtime_in_effect args
        then Print realtime_header :: HttpGet realtime_url
             :: (if truthy (dict_get "error" rt_dict)
                 then Print (py_str (dict_get "error" rt_dict))
                      :: Print falling_back :: HttpGet rss_url :: qR
                 else qR)
        else []) ++ rest)
    = (if realtime_in_effect args
       then realtime_url :: (if truthy (dict_get "error" rt_dict) then [rss_url] else [])
       else []) ++ tail).
  { rewrite !requests_app, (quiet_requests q0 Hq0), Htail. cbn [app]. f_equal.
    destruct (realtime_in_effect args); [|done].
    destruct (truthy (dict_get "error" rt_dict)).
    - change (Print realtime_header :: HttpGet realtime_url
              :: Print (py_str (dict_get "error" rt_dict))
              :: Print falling_back :: HttpGet rss_url :: qR)
        with ([Print realtime_header; HttpGet realtime_url;
               Print (py_str (dict_get "error" rt_dict));
               Print falling_back; HttpGet rss_url] ++ qR).
      by rewrite requests_app, (quiet_requests qR HqR).
    - change (Print realtime_header :: HttpGet realtime_url :: qR)
        with ([Print realtime_header; HttpGet realtime_url] ++ qR).
      by rewrite requests_app, (quiet_requests qR HqR). }
  rewrite Hreqs. split; [by exists tail|].
  rewrite length_app.
  assert (length tail <= 1)%nat by (by destruct Hcases as [->|[_ ->]]; simpl; lia).
  destruct (realtime_in_effect args), (truthy (dict_get "error" rt_dict)); simpl; lia.
Qed.

(** X22. The RSS block never raises. After its header and its one request
    it prints the error of the fetch, or one numbered line per entry of
    the feed, up to the number asked for: the title or a placeholder, then
    the traffic and the date when the entry has them. *)
Theorem rss_block_lines (w : World) (max : Z) (st : State) :
  exists lines,
    rss_block w max st
    = (Ok tt, extend st (Print rss_header :: HttpGet rss_url :: (Print <$> lines))) /\
    match http w (requests_made st) rss_url with
    | HttpURLError e => lines = ["Failed to fetch RSS: " +:+ e]
    | HttpOtherError e => lines = ["Unexpected error fetching RSS: " +:+ e]
    | HttpBody data =>
        match rss_xml w data with
        | Raise e => lines = ["Failed to parse RSS XML: " +:+ exn_str e]
        | Ok channel =>
            lines = imap (fun k it => rss_line (S k) it) (slice_to max (default [] channel))
        end
    end.
Proof.
  unfold rss_block.
  erewrite bind_ok by apply print_run.
  erewrite bind_ok by apply fetch_gb_daily_rss_run.
  rewrite (requests_made_quiet st [Print _]) by (by repeat constructor).
  assert (Herror : forall msg st0,
    print_rss [("error", VStr ("F" +:+ msg))] max st0
    = (Ok tt, extend st0 [Print ("F" +:+ msg)])) by done.
  destruct (http w (requests_made st) rss_url) as [e|e|data]; cbn [rss_result].
  - eexists. split; [|reflexivity].
    change ("Failed to fetch RSS: " +:+ e) with ("F" +:+ ("ailed to fetch RSS: " +:+ e)).
    by rewrite Herror, !extend_extend.
  - eexists. split; [|reflexivity]. unfold print_rss.
    change (truthy (dict_get "error" _)) with true. cbv iota.
    by rewrite print_run, !extend_extend.
  - destruct (rss_xml w data) as [channel|e].
    + eexists. split; [|reflexivity]. unfold print_rss.
      change (truthy (dict_get "error" _)) with false. cbv iota.
      assert (Hitems : forall items,
        py_iter (py_or (dict_get "items" [("source", VStr rss_url); ("items", VList items)])
                       (VList [])) = Ok items) by (by intros []).
      rewrite Hitems. cbn [lift]. erewrite bind_ok by reflexivity.
      assert (Hchannel : match channel with
                         | Some its => rss_item_dict <$> its
                         | None => []
                         end = rss_item_dict <$> default [] channel) by (by destruct channel).
      rewrite Hchannel, slice_to_fmap.
      generalize (slice_to max (default [] channel)). intros its.
      assert (Hloop : forall i (its : list RssEntry) st0,
        for_enumerate i (rss_item_dict <$> its) print_rss_item st0
        = (Ok tt, extend st0 (Print <$> imap (fun k it => rss_line (i + k)%nat it) its))).
      { clear. intros i its. revert i. induction its as [|it its IH]; intros i st0.
        - by rewrite extend_nil.
        - rewrite fmap_cons. cbn [for_enumerate].
          erewrite bind_ok by apply print_rss_item_run.
          rewrite IH, extend_extend. cbn [imap fmap list_fmap app].
          rewrite Nat.add_0_r. do 4 f_equal. apply imap_ext. intros k y _. simpl.
          f_equal. lia. }
      by rewrite Hloop, !extend_extend.
    + eexists. split; [|reflexivity].
      change ("Failed to parse RSS XML: " +:+ exn_str e)
        with ("F" +:+ ("ailed to parse RSS XML: " +:+ exn_str e)).
      by rewrite Herror, !extend_extend.
Qed.

End WithRuntime.

(** The theorems in the worlds of module [Example]. *)


Lemma realtime_prefix_dropped_witness :
  realtime_result (rt := Ref.runtime)
    (HttpBody (anti_csrf_prefix +:+ newline +:+ "{}")) 5
  = realtime_result (rt := Ref.runtime) (HttpBody "{}") 5.
Proof.
  apply (realtime_prefix_dropped (rt := Ref.runtime)); vm_compute; reflexivity.
Defined.

End MoreTrendsRun.

(** ** The run of the analysis *)

Module MainFacts.
Import Py Analyze AnalyzeMain MainSpec.

Lemma ext_nil st : extend st [] = st.
Proof. destruct st. unfold extend. simpl. by rewrite app_nil_r. Qed.

Lemma ext_ext st evs1 evs2 :
  extend (extend st evs1) evs2 = extend st (evs1 ++ evs2).
Proof. unfold extend. simpl. by rewrite app_assoc. Qed.

Lemma bind_returns {A B : Type} (m : M A) (k : A -> M B) st a st' :
  m st = (Ok a, st') -> (m ≫= k) st = k a st'.
Proof. unfold mbind, M_bind. by intros ->. Qed.

Lemma bind_raises {A B : Type} (m : M A) (k : A -> M B) st e st' :
  m st = (Raise e, st') -> (m ≫= k) st = (Raise e, st').
Proof. unfold mbind, M_bind. by intros ->. Qed.

Lemma started_app t1 t2 : started (t1 ++ t2) = started t1 ++ started t2.
Proof. apply omap_app. Qed.

Lemma started_none evs :
  forallb (fun ev => negb (is_mkdir ev)) evs = true -> started evs = [].
Proof.
  induction evs as [|ev evs IH]; [done|]. simpl.
  intros [Hev Hevs]%andb_prop. unfold started in *. simpl.
  destruct ev; try done; by apply IH.
Qed.

(** *** Steps whose events satisfy a predicate *)

Section Only.
Context (P : event -> bool).

Lemma all_ret {A : Type} (a : A) : only P (mret a).
Proof. intros st. exists []. split; [done | by rewrite ext_nil]. Qed.

Lemma all_lift {A : Type} (r : result A) : only P (lift r).
Proof. intros st. exists []. split; [done | by rewrite ext_nil]. Qed.

Lemma all_bind {A B : Type} (m : M A) (k : A -> M B) :
  only P m -> (forall a, only P (k a)) -> only P (m ≫= k).
Proof.
  intros Hm Hk st. destruct (Hm st) as (q1 & Hq1 & Hst).
  destruct (m st) as [[a|e] st'] eqn:Hrun; simpl in Hst; subst st'.
  - rewrite (bind_returns _ _ _ _ _ Hrun).
    destruct (Hk a (extend st q1)) as (q2 & Hq2 & ->).
    exists (q1 ++ q2). split; [|apply ext_ext].
    by rewrite forallb_app, Hq1, Hq2.
  - rewrite (bind_raises _ _ _ _ _ Hrun). by exists q1.
Qed.

Lemma all_emit ev : P ev = true -> only P (emit ev).
Proof. intros Hev st. exists [ev]. split; [|done]. simpl. by rewrite Hev. Qed.

Lemma all_attempt ev answer : P ev = true -> only P (attempt ev answer).
Proof. intros Hev st. exists [ev]. split; [|done]. simpl. by rewrite Hev. Qed.

Lemma all_file_op w ev : P ev = true -> only P (file_op w ev).
Proof. intros Hev st. exists [ev]. split; [|done]. simpl. by rewrite Hev. Qed.

Lemma all_try_with {A : Type} (m : M A) (h : exn -> M A) :
  only P m -> (forall e, only P (h e)) -> only P (try_with m h).
Proof.
  intros Hm Hh st. unfold try_with. destruct (Hm st) as (q1 & Hq1 & Hst).
  destruct (m st) as [[a|e] st'] eqn:Hrun; simpl in Hst; subst st'.
  - by exists q1.
  - destruct (Hh e (extend st q1)) as (q2 & Hq2 & ->).
    exists (q1 ++ q2). split; [|apply ext_ext].
    by rewrite forallb_app, Hq1, Hq2.
Qed.

Lemma all_when b (m : M unit) : only P m -> only P (when b m).
Proof. intros Hm. destruct b; [done | apply (all_ret tt)]. Qed.

Lemma all_run {A : Type} (m : M A) st :
  only P m -> exists r evs, forallb P evs = true /\ m st = (r, extend st evs).
Proof.
  intros Hm. destruct (Hm st) as (evs & Hevs & Hst).
  exists (m st).1, evs. split; [done|]. rewrite <- Hst. by destruct (m st).
Qed.

End Only.

Section WithRuntime.
Context {rt : Runtime}.

(** *** After its directory is made, a result makes no other *)

Lemma no_mkdir_report w args res out_dir r :
  only (fun ev => negb (is_mkdir ev)) (report w args res out_dir r).
Proof.
  unfold report.
  apply all_bind; [by apply all_file_op|]. intros _.
  apply all_bind; [by apply all_when, all_file_op|]. intros _.
  apply all_bind; [by apply all_emit|]. intros _.
  apply all_bind; [by apply all_emit|]. intros _.
  apply all_when. apply all_bind; [by apply all_emit|]. intros _.
  by apply all_emit.
Qed.

Lemma no_mkdir_call w messages model :
  only (fun ev => negb (is_mkdir ev)) (call_perplexity w messages model).
Proof.
  intros st. unfold call_perplexity. destruct (negb _).
  - exists []. split; [done | by rewrite ext_nil].
  - eexists [_]. split; [|reflexivity]. done.
Qed.

Lemma process_result_unfold w args index res :
  process_result w args index res
  = (context ← lift (build_context_for_result res
                       (default ∅ (index !! quiz_link_id res)));
     _ ← file_op w (Mkdir (dir_of args res));
     after_mkdir w args res (build_prompt_messages (context_dict context))).
Proof. done. Qed.

Lemma no_mkdir_after_mkdir w args res messages :
  only (fun ev => negb (is_mkdir ev)) (after_mkdir w args res messages).
Proof.
  unfold after_mkdir.
  apply all_bind; [by apply all_file_op|]. intros _.
  apply all_bind.
  { intros st. exists []. split; [done | by rewrite ext_nil]. }
  intros do_call. apply all_bind.
  { destruct do_call.
    - apply all_try_with.
      + apply all_bind; [apply no_mkdir_call|]. intros r. apply all_ret.
      + intros e. apply all_bind; [by apply all_file_op|]. intros _. apply all_ret.
    - apply all_bind; [by apply all_file_op|]. intros _. apply all_ret. }
  intros response_json. apply all_bind.
  { destruct response_json as [r|]; [|apply (all_ret _ tt)].
    apply all_when, no_mkdir_report. }
  intros _. apply all_when. intros st. by exists [Sleep (sleep args)].
Qed.

(** A result makes its directory, and no other, unless its context cannot
    be built, and then it does nothing. *)
Lemma process_result_started w args index res st :
  exists r evs,
    process_result w args index res st = (r, extend st evs) /\
    (started evs = [dir_of args res] \/
     evs = [] /\ exists e, r = Raise e).
Proof.
  rewrite process_result_unfold.
  destruct (build_context_for_result res _) as [context|e] eqn:Hcontext.
  - cbn [lift]. erewrite bind_returns by reflexivity.
    destruct (fs_error w (trace st) (Mkdir (dir_of args res))) as [e|] eqn:Hmkdir.
    + erewrite bind_raises; [|unfold file_op, attempt; by rewrite Hmkdir].
      eexists _, [_]. split; [done|]. by left.
    + erewrite bind_returns; [|unfold file_op, attempt; by rewrite Hmkdir].
      match goal with |- context [after_mkdir w args res ?ms ?st0] =>
        destruct (all_run _ (after_mkdir w args res ms) st0
                    (no_mkdir_after_mkdir w args res ms)) as (r & evs & Hevs & ->)
      end.
      exists r, (Mkdir (dir_of args res) :: evs). split.
      * unfold extend. simpl. by rewrite <- app_assoc.
      * left. change (Mkdir (dir_of args res) :: evs) with ([Mkdir (dir_of args res)] ++ evs).
        by rewrite started_app, (started_none _ Hevs).
  - cbn [lift]. erewrite bind_raises by reflexivity.
    exists (Raise e), []. split; [by rewrite ext_nil|]. right. eauto.
Qed.

(** The loop makes the directories of the first results, within the
    limit. *)
Lemma process_results_started w args index rows processed st :
  0 <= processed ->
  exists n r evs,
    process_results w args index rows processed st = (r, extend st evs) /\
    started evs = dir_of args <$> take n rows /\
    (limit args <> 0 -> Z.of_nat n <= Z.max 0 (limit args - processed)).
Proof.
  revert processed st. induction rows as [|res rows IH]; intros processed st Hprocessed.
  - exists O, (Ok processed), []. rewrite ext_nil. split; [done|]. split; [done|]. lia.
  - cbn [process_results].
    destruct (negb (limit args =? 0) && (limit args <=? processed)) eqn:Hlimit.
    + exists O, (Ok processed), []. rewrite ext_nil. split; [done|]. split; [done|]. lia.
    + assert (Hroom : limit args <> 0 -> processed < limit args).
      { intros Hne. apply andb_false_iff in Hlimit as [Hz|Hle].
        - apply negb_false_iff, Z.eqb_eq in Hz. done.
        - apply Z.leb_gt in Hle. done. }
      destruct (process_result_started w args index res st)
        as (r1 & evs1 & Hrun1 & Hstarted).
      destruct r1 as [[]|e].
      * erewrite bind_returns by exact Hrun1.
        destruct (IH (processed + 1) (extend st evs1)) as (n & r & evs & -> & Hdirs & Hn);
          [lia|].
        destruct Hstarted as [Hdir|[_ [e He]]]; [|done].
        exists (S n), r, (evs1 ++ evs). rewrite ext_ext. split; [done|].
        split; [by rewrite started_app, Hdir, Hdirs|]. intros Hne.
        specialize (Hn Hne). specialize (Hroom Hne). lia.
      * erewrite bind_raises by exact Hrun1.
        destruct Hstarted as [Hdir|[-> _]].
        -- exists 1%nat, (Raise e), evs1. split; [done|]. split; [by rewrite Hdir|].
           intros Hne. specialize (Hroom Hne). lia.
        -- exists O, (Raise e), []. split; [done|]. split; [done|]. lia.
Qed.

(** *** A run that does not reach the API *)

Lemma file_name_join p name : file_name (join_path p name) = name.
Proof. unfold file_name, join_path. cbn [joined]. by rewrite last_snoc. Qed.

Lemma file_op_run w ev st :
  file_op w ev st
  = (match fs_error w (trace st) ev with
     | Some e => Raise e
     | None => Ok tt
     end, extend st [ev]).
Proof. done. Qed.

Lemma after_mkdir_offline w args res messages st :
  negb (dry_run args) && truthy (api_key (environ st)) = false ->
  exists evs, forallb offline evs = true /\
    (after_mkdir w args res messages st).2 = extend st evs.
Proof.
  intros Hoff. unfold after_mkdir.
  set (prompt := WriteText (join_path (dir_of args res) "prompt.json") _).
  set (skipped := WriteText (join_path (dir_of args res) "skipped_api_call.txt") _).
  assert (Hprompt : offline prompt = true).
  { unfold prompt. cbn [offline]. by rewrite file_name_join. }
  assert (Hskipped : offline skipped = true).
  { unfold skipped. cbn [offline]. by rewrite file_name_join. }
  destruct (fs_error w (trace st) prompt) as [e|] eqn:Hwrite.
  - erewrite bind_raises by (rewrite file_op_run, Hwrite; reflexivity).
    exists [prompt]. split; [|done]. cbn [forallb]. by rewrite Hprompt.
  - erewrite bind_returns by (rewrite file_op_run, Hwrite; reflexivity).
    erewrite bind_returns; [|cbn [extend environ]; rewrite Hoff; reflexivity].
    destruct (fs_error w (trace (extend st [prompt])) skipped) as [e|] eqn:Hnote.
    + erewrite bind_raises.
      2:{ erewrite bind_raises; [reflexivity|]. rewrite file_op_run, Hnote. reflexivity. }
      exists [prompt; skipped]. split; [|by rewrite ext_ext].
      cbn [forallb]. by rewrite Hprompt, Hskipped.
    + erewrite bind_returns.
      2:{ erewrite bind_returns; [reflexivity|]. rewrite file_op_run, Hnote. reflexivity. }
      erewrite bind_returns by reflexivity.
      rewrite andb_false_r. cbn [when mret M_ret snd].
      exists [prompt; skipped]. split; [|by rewrite ext_ext].
      cbn [forallb]. by rewrite Hprompt, Hskipped.
Qed.

Lemma process_result_offline w args index res st :
  negb (dry_run args) && truthy (api_key (environ st)) = false ->
  exists evs, forallb offline evs = true /\
    (process_result w args index res st).2 = extend st evs.
Proof.
  intros Hoff. rewrite process_result_unfold.
  destruct (build_context_for_result res _) as [context|e].
  - cbn [lift]. erewrite bind_returns by reflexivity.
    destruct (fs_error w (trace st) (Mkdir (dir_of args res))) as [e|] eqn:Hmkdir.
    + erewrite bind_raises by (rewrite file_op_run, Hmkdir; reflexivity).
      by exists [Mkdir (dir_of args res)].
    + erewrite bind_returns by (rewrite file_op_run, Hmkdir; reflexivity).
      match goal with |- context [after_mkdir w args res ?ms ?st0] =>
        destruct (after_mkdir_offline w args res ms st0 Hoff) as (evs & Hevs & ->)
      end.
      exists (Mkdir (dir_of args res) :: evs). split; [done|].
      by rewrite ext_ext.
  - cbn [lift]. erewrite bind_raises by reflexivity.
    exists []. split; [done | by rewrite ext_nil].
Qed.

Lemma process_results_offline w args index rows processed st :
  negb (dry_run args) && truthy (api_key (environ st)) = false ->
  exists evs, forallb offline evs = true /\
    (process_results w args index rows processed st).2 = extend st evs.
Proof.
  intros Hoff. revert processed st Hoff.
  induction rows as [|res rows IH]; intros processed st Hoff.
  - exists []. split; [done | by rewrite ext_nil].
  - cbn [process_results].
    destruct (negb (limit args =? 0) && (limit args <=? processed)).
    + exists []. split; [done | by rewrite ext_nil].
    + destruct (process_result_offline w args index res st Hoff) as (evs1 & Hevs1 & Hst).
      destruct (process_result w args index res st) as [[[]|e] st1] eqn:Hrun;
        cbn [snd] in Hst; subst st1.
      * erewrite bind_returns by exact Hrun.
        destruct (IH (processed + 1) (extend st evs1) Hoff) as (evs & Hevs & ->).
        exists (evs1 ++ evs). split; [|apply ext_ext].
        by rewrite forallb_app, Hevs1, Hevs.
      * erewrite bind_raises by exact Hrun. by exists evs1.
Qed.

(** *** A run in which nothing but the SDK fails *)






Section NoFailure.
Context (w : World) (args : Args).
Hypothesis Hfs : forall t ev, fs_error w t ev = None.
Hypothesis Hsleep : sleep_error w (sleep args) = None.






End NoFailure.

Lemma main_steps w args st :
  main w args st
  = (if negb (path_exists w (quizzes args)) then
       _ ← emit (PrintErr ("Quizzes file not found: " +:+ path_str w (quizzes args)));
       mret 1
     else if negb (path_exists w (results args)) then
       _ ← emit (PrintErr ("Results file not found: " +:+ path_str w (results args)));
       mret 1
     else
       _ ← file_op w (Mkdir (output_dir args));
       index ← lift (load_quizzes_file w (quizzes args));
       rows ← lift (load_results_file w (results args));
       processed ← process_results w args index rows 0;
       _ ← print (processed_line_of w args processed);
       mret 0)
      {| environ := load_env_file (dotenv w) (environ st); trace := trace st |}.
Proof. done. Qed.

Lemma last_line_run (line : string) (status : Z) st :
  (_ ← print line; mret status) st = (Ok status, extend st [Print line]).
Proof. done. Qed.

(** *** The properties *)

(** X23. When the table of quizzes or the table of results is missing, the
    run ends with status 1 after one line on the standard error that
    names the first missing table; it makes no directory, writes no file
    and calls no API. *)
Theorem missing_input_ends_run (w : World) (args : Args) (env : gmap string string) :
  path_exists w (quizzes args) && path_exists w (results args) = false ->
  run w args env
  = (Ok 1,
     {| environ := load_env_file (dotenv w) env;
        trace := [PrintErr
                    (if path_exists w (quizzes args)
                     then "Results file not found: " +:+ path_str w (results args)
                     else "Quizzes file not found: " +:+ path_str w (quizzes args))] |}).
Proof.
  intros Hmissing. unfold run. rewrite main_steps. cbn [environ trace].
  destruct (path_exists w (quizzes args)); [|done].
  by destruct (path_exists w (results args)).
Qed.

(** X24. A dry run, and a run without an API key once [.env] is loaded,
    does not reach the API: it makes no request and no pause, and the
    only files it writes are prompts and notes that the call was
    skipped. *)
Theorem offline_run (w : World) (args : Args) (env : gmap string string) :
  dry_run args = true \/ truthy (api_key (load_env_file (dotenv w) env)) = false ->
  forallb offline (trace (run w args env).2) = true.
Proof.
  intros Hoff. unfold run. rewrite main_steps. cbn [environ trace].
  set (st := {| environ := load_env_file (dotenv w) env; trace := [] |}).
  assert (Hst : negb (dry_run args) && truthy (api_key (environ st)) = false).
  { cbn [st environ]. destruct Hoff as [->| ->]; [done | apply andb_false_r]. }
  destruct (negb (path_exists w (quizzes args))); [done|].
  destruct (negb (path_exists w (results args))); [done|].
  destruct (fs_error w (trace st) (Mkdir (output_dir args))) as [e|] eqn:Hmkdir.
  { erewrite bind_raises by (rewrite file_op_run, Hmkdir; reflexivity). done. }
  erewrite bind_returns by (rewrite file_op_run, Hmkdir; reflexivity).
  destruct (load_quizzes_file w (quizzes args)) as [index|e]; [|done].
  cbn [lift]. erewrite bind_returns by reflexivity.
  destruct (load_results_file w (results args)) as [rows|e]; [|done].
  erewrite bind_returns by reflexivity.
  destruct (process_results_offline w args index rows 0
              (extend st [Mkdir (output_dir args)]) Hst) as (evs & Hevs & Hrun).
  destruct (process_results w args index rows 0 (extend st [Mkdir (output_dir args)]))
    as [[processed|e] st1] eqn:Hloop; cbn [snd] in Hrun; subst st1.
  - erewrite bind_returns by exact Hloop.
    rewrite last_line_run, !ext_ext. cbn [snd extend trace st].
    by rewrite app_nil_l, !forallb_app, Hevs.
  - erewrite bind_raises by exact Hloop. rewrite !ext_ext.
    cbn [snd extend trace st]. by rewrite app_nil_l, forallb_app, Hevs.
Qed.

(** X25. The run makes the output directory and then the directories of
    the first results, in order, one per result it takes up: no more than
    the limit when the limit is not zero, and none when it is negative. *)
Theorem limit_bounds_processing (w : World) (args : Args) (env : gmap string string)
  (rows : list ResultRecord) :
  path_exists w (quizzes args) = true ->
  path_exists w (results args) = true ->
  load_results_file w (results args) = Ok rows ->
  exists n,
    started (trace (run w args env).2)
    = output_dir args :: (dir_of args <$> take n rows) /\
    (limit args <> 0 -> Z.of_nat n <= Z.max 0 (limit args)).
Proof.
  intros Hquizzes Hresults Hrows. unfold run. rewrite main_steps. cbn [environ trace].
  rewrite Hquizzes, Hresults. cbn [negb].
  set (st := {| environ := load_env_file (dotenv w) env; trace := [] |}).
  destruct (fs_error w (trace st) (Mkdir (output_dir args))) as [e|] eqn:Hmkdir.
  { erewrite bind_raises by (rewrite file_op_run, Hmkdir; reflexivity).
    exists O. split; [done | lia]. }
  erewrite bind_returns by (rewrite file_op_run, Hmkdir; reflexivity).
  destruct (load_quizzes_file w (quizzes args)) as [index|e].
  2:{ exists O. split; [done | lia]. }
  cbn [lift]. erewrite bind_returns by reflexivity. rewrite Hrows.
  erewrite bind_returns by reflexivity.
  destruct (process_results_started w args index rows 0
              (extend st [Mkdir (output_dir args)])) as (n & r & evs & Hrun & Hdirs & Hn);
    [lia|].
  exists n. split; [|by rewrite Z.sub_0_r in Hn].
  destruct r as [processed|e].
  - erewrite bind_returns by exact Hrun.
    rewrite last_line_run, !ext_ext. cbn [snd extend trace st].
    rewrite app_nil_l, !started_app, Hdirs. cbn. by rewrite app_nil_r.
  - erewrite bind_raises by exact Hrun. rewrite !ext_ext.
    cbn [snd extend trace st]. by rewrite app_nil_l, started_app, Hdirs.
Qed.


End WithRuntime.

(** The theorems in the worlds of the examples. *)

Lemma missing_input_ends_run_witness :
  run (rt := Ref.runtime) MoreExample.no_quizzes_world MoreExample.analysis_args ∅
  = (Ok 1, {| environ := ∅;
              trace := [PrintErr "Quizzes file not found: quizzes.csv"] |}).
Proof.
  exact (missing_input_ends_run (rt := Ref.runtime)
           MoreExample.no_quizzes_world MoreExample.analysis_args ∅ eq_refl).
Defined.

Lemma offline_run_witness :
  forallb offline
    (trace (run (rt := Ref.runtime) MoreExample.analysis_world
              MoreExample.dry_run_args Example.preset_env).2) = true.
Proof.
  apply (offline_run (rt := Ref.runtime)). left. reflexivity.
Defined.

Lemma limit_bounds_processing_witness :
  exists rows n,
    load_results_file (rt := Ref.runtime) MoreExample.analysis_world
      (results MoreExample.dry_run_args) = Ok rows /\
    length rows = 2%nat /\
    started (trace (run (rt := Ref.runtime) MoreExample.analysis_world
                      MoreExample.dry_run_args Example.preset_env).2)
    = output_dir MoreExample.dry_run_args
      :: (dir_of MoreExample.dry_run_args <$> take n rows) /\
    Z.of_nat n <= 1.
Proof.
  destruct (load_results_file (rt := Ref.runtime) MoreExample.analysis_world
              (results MoreExample.dry_run_args)) as [rows|e] eqn:Hrows;
    [|vm_compute in Hrows; discriminate Hrows].
  destruct (limit_bounds_processing (rt := Ref.runtime) MoreExample.analysis_world
              MoreExample.dry_run_args Example.preset_env rows eq_refl eq_refl Hrows)
    as (n & Hstarted & Hn).
  exists rows, n. split; [reflexivity|]. split.
  - vm_compute in Hrows. injection Hrows as <-. reflexivity.
  - split; [exact Hstarted|]. apply Hn. discriminate.
Defined.


End MainFacts.
